(** * UBA-Actuator: the serial transport, the line codec, the session
      controller and the settings store of the actuator control panel,
      embedded in Rocq.

    Sources: [bluetooth_manager.py] (class [BluetoothManager], class
    [CommandProtocol], function [parse_response]),
    [actuator_controller.py] (class [ActuatorControllerApp]) and
    [settings_manager.py] (class [SettingsManager]).

    Conventions of the embedding:
    - a Python [str] is a Rocq [string]; every [ascii] stands for the code
      point with the same number (code points below 256);
    - a Python [int] is a [Z]; [bytes] are [list Byte.byte];
    - a [dict] with string keys is a [gmap string _];
    - an exception is a value of [exn], raised through [result];
    - durations and clock readings are integers, in milliseconds. *)

From Stdlib Require Import ZArith QArith String Ascii DecimalString DecimalPos
  DecimalZ Lia.
From stdpp Require Import base gmap strings list.

#[local] Open Scope Z_scope.
#[local] Open Scope string_scope.

(** ** Python exceptions and results *)

Inductive exn : Type :=
| SerialException (msg : string)   (* serial.SerialException and its subclasses *)
| ValueError (msg : string)
| IndexError (msg : string)
| OSError (msg : string)
| TypeError (msg : string)
| ZeroDivisionError (msg : string).

Inductive result (A : Type) : Type :=
| Ok (a : A)
| Raise (e : exn).
Arguments Ok {A} a.
Arguments Raise {A} e.

Definition is_ValueError (e : exn) : bool :=
  match e with ValueError _ => true | _ => false end.

Definition is_SerialException (e : exn) : bool :=
  match e with SerialException _ => true | _ => false end.

(** ** Strings and integers as the interpreter defines them *)

Module PyStr.

Definition code (c : ascii) : N := N_of_ascii c.

(** [Py_ISSPACE] of pyctype.h: the C-locale white space. *)
Definition Py_ISSPACE (c : ascii) : bool :=
  ((9 <=? code c) && (code c <=? 13) || (code c =? 32))%N.

(** [str.isspace] on one code point below 256 ([_PyUnicode_IsWhitespace]). *)
Definition is_whitespace (c : ascii) : bool :=
  (Py_ISSPACE c || (28 <=? code c) && (code c <=? 31)
   || (code c =? 133) || (code c =? 160))%N.

Definition digit_value (c : ascii) : option Z :=
  if ((48 <=? code c) && (code c <=? 57))%N then Some (Z.of_N (code c) - 48)
  else None.

Fixpoint is_ascii (s : string) : bool :=
  match s with
  | EmptyString => true
  | String c r => (code c <? 128)%N && is_ascii r
  end.

(** [x in s] for strings. *)
Fixpoint str_in (x s : string) : bool :=
  String.prefix x s
  || match s with
     | EmptyString => false
     | String _ r => str_in x r
     end.

(** [s.split(sep, maxsplit)] for a separator of one character;
    [maxsplit = None] is the default (no limit). *)
Fixpoint str_split (sep : ascii) (maxsplit : option nat) (s : string)
  : list string :=
  match s with
  | EmptyString => [EmptyString]
  | String c r =>
      if Ascii.eqb c sep && negb (bool_decide (maxsplit = Some O))
      then EmptyString :: str_split sep (Nat.pred <$> maxsplit) r
      else match str_split sep maxsplit r with
           | h :: t => String c h :: t
           | [] => [String c EmptyString]
           end
  end.

(** [sep.join(parts)] *)
Fixpoint str_join (sep : string) (parts : list string) : string :=
  match parts with
  | [] => EmptyString
  | [p] => p
  | p :: ps => p +:+ sep +:+ str_join sep ps
  end.

Fixpoint lstrip_with (f : ascii -> bool) (s : string) : string :=
  match s with
  | EmptyString => EmptyString
  | String c r => if f c then lstrip_with f r else s
  end.

Fixpoint rstrip_with (f : ascii -> bool) (s : string) : string :=
  match s with
  | EmptyString => EmptyString
  | String c r =>
      match rstrip_with f r with
      | EmptyString => if f c then EmptyString else String c EmptyString
      | r' => String c r'
      end
  end.

(** [s.strip()] *)
Definition str_strip (s : string) : string :=
  rstrip_with is_whitespace (lstrip_with is_whitespace s).

(** [str(n)] and [f"{n}"] for an int. *)
Definition str_of_int (n : Z) : string :=
  NilZero.string_of_int (Z.to_int n).

(** [s.encode('utf-8')] for code points below 256. *)
Definition utf8_char (c : ascii) : list Byte.byte :=
  if (code c <? 128)%N then [byte_of_ascii c]
  else [byte_of_ascii (ascii_of_N (192 + code c / 64));
        byte_of_ascii (ascii_of_N (128 + code c mod 64))].

Fixpoint encode_utf8 (s : string) : list Byte.byte :=
  match s with
  | EmptyString => []
  | String c r => utf8_char c ++ encode_utf8 r
  end.

Section Int.

(** The interpreter's limit on the number of digits of an integer string
    ([sys.get_int_max_str_digits()]; 0 switches the check off, CPython's
    default is 4300). *)
Variable max_str_digits : N.

(** [_PyUnicode_TransformDecimalAndSpaceToASCII] for a string that is not
    pure ASCII: white space becomes a blank; no code point in 127..255 is
    a decimal digit, so any other one ends the text with a question mark. *)
Fixpoint transform_decimal_and_space (s : string) : string :=
  match s with
  | EmptyString => EmptyString
  | String c r =>
      if (code c <? 127)%N then String c (transform_decimal_and_space r)
      else if is_whitespace c then String " " (transform_decimal_and_space r)
      else "?"
  end.

(** The digit loop of [long_from_string_base]: digits and single
    underscores between them.  Returns the value, the number of digits and
    the text that follows, or [None] on a doubled or trailing underscore. *)
Fixpoint scan_digits (s : string) (prev_underscore : bool) (acc : Z) (digits : N)
  : option (Z * N * string) :=
  match s with
  | EmptyString => if prev_underscore then None else Some (acc, digits, s)
  | String c r =>
      if Ascii.eqb c "_" then
        if prev_underscore then None else scan_digits r true acc digits
      else
        match digit_value c with
        | Some d => scan_digits r false (acc * 10 + d) (N.succ digits)
        | None => if prev_underscore then None else Some (acc, digits, s)
        end
  end.

Definition invalid_literal : exn :=
  ValueError "invalid literal for int() with base 10".

(** [int(s)] for a string argument ([PyLong_FromUnicodeObject] and
    [PyLong_FromString] with base 10). *)
Definition py_int (s : string) : result Z :=
  let buffer := if is_ascii s then s else transform_decimal_and_space s in
  let str := lstrip_with Py_ISSPACE buffer in
  let '(sign, str) :=
    match str with
    | String "+" r => (1, r)
    | String "-" r => (-1, r)
    | _ => (1, str)
    end in
  match str with
  | String "_" _ => Raise invalid_literal
  | _ =>
      match scan_digits str false 0 0 with
      | None => Raise invalid_literal
      | Some (z, digits, rest) =>
          if (digits =? 0)%N then Raise invalid_literal
          else if negb (String.eqb (lstrip_with Py_ISSPACE rest) EmptyString)
          then Raise invalid_literal
          else if ((640 <? digits) && (0 <? max_str_digits)
                   && (max_str_digits <? digits))%N
          then Raise (ValueError "Exceeds the limit for integer string conversion")
          else Ok (sign * z)
      end
  end.

End Int.

End PyStr.

(** ** The protocol codec ([bluetooth_manager.py]) *)

Module Codec.
Import PyStr.

(** A value of the response dictionary: an [int] or a [str]. *)
Inductive value : Type :=
| VInt (n : Z)
| VStr (s : string).

#[global] Instance value_eq_dec : EqDecision value.
Proof. solve_decision. Defined.

(** [str(v)], as an f-string renders a dictionary value. *)
Definition str_of_value (v : value) : string :=
  match v with
  | VInt n => str_of_int n
  | VStr s => s
  end.

(** *** class CommandProtocol *)

Module CommandProtocol.
Definition set_type (actuator_type : Z) : string := "SET_TYPE:" +:+ str_of_int actuator_type.
Definition set_extend (degrees : Z) : string := "SET_EXTEND:" +:+ str_of_int degrees.
Definition set_retract (degrees : Z) : string := "SET_RETRACT:" +:+ str_of_int degrees.
Definition set_dwell_extend (ms : Z) : string := "SET_DWELL_EXT:" +:+ str_of_int ms.
Definition set_dwell_retract (ms : Z) : string := "SET_DWELL_RET:" +:+ str_of_int ms.
Definition set_speed (percent : Z) : string := "SET_SPEED:" +:+ str_of_int percent.
Definition set_cycles (count : Z) : string := "SET_CYCLES:" +:+ str_of_int count.
Definition start : string := "START".
Definition stop : string := "STOP".
Definition pause : string := "PAUSE".
Definition resume : string := "RESUME".
Definition go_home : string := "GO_HOME".
Definition go_extend : string := "GO_EXTEND".
Definition go_retract : string := "GO_RETRACT".
Definition get_status : string := "STATUS".
Definition get_settings : string := "GET_SETTINGS".
Definition ping : string := "PING".
End CommandProtocol.

Section Parse.
Variable max_str_digits : N.

(** The body of [for pair in pairs] in [parse_response]. *)
Definition parse_pair (data : gmap string value) (pair' : string)
  : result (gmap string value) :=
  if str_in "=" pair' then
    match str_split "=" (Some 1%nat) pair' with
    | [key; val] =>
        match py_int max_str_digits val with
        | Ok n => Ok (<[key := VInt n]> data)
        | Raise e =>
            if is_ValueError e then Ok (<[key := VStr val]> data)
            else Raise e
        end
    | _ => Raise (ValueError "not enough values to unpack (expected 2)")
    end
  else Ok data.

Fixpoint parse_pairs (data : gmap string value) (pairs : list string)
  : result (gmap string value) :=
  match pairs with
  | [] => Ok data
  | pair' :: rest =>
      match parse_pair data pair' with
      | Ok data' => parse_pairs data' rest
      | Raise e => Raise e
      end
  end.

(** [parse_response(response)] *)
Definition parse_response (response : string)
  : result (string * gmap string value) :=
  if negb (str_in ":" response) then Ok (response, ∅)
  else
    let parts := str_split ":" (Some 1%nat) response in
    match parts !! 0%nat with
    | None => Raise (IndexError "list index out of range")
    | Some response_type =>
        if (length parts <? 2)%nat then Ok (response_type, ∅)
        else
          match parts !! 1%nat with
          | None => Raise (IndexError "list index out of range")
          | Some parts1 =>
              if String.eqb parts1 EmptyString then Ok (response_type, ∅)
              else
                match parse_pairs ∅ (str_split "," None parts1) with
                | Ok data => Ok (response_type, data)
                | Raise e => Raise e
                end
          end
    end.

End Parse.

(** *** The codec as the specification words it *)

(** "each value is parsed as an integer when possible, else kept as a string" *)
Definition spec_value (max_str_digits : N) (text : string) : value :=
  match py_int max_str_digits text with
  | Ok n => VInt n
  | Raise _ => VStr text
  end.

(** "split once on the first [c]": what is before and what is after the
    first occurrence of [c], when there is one. *)
Fixpoint cut_first (c : ascii) (s : string) : option (string * string) :=
  match s with
  | EmptyString => None
  | String d r =>
      if Ascii.eqb d c then Some (EmptyString, r)
      else match cut_first c r with
           | Some (a, b) => Some (String d a, b)
           | None => None
           end
  end.

(** One [key=value] pair enters the data; a pair with no [=] is skipped. *)
Definition spec_field (max_str_digits : N) (data : gmap string value)
    (pair' : string) : gmap string value :=
  match cut_first "=" pair' with
  | Some (key, text) => <[key := spec_value max_str_digits text]> data
  | None => data
  end.

(** "Decoding a response line" *)
Definition spec_decode (max_str_digits : N) (line : string)
  : string * gmap string value :=
  match cut_first ":" line with
  | None => (line, ∅)
  | Some (kind, rest) =>
      (kind,
       if String.eqb rest EmptyString then ∅
       else foldl (spec_field max_str_digits) ∅ (str_split "," None rest))
  end.

(** The text of a response: the kind, a colon, and the fields as
    [key=value] joined by commas. *)
Definition encode_field (kv : string * Z) : string :=
  kv.1 +:+ "=" +:+ str_of_int kv.2.

Definition encode_response (kind : string) (fields : list (string * Z)) : string :=
  kind +:+ ":" +:+ str_join "," (encode_field <$> fields).

End Codec.

(** ** The state of the program and its surroundings *)

(** The [serial.Serial] object the manager holds. *)
Record Serial : Type := mkSerial {
  port : string;
  baudrate : Z;
  timeout : Z;
  write_timeout : Z
}.

(** A call queued on the Tk main loop with [root.after(0, ...)]. *)
Inductive UiTask : Type :=
| append_serial_output (text tag : string)
| set_ota_status (text : string)
| update_ota_progress (progress : Q) (bytes_sent total : Z)
| ota_finish_update_ui (message : string) (success : bool)
| update_connection_ui (is_connected : bool).

(** What the program does to the outside, in the order it does it. *)
Inductive Event : Type :=
| Opened (port : string) (baudrate timeout : Z)   (* serial.Serial(...) returned *)
| Written (data : list Byte.byte)                 (* serial_port.write(data) returned *)
| Flushed
| Closed
| ReaderStarted
| ReaderJoined (timeout : Z)
| ThreadStarted                                   (* the OTA worker *)
| Slept (ms : Z)
| Printed (text : string)
| ConnectionChanged (is_connected : bool)         (* on_connection_changed(...) called *)
| After (task : UiTask)                           (* root.after(0, task) *)
| SerialOutput (text tag : string)                (* the terminal pane *)
| MessageBox (kind title message : string).

(** What the surroundings do while a thread of the program is blocked. *)
Inductive EnvEvent : Type :=
| Tick (ms : Z)                 (* time passes *)
| DeviceLine (data : string)    (* Tk runs the queued _process_response(data) *)
| AbortClicked                  (* Tk runs _abort_ota_upload() *)
| LinkLost                      (* the reader's read raises: _handle_disconnect() *)
| RunPending.                   (* Tk runs the calls queued with root.after *)

(** class BluetoothManager: the attributes of [__init__]. *)
Record BluetoothManager : Type := mkManager {
  serial_port : option Serial;
  connected : bool;
  port_name : option string;
  on_data_received : bool;         (* a callable is installed *)
  on_connection_changed : bool;    (* a callable is installed *)
  _reader_thread : bool;           (* a Thread object has been created *)
  _stop_reader : bool              (* threading.Event *)
}.

(** The text of [ota_status_var]: a literal message, or the upload line
    "Uploading: <bytes_sent> / <total> bytes (<progress>%)", kept unrendered. *)
Inductive OtaStatus : Type :=
| Text (message : string)
| Uploading (bytes_sent total : Z) (progress : Q).

(** class ActuatorControllerApp: the state variables of [__init__] and the
    Tk variables the modelled methods read or write. *)
Record App : Type := mkApp {
  is_running : bool;
  is_paused : bool;
  current_cycle : Codec.value;
  target_cycles : Codec.value;
  infinite_cycles : bool;
  cycles_var : Z;
  status_var : string;
  progress_var : Q;
  ota_file_path : option string;
  ota_in_progress : bool;
  ota_abort_flag : bool;              (* threading.Event *)
  ota_ready_event : bool;             (* threading.Event *)
  ota_error_message : option string;
  ota_progress_var : Q;
  ota_status_var : OtaStatus;
  device_version_var : string
}.

(** The surroundings: the log of effects, the Tk queue, the clock, the
    outcome of the coming calls into the serial library ([None]: the call
    returns; [Some e]: it raises [e]), the answers of the coming
    [is_alive()] calls, the files, and what happens while a thread sleeps. *)
Record Env : Type := mkEnv {
  trace : list Event;
  pending : list UiTask;
  clock : Z;
  faults : list (option exn);
  alive : list bool;
  files : gmap string (list Byte.byte);
  timeline : list EnvEvent
}.

Record World : Type := mkWorld {
  bt_manager : BluetoothManager;
  app_state : App;
  env : Env
}.

(** *** Attribute assignment *)

Definition set_bt_manager (m : BluetoothManager) (w : World) : World :=
  mkWorld m (app_state w) (env w).
Definition set_app (a : App) (w : World) : World :=
  mkWorld (bt_manager w) a (env w).
Definition set_env (e : Env) (w : World) : World :=
  mkWorld (bt_manager w) (app_state w) e.

Definition set_serial_port (v : option Serial) (m : BluetoothManager) :=
  mkManager v (connected m) (port_name m) (on_data_received m)
    (on_connection_changed m) (_reader_thread m) (_stop_reader m).
Definition set_connected (v : bool) (m : BluetoothManager) :=
  mkManager (serial_port m) v (port_name m) (on_data_received m)
    (on_connection_changed m) (_reader_thread m) (_stop_reader m).
Definition set_port_name (v : option string) (m : BluetoothManager) :=
  mkManager (serial_port m) (connected m) v (on_data_received m)
    (on_connection_changed m) (_reader_thread m) (_stop_reader m).
Definition set_reader_thread (v : bool) (m : BluetoothManager) :=
  mkManager (serial_port m) (connected m) (port_name m) (on_data_received m)
    (on_connection_changed m) v (_stop_reader m).
Definition set_stop_reader (v : bool) (m : BluetoothManager) :=
  mkManager (serial_port m) (connected m) (port_name m) (on_data_received m)
    (on_connection_changed m) (_reader_thread m) v.

Definition set_is_running (v : bool) (a : App) :=
  mkApp v (is_paused a) (current_cycle a) (target_cycles a) (infinite_cycles a)
    (cycles_var a) (status_var a) (progress_var a) (ota_file_path a)
    (ota_in_progress a) (ota_abort_flag a) (ota_ready_event a)
    (ota_error_message a) (ota_progress_var a) (ota_status_var a)
    (device_version_var a).
Definition set_is_paused (v : bool) (a : App) :=
  mkApp (is_running a) v (current_cycle a) (target_cycles a) (infinite_cycles a)
    (cycles_var a) (status_var a) (progress_var a) (ota_file_path a)
    (ota_in_progress a) (ota_abort_flag a) (ota_ready_event a)
    (ota_error_message a) (ota_progress_var a) (ota_status_var a)
    (device_version_var a).
Definition set_current_cycle (v : Codec.value) (a : App) :=
  mkApp (is_running a) (is_paused a) v (target_cycles a) (infinite_cycles a)
    (cycles_var a) (status_var a) (progress_var a) (ota_file_path a)
    (ota_in_progress a) (ota_abort_flag a) (ota_ready_event a)
    (ota_error_message a) (ota_progress_var a) (ota_status_var a)
    (device_version_var a).
Definition set_target_cycles (v : Codec.value) (a : App) :=
  mkApp (is_running a) (is_paused a) (current_cycle a) v (infinite_cycles a)
    (cycles_var a) (status_var a) (progress_var a) (ota_file_path a)
    (ota_in_progress a) (ota_abort_flag a) (ota_ready_event a)
    (ota_error_message a) (ota_progress_var a) (ota_status_var a)
    (device_version_var a).
Definition set_cycles_var (v : Z) (a : App) :=
  mkApp (is_running a) (is_paused a) (current_cycle a) (target_cycles a)
    (infinite_cycles a) v (status_var a) (progress_var a) (ota_file_path a)
    (ota_in_progress a) (ota_abort_flag a) (ota_ready_event a)
    (ota_error_message a) (ota_progress_var a) (ota_status_var a)
    (device_version_var a).
Definition set_status_var (v : string) (a : App) :=
  mkApp (is_running a) (is_paused a) (current_cycle a) (target_cycles a)
    (infinite_cycles a) (cycles_var a) v (progress_var a) (ota_file_path a)
    (ota_in_progress a) (ota_abort_flag a) (ota_ready_event a)
    (ota_error_message a) (ota_progress_var a) (ota_status_var a)
    (device_version_var a).
Definition set_progress_var (v : Q) (a : App) :=
  mkApp (is_running a) (is_paused a) (current_cycle a) (target_cycles a)
    (infinite_cycles a) (cycles_var a) (status_var a) v (ota_file_path a)
    (ota_in_progress a) (ota_abort_flag a) (ota_ready_event a)
    (ota_error_message a) (ota_progress_var a) (ota_status_var a)
    (device_version_var a).
Definition set_ota_file_path (v : option string) (a : App) :=
  mkApp (is_running a) (is_paused a) (current_cycle a) (target_cycles a)
    (infinite_cycles a) (cycles_var a) (status_var a) (progress_var a)
    v (ota_in_progress a) (ota_abort_flag a) (ota_ready_event a)
    (ota_error_message a) (ota_progress_var a) (ota_status_var a)
    (device_version_var a).
Definition set_ota_in_progress (v : bool) (a : App) :=
  mkApp (is_running a) (is_paused a) (current_cycle a) (target_cycles a)
    (infinite_cycles a) (cycles_var a) (status_var a) (progress_var a)
    (ota_file_path a) v (ota_abort_flag a) (ota_ready_event a)
    (ota_error_message a) (ota_progress_var a) (ota_status_var a)
    (device_version_var a).
Definition set_ota_abort_flag (v : bool) (a : App) :=
  mkApp (is_running a) (is_paused a) (current_cycle a) (target_cycles a)
    (infinite_cycles a) (cycles_var a) (status_var a) (progress_var a)
    (ota_file_path a) (ota_in_progress a) v (ota_ready_event a)
    (ota_error_message a) (ota_progress_var a) (ota_status_var a)
    (device_version_var a).
Definition set_ota_ready_event (v : bool) (a : App) :=
  mkApp (is_running a) (is_paused a) (current_cycle a) (target_cycles a)
    (infinite_cycles a) (cycles_var a) (status_var a) (progress_var a)
    (ota_file_path a) (ota_in_progress a) (ota_abort_flag a) v
    (ota_error_message a) (ota_progress_var a) (ota_status_var a)
    (device_version_var a).
Definition set_ota_error_message (v : option string) (a : App) :=
  mkApp (is_running a) (is_paused a) (current_cycle a) (target_cycles a)
    (infinite_cycles a) (cycles_var a) (status_var a) (progress_var a)
    (ota_file_path a) (ota_in_progress a) (ota_abort_flag a)
    (ota_ready_event a) v (ota_progress_var a) (ota_status_var a)
    (device_version_var a).
Definition set_ota_progress_var (v : Q) (a : App) :=
  mkApp (is_running a) (is_paused a) (current_cycle a) (target_cycles a)
    (infinite_cycles a) (cycles_var a) (status_var a) (progress_var a)
    (ota_file_path a) (ota_in_progress a) (ota_abort_flag a)
    (ota_ready_event a) (ota_error_message a) v (ota_status_var a)
    (device_version_var a).
Definition set_ota_status_var (v : OtaStatus) (a : App) :=
  mkApp (is_running a) (is_paused a) (current_cycle a) (target_cycles a)
    (infinite_cycles a) (cycles_var a) (status_var a) (progress_var a)
    (ota_file_path a) (ota_in_progress a) (ota_abort_flag a)
    (ota_ready_event a) (ota_error_message a) (ota_progress_var a) v
    (device_version_var a).
Definition set_device_version_var (v : string) (a : App) :=
  mkApp (is_running a) (is_paused a) (current_cycle a) (target_cycles a)
    (infinite_cycles a) (cycles_var a) (status_var a) (progress_var a)
    (ota_file_path a) (ota_in_progress a) (ota_abort_flag a)
    (ota_ready_event a) (ota_error_message a) (ota_progress_var a)
    (ota_status_var a) v.

Definition set_trace (v : list Event) (e : Env) :=
  mkEnv v (pending e) (clock e) (faults e) (alive e) (files e) (timeline e).
Definition set_pending (v : list UiTask) (e : Env) :=
  mkEnv (trace e) v (clock e) (faults e) (alive e) (files e) (timeline e).
Definition set_clock (v : Z) (e : Env) :=
  mkEnv (trace e) (pending e) v (faults e) (alive e) (files e) (timeline e).
Definition set_faults (v : list (option exn)) (e : Env) :=
  mkEnv (trace e) (pending e) (clock e) v (alive e) (files e) (timeline e).
Definition set_alive (v : list bool) (e : Env) :=
  mkEnv (trace e) (pending e) (clock e) (faults e) v (files e) (timeline e).
Definition set_files (v : gmap string (list Byte.byte)) (e : Env) :=
  mkEnv (trace e) (pending e) (clock e) (faults e) (alive e) v (timeline e).
Definition set_timeline (v : list EnvEvent) (e : Env) :=
  mkEnv (trace e) (pending e) (clock e) (faults e) (alive e) (files e) v.

(** *** Statements: state passing with exceptions *)

Definition M (A : Type) : Type := World -> result A * World.

Definition ret {A} (a : A) : M A := fun w => (Ok a, w).
Definition raise {A} (e : exn) : M A := fun w => (Raise e, w).
Definition bind {A B} (m : M A) (k : A -> M B) : M B :=
  fun w => match m w with
           | (Ok a, w') => k a w'
           | (Raise e, w') => (Raise e, w')
           end.

Declare Scope py_scope.
Delimit Scope py_scope with py.
Notation "x <- m ;; k" := (bind m (fun x => k))
  (at level 100, m at next level, right associativity) : py_scope.
Notation "m ;; k" := (bind m (fun _ => k))
  (at level 100, right associativity) : py_scope.
#[local] Open Scope py_scope.

(** [try: body  except <class> as e: handler e] *)
Definition try_except {A} (body : M A) (caught : exn -> bool)
    (handler : exn -> M A) : M A :=
  fun w => match body w with
           | (Raise e, w') => if caught e then handler e w' else (Raise e, w')
           | r => r
           end.

Definition any_exception (e : exn) : bool := true.

(** The state a statement leaves, whether it returns or raises (a
    callback that raises is reported by Tk and the main loop goes on). *)
Definition completed {A} (m : M A) (w : World) : World := snd (m w).

Definition gets {A} (f : World -> A) : M A := fun w => (Ok (f w), w).
Definition modify (f : World -> World) : M unit := fun w => (Ok tt, f w).

Definition assign_manager (f : BluetoothManager -> BluetoothManager) : M unit :=
  modify (fun w => set_bt_manager (f (bt_manager w)) w).
Definition assign_app (f : App -> App) : M unit :=
  modify (fun w => set_app (f (app_state w)) w).
Definition assign_env (f : Env -> Env) : M unit :=
  modify (fun w => set_env (f (env w)) w).

Definition emit (ev : Event) : M unit :=
  assign_env (fun e => set_trace (trace e ++ [ev]) e).

(** [root.after(0, task)] *)
Definition root_after (task : UiTask) : M unit :=
  emit (After task) ;;
  assign_env (fun e => set_pending (pending e ++ [task]) e).

(** A call into the serial library: it returns or raises, as the
    surroundings decide. *)
Definition library_call : M unit :=
  fun w => match faults (env w) with
           | [] => (Ok tt, w)
           | None :: rest => (Ok tt, set_env (set_faults rest (env w)) w)
           | Some e :: rest => (Raise e, set_env (set_faults rest (env w)) w)
           end.

(** [thread.is_alive()] *)
Definition is_alive : M bool :=
  fun w => match alive (env w) with
           | [] => (Ok false, w)
           | b :: rest => (Ok b, set_env (set_alive rest (env w)) w)
           end.

(** [print(text)] *)
Definition print (text : string) : M unit := emit (Printed text).

Definition str_of_exn (e : exn) : string :=
  match e with
  | SerialException msg | ValueError msg | IndexError msg
  | OSError msg | TypeError msg | ZeroDivisionError msg => msg
  end.

Definition newline : string := String "010" EmptyString.

(** [a / b] on ints; the float is kept as the exact fraction in lowest
    terms. *)
Definition truediv (a b : Z) : M Q :=
  if (b =? 0)%Z then raise (ZeroDivisionError "division by zero")
  else ret (Qred (inject_Z a / inject_Z b)).

(** ** class BluetoothManager *)

Module Transport.
Import PyStr.

(** [if self.on_connection_changed: self.on_connection_changed(state)].
    The callable the application installs is [_on_connection_changed],
    which queues [_update_connection_ui(state)] on the main loop. *)
Definition notify_connection_changed (state : bool) : M unit :=
  installed <- gets (fun w => on_connection_changed (bt_manager w)) ;;
  if installed then
    emit (ConnectionChanged state) ;;
    root_after (update_connection_ui state)
  else ret tt.

(** [time.sleep] of the settle delay in [connect] *)
Definition settle (ms : Z) : M unit :=
  emit (Slept ms) ;;
  assign_env (fun e => set_clock (clock e + ms) e).

Definition _handle_disconnect : M unit :=
  assign_manager (set_connected false) ;;
  notify_connection_changed false.

Definition is_connected : M bool :=
  gets (fun w => connected (bt_manager w)
                && bool_decide (serial_port (bt_manager w) ≠ None)).

Definition get_port_name : M (option string) :=
  gets (fun w => if connected (bt_manager w) then port_name (bt_manager w)
                else None).

Definition not_ready (m : BluetoothManager) : bool :=
  negb (connected m) || bool_decide (serial_port m = None).

Definition send_command (command : string) : M bool :=
  m <- gets bt_manager ;;
  if not_ready m then ret false
  else
    try_except
      (let cmd := str_strip command +:+ newline in
       library_call ;; emit (Written (encode_utf8 cmd)) ;;
       library_call ;; emit Flushed ;;
       ret true)
      is_SerialException
      (fun e =>
         print ("Send failed: " +:+ str_of_exn e) ;;
         _handle_disconnect ;;
         ret false).

Definition send_bytes (data : list Byte.byte) : M bool :=
  m <- gets bt_manager ;;
  if not_ready m then ret false
  else
    try_except
      (library_call ;; emit (Written data) ;;
       library_call ;; emit Flushed ;;
       ret true)
      is_SerialException
      (fun e =>
         print ("Send bytes failed: " +:+ str_of_exn e) ;;
         _handle_disconnect ;;
         ret false).

Definition disconnect : M unit :=
  assign_manager (set_stop_reader true) ;;
  thread <- gets (fun w => _reader_thread (bt_manager w)) ;;
  (if thread then
     running <- is_alive ;;
     if running then emit (ReaderJoined 1000) else ret tt
   else ret tt) ;;
  handle <- gets (fun w => serial_port (bt_manager w)) ;;
  (if bool_decide (handle ≠ None) then
     try_except (library_call ;; emit Closed) any_exception (fun _ => ret tt)
   else ret tt) ;;
  assign_manager (set_serial_port None) ;;
  assign_manager (set_connected false) ;;
  assign_manager (set_port_name None) ;;
  notify_connection_changed false.

Definition connect (port : string) (baudrate timeout : Z) : M bool :=
  already <- gets (fun w => connected (bt_manager w)) ;;
  (if already then disconnect else ret tt) ;;
  try_except
    (library_call ;; emit (Opened port baudrate timeout) ;;
     assign_manager (set_serial_port (Some (mkSerial port baudrate timeout timeout))) ;;
     assign_manager (set_port_name (Some port)) ;;
     assign_manager (set_connected true) ;;
     assign_manager (set_stop_reader false) ;;
     assign_manager (set_reader_thread true) ;;
     emit ReaderStarted ;;
     notify_connection_changed true ;;
     settle 500 ;;
     _ <- send_command "PING" ;;
     ret true)
    is_SerialException
    (fun e =>
       print ("Connection failed: " +:+ str_of_exn e) ;;
       assign_manager (set_connected false) ;;
       assign_manager (set_serial_port None) ;;
       ret false).

(** The defaults of [connect]: 115200 baud, 2.0 s. *)
Definition connect_default (port : string) : M bool := connect port 115200 2000.

End Transport.

(** ** class ActuatorControllerApp *)

Module Controller.
Import PyStr Codec Transport.

Definition degree_sign : string := String "176" EmptyString.

(** [if text:] on an optional string *)
Definition truthy (text : option string) : bool :=
  match text with
  | Some s => negb (String.eqb s EmptyString)
  | None => false
  end.

Definition _append_serial_output (text tag : string) : M unit :=
  emit (SerialOutput text tag).

(** Only the state and text of widgets change. *)
Definition _update_button_states : M unit := ret tt.

Definition showwarning (title message : string) : M unit :=
  emit (MessageBox "warning" title message).

Definition showinfo (title message : string) : M unit :=
  emit (MessageBox "info" title message).

(** The progress label, a widget, is left out. *)
Definition _update_progress : M unit :=
  a <- gets app_state ;;
  if infinite_cycles a then ret tt
  else
    match target_cycles a with
    | VStr _ =>
        raise (TypeError "'>' not supported between instances of 'str' and 'int'")
    | VInt target =>
        if (0 <? target)%Z then
          match current_cycle a with
          | VInt current =>
              percent <- truediv current target ;;
              assign_app (set_progress_var percent)
          | VStr _ =>
              raise (TypeError "unsupported operand type(s) for /: 'str' and 'int'")
          end
        else ret tt
    end.

(** *** Control methods *)

Definition _adjust_cycles (delta : Z) : M unit :=
  current <- gets (fun w => cycles_var (app_state w)) ;;
  let new_val := Z.max 1 (Z.min 100000 (current + delta)) in
  assign_app (set_cycles_var new_val) ;;
  assign_app (set_target_cycles (VInt new_val)) ;;
  _ <- send_command (CommandProtocol.set_cycles new_val) ;;
  _update_progress.

Definition _on_infinite_changed : M unit := _update_progress.

Definition _start_cycles : M unit :=
  ready <- is_connected ;;
  if negb ready then showwarning "Not Connected" "Please connect first"
  else
    assign_app (set_current_cycle (VInt 0)) ;;
    infinite <- gets (fun w => infinite_cycles (app_state w)) ;;
    (if infinite then
       _ <- send_command (CommandProtocol.set_cycles 0) ;; ret tt
     else
       target <- gets (fun w => cycles_var (app_state w)) ;;
       assign_app (set_target_cycles (VInt target)) ;;
       _ <- send_command (CommandProtocol.set_cycles target) ;; ret tt) ;;
    _update_progress ;;
    _ <- send_command CommandProtocol.start ;;
    assign_app (set_is_running true) ;;
    assign_app (set_is_paused false) ;;
    _update_button_states ;;
    assign_app (set_status_var "Running cycles...").

Definition _pause_cycles : M unit :=
  ready <- is_connected ;;
  if negb ready then ret tt
  else
    paused <- gets (fun w => is_paused (app_state w)) ;;
    (if paused then
       _ <- send_command CommandProtocol.resume ;;
       assign_app (set_is_paused false) ;;
       assign_app (set_status_var "Resumed")
     else
       _ <- send_command CommandProtocol.pause ;;
       assign_app (set_is_paused true) ;;
       assign_app (set_status_var "Paused")) ;;
    _update_button_states.

Definition _stop_cycles : M unit :=
  ready <- is_connected ;;
  if negb ready then ret tt
  else
    _ <- send_command CommandProtocol.stop ;;
    assign_app (set_is_running false) ;;
    assign_app (set_is_paused false) ;;
    _update_button_states ;;
    assign_app (set_status_var "Stopped - at EXTEND").

(** *** Firmware methods *)

Definition _ota_update_ui (message : string) (success : bool) : M unit :=
  assign_app (set_ota_in_progress false) ;;
  assign_app (set_ota_status_var (Text message)) ;;
  if success then
    assign_app (set_ota_progress_var 1) ;;
    showinfo "OTA Complete" ("Firmware uploaded!" +:+ newline +:+ "Device restarting.")
  else
    assign_app (set_ota_progress_var 0).

(** [file_path] is what the file dialog returned (empty when cancelled);
    the labels of the tab are left out. *)
Definition _browse_firmware (file_path : string) : M unit :=
  if negb (String.eqb file_path EmptyString) then
    assign_app (set_ota_file_path (Some file_path))
  else
    assign_app (set_ota_file_path None).

Definition _ota_finish (message : string) (success : bool) : M unit :=
  root_after (ota_finish_update_ui message success).

Definition _update_ota_progress (progress : Q) (bytes_sent total : Z) : M unit :=
  assign_app (set_ota_progress_var progress) ;;
  assign_app (set_ota_status_var (Uploading bytes_sent total progress)).

Definition _abort_ota_upload : M unit :=
  busy <- gets (fun w => ota_in_progress (app_state w)) ;;
  if busy then
    assign_app (set_ota_abort_flag true) ;;
    _ <- send_command "OTA_ABORT" ;;
    _append_serial_output ">>> OTA_ABORT" "sent"
  else ret tt.

(** The settings-tab status line and the indicator widgets are left out. *)
Definition _update_connection_ui (is_connected : bool) : M unit :=
  if is_connected then
    name <- get_port_name ;;
    assign_app (set_status_var "Connected") ;;
    _append_serial_output
      ("Connected to " +:+ match name with Some p => p | None => "None" end)
      "received"
  else
    assign_app (set_status_var "Disconnected") ;;
    _append_serial_output "Disconnected" "error" ;;
    running <- gets (fun w => is_running (app_state w)) ;;
    if running then
      assign_app (set_is_running false) ;;
      assign_app (set_is_paused false) ;;
      _update_button_states
    else ret tt.

Section Interpreter.
Variable max_str_digits : N.

(** *** Data handling *)

Definition _process_response (data : string) : M unit :=
  _append_serial_output data "received" ;;
  match parse_response max_str_digits data with
  | Raise e => raise e
  | Ok (resp_type, resp_data) =>
      if String.eqb resp_type "PONG" then
        assign_app (set_status_var "Connected - Ready")
      else if String.eqb resp_type "STATUS" then
        let state := default (VStr "UNKNOWN") (resp_data !! "STATE") in
        let pos := default (VInt 0) (resp_data !! "POS") in
        assign_app (set_status_var
          (str_of_value state +:+ " - Position: " +:+ str_of_value pos
           +:+ degree_sign))
      else if String.eqb resp_type "PROGRESS" then
        let cycle := default (VInt 0) (resp_data !! "CYCLE") in
        let target := default (VInt 0) (resp_data !! "TARGET") in
        assign_app (set_current_cycle cycle) ;;
        infinite <- gets (fun w => infinite_cycles (app_state w)) ;;
        (if negb infinite then assign_app (set_target_cycles target) else ret tt) ;;
        _update_progress
      else if String.eqb resp_type "COMPLETE" then
        let cycles := default (VInt 0) (resp_data !! "CYCLES") in
        assign_app (set_status_var
          ("Complete - " +:+ str_of_value cycles +:+ " cycles finished")) ;;
        assign_app (set_is_running false) ;;
        assign_app (set_is_paused false) ;;
        _update_button_states
      else if String.eqb resp_type "OK" then
        if str_in "OTA_READY" data then
          assign_app (set_ota_status_var (Text "Device ready - sending...")) ;;
          assign_app (set_ota_ready_event true)
        else ret tt
      else if String.eqb resp_type "VERSION" then
        version <-
          (if str_in ":" data then
             match str_split ":" (Some 1%nat) data !! 1%nat with
             | Some v => ret v
             | None => raise (IndexError "list index out of range")
             end
           else ret "Unknown") ;;
        assign_app (set_device_version_var version)
      else if String.eqb resp_type "OTA_PROGRESS" then
        let parts := str_split ":" None data in
        if (2 <=? length parts)%nat then
          try_except
            (match parts !! 1%nat with
             | None => raise (IndexError "list index out of range")
             | Some text =>
                 match py_int max_str_digits text with
                 | Raise e => raise e
                 | Ok n =>
                     percent <- truediv n 100 ;;
                     assign_app (set_ota_progress_var percent)
                 end
             end)
            is_ValueError
            (fun _ => ret tt)
        else ret tt
      else if String.eqb resp_type "ERR" then
        assign_app (set_status_var ("Error: " +:+ data)) ;;
        if str_in "OTA" data then
          assign_app (set_ota_error_message (Some data)) ;;
          assign_app (set_ota_ready_event true) ;;
          busy <- gets (fun w => ota_in_progress (app_state w)) ;;
          if busy then _ota_finish ("OTA Error: " +:+ data) false else ret tt
        else ret tt
      else ret tt
  end.

(** *** The other threads, seen from a blocked one *)

Definition run_task (task : UiTask) : M unit :=
  match task with
  | append_serial_output text tag => _append_serial_output text tag
  | set_ota_status text => assign_app (set_ota_status_var (Text text))
  | update_ota_progress progress bytes_sent total =>
      _update_ota_progress progress bytes_sent total
  | ota_finish_update_ui message success => _ota_update_ui message success
  | update_connection_ui is_connected => _update_connection_ui is_connected
  end.

Definition run_pending (w : World) : World :=
  let tasks := pending (env w) in
  foldl (fun w' task => completed (run_task task) w')
        (set_env (set_pending [] (env w)) w) tasks.

Definition advance (ms : Z) (w : World) : World :=
  set_env (set_clock (clock (env w) + ms) (env w)) w.

Definition env_step (ev : EnvEvent) (w : World) : World :=
  match ev with
  | Tick ms => advance ms w
  | DeviceLine data => completed (_process_response data) w
  | AbortClicked => completed _abort_ota_upload w
  | LinkLost => completed _handle_disconnect w
  | RunPending => run_pending w
  end.

Definition rest_of_timeline (events : list EnvEvent) (w : World) : World :=
  set_env (set_timeline events (env w)) w.

(** What happens during the next [ms] milliseconds. *)
Fixpoint pass_time (ms : Z) (events : list EnvEvent) (w : World) : World :=
  match events with
  | [] => rest_of_timeline [] (advance ms w)
  | Tick t :: rest =>
      if (t <=? ms)%Z then pass_time (ms - t) rest (advance t w)
      else rest_of_timeline (Tick (t - ms) :: rest) (advance ms w)
  | ev :: rest => pass_time ms rest (env_step ev w)
  end.

(** [time.sleep] on the worker thread *)
Definition time_sleep (ms : Z) : M unit :=
  emit (Slept ms) ;;
  modify (fun w => pass_time ms (timeline (env w)) w).

(** [ota_ready_event.wait(timeout)]: returns at once when the event is
    set, and false when the time runs out first. *)
Fixpoint await_ready (ms : Z) (events : list EnvEvent) (w : World)
  : bool * World :=
  if ota_ready_event (app_state w) then (true, rest_of_timeline events w)
  else
    match events with
    | [] => (false, rest_of_timeline [] (advance ms w))
    | Tick t :: rest =>
        if (t <=? ms)%Z then await_ready (ms - t) rest (advance t w)
        else (false, rest_of_timeline (Tick (t - ms) :: rest) (advance ms w))
    | ev :: rest => await_ready ms rest (env_step ev w)
    end.

Definition ota_ready_event_wait (timeout : Z) : M bool :=
  fun w => let '(flag, w') := await_ready timeout (timeline (env w)) w in
           (Ok flag, w').

(** [os.path.getsize(path)] *)
Definition getsize (path : option string) : M Z :=
  match path with
  | None =>
      raise (TypeError
        "stat: path should be string, bytes, os.PathLike or integer, not NoneType")
  | Some p =>
      content <- gets (fun w => files (env w) !! p) ;;
      match content with
      | Some bytes => ret (Z.of_nat (length bytes))
      | None => raise (OSError ("[Errno 2] No such file or directory: '" +:+ p +:+ "'"))
      end
  end.

(** [open(path, 'rb')]: the bytes still to be read *)
Definition open_rb (path : option string) : M (list Byte.byte) :=
  match path with
  | None => raise (TypeError "expected str, bytes or os.PathLike object, not NoneType")
  | Some p =>
      content <- gets (fun w => files (env w) !! p) ;;
      match content with
      | Some bytes => ret bytes
      | None => raise (OSError ("[Errno 2] No such file or directory: '" +:+ p +:+ "'"))
      end
  end.

(** [os.path.exists(path)] *)
Definition path_exists (path : string) : M bool :=
  gets (fun w => bool_decide (files (env w) !! path ≠ None)).

(** [confirmed] is the answer to the "Confirm Upload" question; the
    worker thread it starts is [_ota_upload_thread]. *)
Definition _start_ota_upload (confirmed : bool) : M unit :=
  ready <- is_connected ;;
  if negb ready then showwarning "Not Connected" "Please connect first"
  else
    path <- gets (fun w => ota_file_path (app_state w)) ;;
    found <- (if truthy path then path_exists (default EmptyString path) else ret false) ;;
    if negb found then showwarning "No File" "Please select a firmware file"
    else
      busy <- gets (fun w => ota_in_progress (app_state w)) ;;
      if busy then ret tt
      else
        file_size <- getsize path ;;
        if negb confirmed then ret tt
        else
          assign_app (set_ota_in_progress true) ;;
          assign_app (set_ota_abort_flag false) ;;
          assign_app (set_ota_progress_var 0) ;;
          assign_app (set_ota_status_var (Text "Starting upload...")) ;;
          emit ThreadStarted.

(** How the [while] loop of the upload ends: by [return], or by running
    through ([break] or a false condition). *)
Inductive LoopEnd : Type := Returned | Completed.

(** The [while bytes_sent < file_size] loop of [_ota_upload_thread];
    [f] is what is left of the file.  [None]: the bound [fuel] on the
    number of iterations was reached. *)
Fixpoint transfer_loop (fuel : nat) (file_size chunk_size : Z)
    (f : list Byte.byte) (bytes_sent last_success_time : Z)
  : M (option LoopEnd) :=
  if (bytes_sent <? file_size)%Z then
    match fuel with
    | O => ret None
    | S fuel' =>
        aborted <- gets (fun w => ota_abort_flag (app_state w)) ;;
        if aborted then
          _ota_finish "Aborted by user" false ;; ret (Some Returned)
        else
          ready <- is_connected ;;
          if negb ready then
            _ota_finish "Connection lost" false ;; ret (Some Returned)
          else
            now <- gets (fun w => clock (env w)) ;;
            if (5000 <? now - last_success_time)%Z then
              _ota_finish "Upload timeout" false ;; ret (Some Returned)
            else
              let chunk := take (Z.to_nat chunk_size) f in
              let f' := drop (Z.to_nat chunk_size) f in
              if bool_decide (chunk = []) then ret (Some Completed)
              else
                sent <- send_bytes chunk ;;
                if negb sent then
                  _ota_finish "Failed to send data" false ;; ret (Some Returned)
                else
                  last_success_time' <- gets (fun w => clock (env w)) ;;
                  let bytes_sent' := (bytes_sent + Z.of_nat (length chunk))%Z in
                  progress <- truediv bytes_sent' file_size ;;
                  root_after (update_ota_progress progress bytes_sent' file_size) ;;
                  time_sleep 20 ;;
                  transfer_loop fuel' file_size chunk_size f' bytes_sent'
                    last_success_time'
    end
  else ret (Some Completed).

(** [_ota_upload_thread]; [None] when [fuel] did not suffice. *)
Definition _ota_upload_thread (fuel : nat) : M (option unit) :=
  try_except
    (path <- gets (fun w => ota_file_path (app_state w)) ;;
     file_size <- getsize path ;;
     let chunk_size := 512%Z in
     let ready_timeout := 5000%Z in
     assign_app (set_ota_ready_event false) ;;
     assign_app (set_ota_error_message None) ;;
     _ <- send_command ("OTA_START:" +:+ str_of_int file_size) ;;
     root_after (append_serial_output (">>> OTA_START:" +:+ str_of_int file_size) "sent") ;;
     root_after (set_ota_status "Waiting for device ready...") ;;
     ready <- ota_ready_event_wait ready_timeout ;;
     if negb ready then
       message <- gets (fun w => ota_error_message (app_state w)) ;;
       (if truthy message then
          _ota_finish ("Device error: " +:+ default EmptyString message) false
        else _ota_finish "Timeout waiting for device ready" false) ;;
       ret (Some tt)
     else
       message <- gets (fun w => ota_error_message (app_state w)) ;;
       if truthy message then ret (Some tt)
       else
         aborted <- gets (fun w => ota_abort_flag (app_state w)) ;;
         if aborted then _ota_finish "Aborted by user" false ;; ret (Some tt)
         else
           let bytes_sent := 0%Z in
           last_success_time <- gets (fun w => clock (env w)) ;;
           f <- open_rb path ;;
           ended <- transfer_loop fuel file_size chunk_size f bytes_sent
                      last_success_time ;;
           match ended with
           | None => ret None
           | Some Returned => ret (Some tt)
           | Some Completed =>
               root_after (set_ota_status "Verifying...") ;;
               time_sleep 2000 ;;
               _ota_finish "Upload complete - device restarting" true ;;
               ret (Some tt)
           end)
    any_exception
    (fun e => _ota_finish ("Error: " +:+ str_of_exn e) false ;; ret (Some tt)).

End Interpreter.

(** *** The state after [__init__] *)

Definition initial_manager : BluetoothManager :=
  mkManager None false None true true false false.

Definition initial_app : App :=
  mkApp false false (VInt 0) (VInt 50) false 50 "Ready" 0 None false false
    false None 0 (Text "Ready") "Unknown".

Definition quiet_env : Env := mkEnv [] [] 0 [] [] ∅ [].

Definition initial_world : World := mkWorld initial_manager initial_app quiet_env.

(** The state after a successful [connect("COM3")]. *)
Definition connected_world : World :=
  completed (connect_default "COM3") initial_world.

(** The state when the upload of the file [bytes] has just been started
    on that connection, with [events] to come. *)
Definition upload_world (bytes : list Byte.byte) (events : list EnvEvent) : World :=
  let stored :=
    set_env (set_files {[ "firmware.bin" := bytes ]} (env connected_world))
      connected_world in
  let started :=
    completed (_start_ota_upload true)
      (completed (_browse_firmware "firmware.bin") stored) in
  set_env (set_timeline events (env started)) started.

End Controller.

(** * The vocabulary of the statements

    Observations of runs of the model: what a run leaves in the log, which
    part of the state it keeps, and the conditions under which the
    surroundings stay out of the way. *)

Module Observations.
Import PyStr Codec Transport Controller.

(** ** Decimal numerals *)

(** The number of digits of a decimal numeral. *)
Definition uint_digits (d : Decimal.uint) : N :=
  N.of_nat (String.length (NilEmpty.string_of_uint d)).

(** The number of decimal digits of [n], as [str] writes it. *)
Definition int_digits (n : Z) : N :=
  N.of_nat (String.length (str_of_int (Z.abs n))).

(** ** Effects on the state *)

(** The state after [ev] is logged. *)
Definition logged (ev : Event) (w : World) : World :=
  set_env (set_trace (trace (env w) ++ [ev]) (env w)) w.

(** The state after [task] is queued on the main loop. *)
Definition queued (task : UiTask) (w : World) : World :=
  set_env (set_pending (pending (env w) ++ [task])
             (set_trace (trace (env w) ++ [After task]) (env w))) w.

(** The state after effects [evs] and [calls] calls into the library. *)
Definition after_effects (evs : list Event) (calls : nat) (w : World) : World :=
  set_env (set_faults (drop calls (faults (env w)))
             (set_trace (trace (env w) ++ evs)%list (env w))) w.

(** [m] does not change the part [π] of the state. *)
Definition Keeps {B A} (π : World → B) (m : M A) : Prop :=
  ∀ w, π (completed m w) = π w.

(** A part of the state that does not look at the surroundings. *)
Definition ignores_env {B} (π : World → B) : Prop :=
  ∀ w e, π (set_env e w) = π w.

(** ** The serial library *)

(** The next [n] calls into the serial library return. *)
Definition calls_return (n : nat) (w : World) : Prop :=
  Forall (λ outcome, outcome = None) (take n (faults (env w))).

(** The library raises nothing but serial faults in its next [n] calls. *)
Definition serial_faults (n : nat) (w : World) : Prop :=
  Forall (λ outcome, match outcome with
                     | Some e => is_SerialException e = true
                     | None => True
                     end) (take n (faults (env w))).

(** ** The connection *)

(** The notification "connection changed: false". *)
Definition is_disconnect_notice (ev : Event) : bool :=
  match ev with ConnectionChanged false => true | _ => false end.

(** How often "connection changed: false" has been notified. *)
Fixpoint disconnect_notices (tr : list Event) : nat :=
  match tr with
  | [] => 0
  | ev :: rest =>
      (if is_disconnect_notice ev then 1 else 0) + disconnect_notices rest
  end%nat.

(** How often a handle has been closed: the calls of [close] that
    returned. *)
Fixpoint closes (tr : list Event) : nat :=
  match tr with
  | [] => 0
  | Closed :: rest => S (closes rest)
  | _ :: rest => closes rest
  end.

(** The next call into the serial library raises. *)
Definition next_call_raises (w : World) : bool :=
  match faults (env w) with
  | Some _ :: _ => true
  | _ => false
  end.

(** The abort flag of the OTA session. *)
Definition abort_flag (w : World) : bool := ota_abort_flag (app_state w).

(** What [_handle_disconnect] leaves in the log. *)
Definition disconnect_handling (w : World) : list Event :=
  if on_connection_changed (bt_manager w)
  then [ConnectionChanged false; After (update_connection_ui false)]
  else [].

(** ** The application *)

(** The cycle settings of the application. *)
Definition cycle_settings (w : World) : Z * value * bool :=
  (cycles_var (app_state w), target_cycles (app_state w),
   infinite_cycles (app_state w)).

(** The file path, the ready latch and the error message. *)
Definition core (w : World) : option string * bool * option string :=
  (ota_file_path (app_state w), ota_ready_event (app_state w),
   ota_error_message (app_state w)).

(** The fields of an OTA session, all cleared. *)
Definition session_cleared (a : App) : Prop :=
  ota_file_path a = None ∧ ota_in_progress a = false ∧ ota_abort_flag a = false
  ∧ ota_ready_event a = false ∧ ota_error_message a = None.

(** What the status line shows after the wait has timed out. *)
Definition timeout_message : string := "Timeout waiting for device ready".

(** A firmware image of 2048 bytes. *)
Definition firmware : list Byte.byte := repeat Byte.x00 2048.

(** The events of the next [ms] milliseconds. *)
Fixpoint within (ms : Z) (events : list EnvEvent) : list EnvEvent :=
  match events with
  | [] => []
  | Tick t :: rest =>
      if (t <=? ms)%Z then Tick t :: within (ms - t) rest else []
  | ev :: rest => ev :: within ms rest
  end.

(** ** The OTA session *)

(** The state after the ready line of the device has been handled. *)
Definition ready_line_handled (w : World) : World :=
  set_app (set_ota_ready_event true
             (set_ota_status_var (Text "Device ready - sending...") (app_state w)))
    (logged (SerialOutput "OK:OTA_READY" "received") w).

(** The state in which the transfer starts: the session has been
    announced, the ready line handled, and [rest] is still to come. *)
Definition transfer_start (file_size : Z) (rest : list EnvEvent) (w : World)
  : World :=
  rest_of_timeline rest
    (ready_line_handled
       (queued (set_ota_status "Waiting for device ready...")
          (queued (append_serial_output
                     (">>> OTA_START:" +:+ str_of_int file_size) "sent")
             (after_effects
                [Written (encode_utf8
                            (str_strip ("OTA_START:" +:+ str_of_int file_size)
                             +:+ newline));
                 Flushed] 2
                (set_app (set_ota_error_message None
                            (set_ota_ready_event false (app_state w))) w))))).

(** Nothing disturbs the transfer: no abort, an open link, a library
    that returns, and nothing else going on. *)
Definition steady (w : World) : Prop :=
  ota_abort_flag (app_state w) = false
  ∧ connected (bt_manager w) = true ∧ serial_port (bt_manager w) ≠ None
  ∧ faults (env w) = [] ∧ timeline (env w) = [].

(** What one chunk leaves in the log. *)
Definition chunk_events (chunk : list Byte.byte) (sent file_size : Z)
  : list Event :=
  [Written chunk; Flushed;
   After (update_ota_progress (Qred (inject_Z sent / inject_Z file_size))
            sent file_size);
   Slept 20].

(** What the announcement of the session and the ready line of the device
    leave in the log. *)
Definition start_events (file_size : Z) : list Event :=
  [Written (encode_utf8 (("OTA_START:" +:+ str_of_int file_size) +:+ newline));
   Flushed;
   After (append_serial_output (">>> OTA_START:" +:+ str_of_int file_size) "sent");
   After (set_ota_status "Waiting for device ready...");
   SerialOutput "OK:OTA_READY" "received"].

(** The state after the abort button has been handled on an open link. *)
Definition abort_handled (w : World) : World :=
  logged (SerialOutput ">>> OTA_ABORT" "sent")
    (after_effects
       [Written (encode_utf8 ("OTA_ABORT" +:+ newline)); Flushed] 2
       (set_app (set_ota_abort_flag true (app_state w)) w)).

(** ** What depends on the digit limit of [int] *)

Section Interpreter.
Variable max_str_digits : N.

(** The digit-count check of [int] lets [digits] digits through. *)
Definition digits_allowed (digits : N) : Prop :=
  ((640 <? digits) && (0 <? max_str_digits) && (max_str_digits <? digits))%N = false.

(** A field the decoder reads back: a key free of commas and equal
    signs, and a number [int] accepts. *)
Definition field_ok (kv : string * Z) : Prop :=
  str_in "," kv.1 = false ∧ str_in "=" kv.1 = false
  ∧ digits_allowed (int_digits kv.2).

(** The kind of a response line. *)
Definition kind_of (data : string) : string := (spec_decode max_str_digits data).1.

(** An OK event whose raw line holds OTA_READY. *)
Definition ready_line (data : string) : bool :=
  String.eqb (kind_of data) "OK" && str_in "OTA_READY" data.

(** An ERR event whose raw line holds OTA. *)
Definition error_line (data : string) : bool :=
  String.eqb (kind_of data) "ERR" && str_in "OTA" data.

(** An event of the surroundings that leaves the ready latch alone. *)
Definition quiet (ev : EnvEvent) : bool :=
  match ev with
  | DeviceLine data => negb (ready_line data || error_line data)
  | _ => true
  end.

(** The state after one chunk has gone out and the pacing delay is over. *)
Definition chunk_sent (chunk : list Byte.byte) (sent file_size : Z) (w : World)
  : World :=
  pass_time max_str_digits 20 (timeline (env w))
    (logged (Slept 20)
       (queued (update_ota_progress (Qred (inject_Z sent / inject_Z file_size))
                  sent file_size)
          (after_effects [Written chunk; Flushed] 2 w))).

(** What follows the loop in [_ota_upload_thread]. *)
Definition after_transfer (ended : option LoopEnd) : M (option unit) :=
  match ended with
  | None => ret None
  | Some Returned => ret (Some tt)
  | Some Completed =>
      root_after (set_ota_status "Verifying...") ;;
      time_sleep max_str_digits 2000 ;;
      _ota_finish "Upload complete - device restarting" true ;;
      ret (Some tt)
  end.

End Interpreter.

End Observations.

(** ** class BluetoothManager: the other methods *)

Module Manager.
Import PyStr Transport.

Definition get_serial_port : M (option Serial) :=
  gets (fun w => if connected (bt_manager w) then serial_port (bt_manager w)
                else None).

(** What one turn of the reader finds at the port. *)
Inductive Incoming : Type :=
| Nothing                  (* in_waiting is 0 *)
| Line (text : string)     (* readline() decoded, errors ignored *)
| Fails (e : exn).         (* in_waiting or readline() raises *)

(** [_read_loop], the body of the reader thread, along what it finds at
    the port turn by turn.  It returns the lines it has handed to
    [on_data_received], in order, and whether the loop has ended ([false]:
    [incoming] is used up and the loop is still going round).  The
    listener, which the application sets to [_on_data_received] (a
    [root.after]), is taken to return. *)
Fixpoint _read_loop (incoming : list Incoming) (delivered : list string)
  : M (list string * bool) :=
  stopped <- gets (fun w => _stop_reader (bt_manager w)) ;;
  if stopped then ret (delivered, true)
  else
    m <- gets bt_manager ;;
    if not_ready m then ret (delivered, true)
    else
      match incoming with
      | [] => ret (delivered, false)
      | Nothing :: rest => settle 10 ;; _read_loop rest delivered
      | Line text :: rest =>
          let line := str_strip text in
          if negb (String.eqb line EmptyString) && on_data_received m
          then _read_loop rest (delivered ++ [line])
          else _read_loop rest delivered
      | Fails e :: rest =>
          if is_SerialException e then
            print ("Read error: " +:+ str_of_exn e) ;;
            _handle_disconnect ;;
            ret (delivered, true)
          else
            print ("Unexpected read error: " +:+ str_of_exn e) ;;
            settle 100 ;;
            _read_loop rest delivered
      end.

End Manager.

(** ** class ActuatorControllerApp: the other handlers *)

Module Handlers.
Import PyStr Codec Transport Controller.

(** *** Serial terminal methods *)

(** [text] is what the entry field holds; the field itself, which is
    emptied after the send, is left out. *)
Definition _send_serial_command (text : string) : M unit :=
  let cmd := str_strip text in
  if String.eqb cmd EmptyString then ret tt
  else
    ready <- is_connected ;;
    if negb ready then _append_serial_output "Not connected!" "error"
    else
      _append_serial_output (">>> " +:+ cmd) "sent" ;;
      _ <- send_command cmd ;;
      ret tt.

Definition _send_quick_command (cmd : string) : M unit :=
  ready <- is_connected ;;
  if negb ready then _append_serial_output "Not connected!" "error"
  else
    _append_serial_output (">>> " +:+ cmd) "sent" ;;
    _ <- send_command cmd ;;
    ret tt.

(** *** Control methods *)

Definition _go_home : M unit :=
  ready <- is_connected ;;
  if negb ready then showwarning "Not Connected" "Please connect first"
  else
    _ <- send_command CommandProtocol.go_home ;;
    assign_app (set_status_var "Moving to HOME").

Definition _go_extend : M unit :=
  ready <- is_connected ;;
  if negb ready then showwarning "Not Connected" "Please connect first"
  else
    _ <- send_command CommandProtocol.go_extend ;;
    assign_app (set_status_var "Moving to EXTEND").

Definition _go_retract : M unit :=
  ready <- is_connected ;;
  if negb ready then showwarning "Not Connected" "Please connect first"
  else
    _ <- send_command CommandProtocol.go_retract ;;
    assign_app (set_status_var "Moving to RETRACT").

(** *** Firmware methods *)

Definition _check_firmware_version : M unit :=
  ready <- is_connected ;;
  if negb ready then showwarning "Not Connected" "Please connect first"
  else
    _ <- send_command "GET_VERSION" ;;
    _append_serial_output ">>> GET_VERSION" "sent".

(** *** Data handling *)

(** [_on_connection_changed(connected)], the listener of the manager:
    it queues [_update_connection_ui(connected)] on the main loop. *)
Definition _on_connection_changed (connected : bool) : M unit :=
  root_after (update_connection_ui connected).

End Handlers.

(** ** class SettingsManager ([settings_manager.py]) *)

Module Settings.
Import Observations.

(** A value held in a setting.  The application stores [None], bools,
    ints and strs; [json.load] also gives floats, lists and dicts, which
    are only stored, written back and read again: such a value is kept as
    the text [json.dump] writes for it, with the number of digits of the
    longest integer in it.  Other objects (tuples, sets, ...) are not
    values here. *)
Inductive pyval : Type :=
| PNone
| PBool (b : bool)
| PInt (n : Z)
| PStr (s : string)
| PJson (text : string) (digits : N).

(** The number of digits of the longest integer in a value. *)
Definition longest_int (v : pyval) : N :=
  match v with
  | PInt n => int_digits n
  | PJson _ digits => digits
  | _ => 0%N
  end.

(** What a JSON text stands for: an object, or a value of another type
    (with the number of digits of the longest integer in it). *)
Inductive document : Type :=
| Mapping (fields : gmap string pyval)
| NoMapping (type_name : string) (digits : N).

(** What a file holds, by what [json.load] makes of it: JSON text; text
    at which the decoder gives up, with what it says ([JSONDecodeError]);
    bytes that are no text in the encoding of the locale.  A text in which
    an integer beyond the digit limit stands before the place where the
    decoder would give up counts as JSON text: [int] raises first. *)
Inductive content : Type :=
| Json (doc : document)
| NotJson (why : string)
| Undecodable (why : string).

Inductive error : Type :=
| OSError (msg : string)              (* IOError is OSError *)
| JSONDecodeError (msg : string)
| UnicodeDecodeError (msg : string)
| TypeError (msg : string)
| ValueError                          (* of [int] and [str] at the digit limit *)
| KeyError (key : string).

Inductive outcome (A : Type) : Type :=
| Returns (a : A)
| Raises (e : error).
Arguments Returns {A} a.
Arguments Raises {A} e.

(** The manager, the files, the outcome of the coming calls into the file
    system ([None]: the call works; [Some msg]: it raises [OSError(msg)])
    and what has been printed. *)
Record Store : Type := mkStore {
  settings_file : string;
  settings : gmap string pyval;
  disk : gmap string content;
  io : list (option string);
  stdout : list string
}.

Definition set_settings_file (v : string) (s : Store) : Store :=
  mkStore v (settings s) (disk s) (io s) (stdout s).
Definition set_settings (v : gmap string pyval) (s : Store) : Store :=
  mkStore (settings_file s) v (disk s) (io s) (stdout s).
Definition set_disk (v : gmap string content) (s : Store) : Store :=
  mkStore (settings_file s) (settings s) v (io s) (stdout s).
Definition set_io (v : list (option string)) (s : Store) : Store :=
  mkStore (settings_file s) (settings s) (disk s) v (stdout s).
Definition set_stdout (v : list string) (s : Store) : Store :=
  mkStore (settings_file s) (settings s) (disk s) (io s) v.

(** *** Statements *)

Definition Op (A : Type) : Type := Store -> outcome A * Store.

Definition sret {A} (a : A) : Op A := fun s => (Returns a, s).
Definition sraise {A} (e : error) : Op A := fun s => (Raises e, s).
Definition sbind {A B} (m : Op A) (k : A -> Op B) : Op B :=
  fun s => match m s with
           | (Returns a, s') => k a s'
           | (Raises e, s') => (Raises e, s')
           end.

Declare Scope settings_scope.
Delimit Scope settings_scope with settings.
Notation "x <- m ;; k" := (sbind m (fun x => k))
  (at level 100, m at next level, right associativity) : settings_scope.
Notation "m ;; k" := (sbind m (fun _ => k))
  (at level 100, right associativity) : settings_scope.
#[local] Open Scope settings_scope.

(** [try: body except ...]: [handler e] is the clause that catches [e],
    if there is one. *)
Definition stry {A} (body : Op A) (handler : error -> option (Op A)) : Op A :=
  fun s => match body s with
           | (Raises e, s') =>
               match handler e with
               | Some clause => clause s'
               | None => (Raises e, s')
               end
           | r => r
           end.

Definition sgets {A} (f : Store -> A) : Op A := fun s => (Returns (f s), s).
Definition smodify (f : Store -> Store) : Op unit := fun s => (Returns tt, f s).

(** The state a call leaves, whether it returns or raises. *)
Definition after {A} (m : Op A) (s : Store) : Store := snd (m s).

(** A call into the file system. *)
Definition fs_call : Op unit :=
  fun s => match io s with
           | [] => (Returns tt, s)
           | None :: rest => (Returns tt, set_io rest s)
           | Some msg :: rest => (Raises (OSError msg), set_io rest s)
           end.

Definition sprint (text : string) : Op unit :=
  smodify (fun s => set_stdout (stdout s ++ [text]) s).

(** *** DEFAULT_SETTINGS *)

Definition DEFAULT_SETTINGS : gmap string pyval :=
  list_to_map
    [("actuator_type", PInt 6700);
     ("extend_offset", PInt 0);
     ("retract_offset", PInt 0);
     ("dwell_extend_ms", PInt 2200);
     ("dwell_retract_ms", PInt 2200);
     ("speed_percent", PInt 100);
     ("paired_device", PNone);
     ("paired_device_address", PNone);
     ("window_geometry", PNone)].

Section Interpreter.

(** The digit limit of the interpreter ([sys.get_int_max_str_digits()]). *)
Variable max_str_digits : N.

(** What the decoder says of the text that [json.dump] had written of the
    settings when it raised. *)
Variable unfinished : gmap string pyval -> string.

(** [a / b] of pathlib. *)
Variable joinpath : string -> string -> string.

(** [int] takes a numeral of [digits] digits. *)
Definition int_reads (digits : N) : bool :=
  negb ((640 <? digits) && (0 <? max_str_digits) && (max_str_digits <? digits))%N.

(** [str] renders an integer of [digits] digits. *)
Definition int_writes (digits : N) : bool :=
  negb ((0 <? max_str_digits) && (max_str_digits <? digits))%N.

(** [json.load] builds every value of the object. *)
Definition reads (doc : document) : bool :=
  match doc with
  | Mapping fields =>
      bool_decide (map_Forall (fun _ v => int_reads (longest_int v) = true) fields)
  | NoMapping _ digits => int_reads digits
  end.

(** [json.dump] writes every value of the settings. *)
Definition writes (data : gmap string pyval) : bool :=
  bool_decide (map_Forall (fun _ v => int_writes (longest_int v) = true) data).

(** *** The file *)

(** [self.settings_file.exists()] *)
Definition file_exists : Op bool :=
  fs_call ;;
  sgets (fun s => bool_decide (disk s !! settings_file s ≠ None)).

(** [open(self.settings_file, "r")] and [json.load(f)] *)
Definition read_json : Op document :=
  fs_call ;;
  found <- sgets (fun s => disk s !! settings_file s) ;;
  match found with
  | None => sraise (OSError "[Errno 2] No such file or directory")
  | Some text =>
      fs_call ;;
      match text with
      | Json doc => if reads doc then sret doc else sraise ValueError
      | NotJson why => sraise (JSONDecodeError why)
      | Undecodable why => sraise (UnicodeDecodeError why)
      end
  end.

(** What the decoder says of an empty file. *)
Definition empty_file : content :=
  NotJson "Expecting value: line 1 column 1 (char 0)".

(** [open(self.settings_file, "w")], which empties the file, and
    [json.dump(self.settings, f, indent=2)], then the end of the [with]
    block, where the text reaches the file, in one piece or not at all.
    When [json.dump] raises, at an integer [str] does not render, the
    block is left with what was written so far. *)
Definition write_json : Op unit :=
  fs_call ;;
  smodify (fun s => set_disk (<[settings_file s := empty_file]> (disk s)) s) ;;
  data <- sgets settings ;;
  if writes data then
    fs_call ;;
    smodify (fun s => set_disk (<[settings_file s := Json (Mapping data)]>
                                  (disk s)) s)
  else
    fs_call ;;
    smodify (fun s => set_disk (<[settings_file s := NotJson (unfinished data)]>
                                  (disk s)) s) ;;
    sraise ValueError.

(** *** The methods *)

Definition load : Op (gmap string pyval) :=
  stry
    (present <- file_exists ;;
     if present then
       loaded <- read_json ;;
       match loaded with
       | Mapping fields => smodify (set_settings (fields ∪ DEFAULT_SETTINGS))
       | NoMapping type_name _ =>
           sraise (TypeError ("'" +:+ type_name +:+ "' object is not a mapping"))
       end
     else sret tt)
    (fun e =>
       match e with
       | JSONDecodeError msg | OSError msg =>
           Some (sprint ("Error loading settings: " +:+ msg) ;;
                 smodify (set_settings DEFAULT_SETTINGS))
       | _ => None
       end) ;;
  sgets settings.

Definition save : Op bool :=
  stry
    (write_json ;; sret true)
    (fun e =>
       match e with
       | OSError msg =>
           Some (sprint ("Error saving settings: " +:+ msg) ;; sret false)
       | _ => None
       end).

Definition get (key : string) (default : pyval) : Op pyval :=
  sgets (fun s => from_option id default (settings s !! key)).

(** [get] with the default of its second argument, [None] *)
Definition get_default (key : string) : Op pyval := get key PNone.

Definition set (key : string) (value : pyval) : Op bool :=
  smodify (fun s => set_settings (<[key := value]> (settings s)) s) ;;
  save.

Definition get_all : Op (gmap string pyval) := sgets settings.

Definition reset_to_defaults : Op bool :=
  smodify (set_settings DEFAULT_SETTINGS) ;;
  save.

(** [self.settings[key]] *)
Definition getitem (key : string) : Op pyval :=
  found <- sgets (fun s => settings s !! key) ;;
  match found with
  | Some v => sret v
  | None => sraise (KeyError key)
  end.

(** The properties and their setters. *)
Definition actuator_type : Op pyval := getitem "actuator_type".
Definition set_actuator_type (value : pyval) : Op unit :=
  set "actuator_type" value ;; sret tt.
Definition extend_offset : Op pyval := getitem "extend_offset".
Definition set_extend_offset (value : pyval) : Op unit :=
  set "extend_offset" value ;; sret tt.
Definition retract_offset : Op pyval := getitem "retract_offset".
Definition set_retract_offset (value : pyval) : Op unit :=
  set "retract_offset" value ;; sret tt.
Definition dwell_extend_ms : Op pyval := getitem "dwell_extend_ms".
Definition set_dwell_extend_ms (value : pyval) : Op unit :=
  set "dwell_extend_ms" value ;; sret tt.
Definition dwell_retract_ms : Op pyval := getitem "dwell_retract_ms".
Definition set_dwell_retract_ms (value : pyval) : Op unit :=
  set "dwell_retract_ms" value ;; sret tt.
Definition speed_percent : Op pyval := getitem "speed_percent".
Definition set_speed_percent (value : pyval) : Op unit :=
  set "speed_percent" value ;; sret tt.
Definition paired_device : Op pyval := getitem "paired_device".
Definition set_paired_device (value : pyval) : Op unit :=
  set "paired_device" value ;; sret tt.
Definition paired_device_address : Op pyval := getitem "paired_device_address".
Definition set_paired_device_address (value : pyval) : Op unit :=
  set "paired_device_address" value ;; sret tt.

(** [__init__]; [appdata] is the APPDATA variable of the environment.
    The path of the file stands for the file. *)
Definition init (file : option string) (appdata : option string) : Op unit :=
  match file with
  | None =>
      let app_data := from_option id "." appdata in
      let settings_dir := joinpath app_data "ActuatorController" in
      fs_call ;;
      smodify (set_settings_file (joinpath settings_dir "settings.json"))
  | Some name => smodify (set_settings_file name)
  end ;;
  smodify (set_settings DEFAULT_SETTINGS) ;;
  load ;;
  sret tt.

End Interpreter.

End Settings.

(** ** More vocabulary *)

Module Notions.
Import PyStr Codec Transport Controller Manager Observations.

(** One call of a method of the manager. *)
Inductive Call : Type :=
| CallConnect (port : string) (baudrate timeout : Z)
| CallDisconnect
| CallSendCommand (command : string)
| CallSendBytes (data : list Byte.byte)
| CallHandleDisconnect.

Definition run_call (c : Call) (w : World) : World :=
  match c with
  | CallConnect port baudrate timeout => completed (connect port baudrate timeout) w
  | CallDisconnect => completed disconnect w
  | CallSendCommand command => completed (send_command command) w
  | CallSendBytes data => completed (send_bytes data) w
  | CallHandleDisconnect => completed _handle_disconnect w
  end.

(** While the connected flag is up there is a port object and a port
    name. *)
Definition linked (m : BluetoothManager) : Prop :=
  connected m = true → serial_port m ≠ None ∧ port_name m ≠ None.

(** The lines the reader hands on from what it finds at the port: the
    lines that are not empty once stripped, up to the first serial
    fault. *)
Fixpoint deliverable (incoming : list Incoming) : list string :=
  match incoming with
  | [] => []
  | Nothing :: rest => deliverable rest
  | Line text :: rest =>
      if String.eqb (str_strip text) EmptyString then deliverable rest
      else str_strip text :: deliverable rest
  | Fails e :: rest =>
      if is_SerialException e then [] else deliverable rest
  end.

(** What the reader leaves in the log: its sleeps, the messages it
    prints and, at the first serial fault, the notification of the
    listener when there is one ([notify]). *)
Fixpoint reader_log (notify : bool) (incoming : list Incoming) : list Event :=
  match incoming with
  | [] => []
  | Nothing :: rest => Slept 10 :: reader_log notify rest
  | Line _ :: rest => reader_log notify rest
  | Fails e :: rest =>
      if is_SerialException e then
        Printed ("Read error: " +:+ str_of_exn e)
        :: (if notify
            then [ConnectionChanged false; After (update_connection_ui false)]
            else [])
      else
        Printed ("Unexpected read error: " +:+ str_of_exn e)
        :: Slept 100 :: reader_log notify rest
  end.

(** The time the reader spends asleep, in milliseconds. *)
Fixpoint reader_sleep (incoming : list Incoming) : Z :=
  match incoming with
  | [] => 0
  | Nothing :: rest => 10 + reader_sleep rest
  | Line _ :: rest => reader_sleep rest
  | Fails e :: rest =>
      if is_SerialException e then 0 else 100 + reader_sleep rest
  end.

(** A serial fault is among what the reader finds. *)
Definition broken (incoming : list Incoming) : bool :=
  existsb (λ found, match found with
                    | Fails e => is_SerialException e
                    | _ => false
                    end) incoming.

(** The commands [CommandProtocol] builds. *)
Inductive Command : Type :=
| SetType (actuator_type : Z)
| SetExtend (degrees : Z)
| SetRetract (degrees : Z)
| SetDwellExtend (ms : Z)
| SetDwellRetract (ms : Z)
| SetSpeed (percent : Z)
| SetCycles (count : Z)
| Start | Stop | Pause | Resume | GoHome | GoExtend | GoRetract
| GetStatus | GetSettings | Ping.

Definition command_text (c : Command) : string :=
  match c with
  | SetType n => CommandProtocol.set_type n
  | SetExtend n => CommandProtocol.set_extend n
  | SetRetract n => CommandProtocol.set_retract n
  | SetDwellExtend n => CommandProtocol.set_dwell_extend n
  | SetDwellRetract n => CommandProtocol.set_dwell_retract n
  | SetSpeed n => CommandProtocol.set_speed n
  | SetCycles n => CommandProtocol.set_cycles n
  | Start => CommandProtocol.start
  | Stop => CommandProtocol.stop
  | Pause => CommandProtocol.pause
  | Resume => CommandProtocol.resume
  | GoHome => CommandProtocol.go_home
  | GoExtend => CommandProtocol.go_extend
  | GoRetract => CommandProtocol.go_retract
  | GetStatus => CommandProtocol.get_status
  | GetSettings => CommandProtocol.get_settings
  | Ping => CommandProtocol.ping
  end.

(** The integer a command carries. *)
Definition argument (c : Command) : option Z :=
  match c with
  | SetType n | SetExtend n | SetRetract n | SetDwellExtend n
  | SetDwellRetract n | SetSpeed n | SetCycles n => Some n
  | _ => None
  end.

(** [str] renders [n]: the interpreter has no digit limit, or [n] has no
    more digits than the limit. *)
Definition printable (max_str_digits : N) (n : Z) : Prop :=
  (max_str_digits = 0 ∨ int_digits n ≤ max_str_digits)%N.

(** The builder of the command returns: [str] renders its argument. *)
Definition built (max_str_digits : N) (c : Command) : Prop :=
  ∀ n, argument c = Some n → printable max_str_digits n.

(** An entry as [parse_response] can return it: the key holds neither a
    comma nor an equals sign, and a value is kept as a string only when
    [int] refuses it (it holds no comma either). *)
Definition entry_ok (max_str_digits : N) (key : string) (v : value) : Prop :=
  str_in "," key = false ∧ str_in "=" key = false
  ∧ match v with
    | VInt n => True
    | VStr text =>
        str_in "," text = false ∧ ∃ e, py_int max_str_digits text = Raise e
    end.

(** The kinds of response [_process_response] acts on. *)
Definition known_kinds : list string :=
  ["PONG"; "STATUS"; "PROGRESS"; "COMPLETE"; "OK"; "VERSION"; "OTA_PROGRESS";
   "ERR"].

(** A firmware file is selected and exists. *)
Definition firmware_found (w : World) : bool :=
  match ota_file_path (app_state w) with
  | Some p => negb (String.eqb p EmptyString) && bool_decide (files (env w) !! p ≠ None)
  | None => false
  end.

(** The link is up: the connected flag and a port object. *)
Definition link_up (w : World) : bool :=
  connected (bt_manager w) && bool_decide (serial_port (bt_manager w) ≠ None).

(** The files as they are stored. *)
Definition stored (w : World) : gmap string (list Byte.byte) := files (env w).

(** The data of the writes of a log, in order. *)
Fixpoint written (tr : list Event) : list (list Byte.byte) :=
  match tr with
  | [] => []
  | Written data :: rest => data :: written rest
  | _ :: rest => written rest
  end.

(** [bytes] cut into pieces of [size] bytes, the last one holding what is
    left. *)
Definition pieces (size : nat) (bytes : list Byte.byte) : list (list Byte.byte) :=
  reshape (replicate ((length bytes + (size - 1)) / size) size) bytes.

(** *** Settings *)

(** Every key of the defaults is there. *)
Definition complete (m : gmap string Settings.pyval) : Prop :=
  ∀ key, is_Some (Settings.DEFAULT_SETTINGS !! key) → is_Some (m !! key).

(** The next [n] calls into the file system work. *)
Definition fs_works (n : nat) (s : Settings.Store) : Prop :=
  Forall (λ outcome, outcome = None) (take n (Settings.io s)).

(** A digit limit the interpreter accepts: none, or at least 640. *)
Definition limit_ok (max_str_digits : N) : Prop :=
  (max_str_digits = 0 ∨ 640 ≤ max_str_digits)%N.

(** One call of a method of the settings manager. *)
Inductive SettingsCall : Type :=
| CallLoad
| CallSave
| CallGet (key : string) (default : Settings.pyval)
| CallSet (key : string) (value : Settings.pyval)
| CallGetAll
| CallReset.

Definition run_settings_call (max_str_digits : N)
    (unfinished : gmap string Settings.pyval → string)
    (c : SettingsCall) (s : Settings.Store) : Settings.Store :=
  match c with
  | CallLoad => Settings.after (Settings.load max_str_digits) s
  | CallSave => Settings.after (Settings.save max_str_digits unfinished) s
  | CallGet key default => Settings.after (Settings.get key default) s
  | CallSet key value =>
      Settings.after (Settings.set max_str_digits unfinished key value) s
  | CallGetAll => Settings.after Settings.get_all s
  | CallReset =>
      Settings.after (Settings.reset_to_defaults max_str_digits unfinished) s
  end.

(** *** The buttons *)

(** What the user can do on the control, terminal and firmware tabs. *)
Inductive Action : Type :=
| PressHome | PressExtend | PressRetract
| PressStart | PressPause | PressStop
| PressAdjust (delta : Z)
| ToggleInfinite
| EnterCommand (text : string)
| PressQuick (cmd : string)
| PressVersion
| PickFirmware (file_path : string)
| PressUpload (confirmed : bool)
| PressAbort.

Definition perform (a : Action) : M unit :=
  match a with
  | PressHome => Handlers._go_home
  | PressExtend => Handlers._go_extend
  | PressRetract => Handlers._go_retract
  | PressStart => _start_cycles
  | PressPause => _pause_cycles
  | PressStop => _stop_cycles
  | PressAdjust delta => _adjust_cycles delta
  | ToggleInfinite => _on_infinite_changed
  | EnterCommand text => Handlers._send_serial_command text
  | PressQuick cmd => Handlers._send_quick_command cmd
  | PressVersion => Handlers._check_firmware_version
  | PickFirmware file_path => _browse_firmware file_path
  | PressUpload confirmed => _start_ota_upload confirmed
  | PressAbort => _abort_ota_upload
  end.

(** What the serial port has seen: the manager, the coming outcomes of
    the library and the data written. *)
Definition port_view (w : World)
  : BluetoothManager * list (option exn) * list (list Byte.byte) :=
  (bt_manager w, faults (env w), written (trace (env w))).

End Notions.

(** * Theorems *)

Module PyStrFacts.
Import PyStr Observations.

(** [c] occurs in [s] *)
Abbreviation has_char c s := (str_in (String c EmptyString) s).

Lemma str_in_cons c d r :
  has_char c (String d r) = Ascii.eqb d c || has_char c r.
Proof.
  cbn [str_in String.prefix].
  destruct (ascii_dec c d) as [->|Hne].
  - rewrite Ascii.eqb_refl. by destruct r.
  - destruct (Ascii.eqb_spec d c) as [->|_]; [done|]. reflexivity.
Qed.

Lemma str_in_nil c : has_char c EmptyString = false.
Proof. reflexivity. Qed.

Lemma str_in_app c a b :
  has_char c (a +:+ b) = has_char c a || has_char c b.
Proof.
  induction a as [|d a IH]; [done|].
  change (String d a +:+ b) with (String d (a +:+ b)).
  rewrite !str_in_cons, IH. by rewrite orb_assoc.
Qed.

Lemma str_split_absent c m s :
  has_char c s = false → str_split c m s = [s].
Proof.
  induction s as [|d r IH]; [done|].
  rewrite str_in_cons. intros [Hd Hr]%orb_false_elim.
  cbn [str_split]. rewrite Hd. cbn. by rewrite (IH Hr).
Qed.

Lemma str_split_zero c s : str_split c (Some O) s = [s].
Proof.
  induction s as [|d r IH]; [done|].
  cbn [str_split]. rewrite IH.
  by rewrite bool_decide_eq_true_2, andb_false_r.
Qed.

Lemma str_split_once c a b :
  has_char c a = false →
  str_split c (Some 1%nat) (a +:+ String c b) = [a; b].
Proof.
  induction a as [|d a IH]; intros Ha.
  - change (str_split c (Some 1%nat) (String c b) = [EmptyString;b]).
    cbn [str_split]. rewrite Ascii.eqb_refl. cbn [fmap option_fmap option_map Nat.pred].
    by rewrite str_split_zero.
  - rewrite str_in_cons in Ha. apply orb_false_elim in Ha as [Hd Ha].
    change (String d a +:+ String c b) with (String d (a +:+ String c b)).
    cbn [str_split]. rewrite Hd, (IH Ha). reflexivity.
Qed.

Lemma str_split_all c a b :
  has_char c a = false →
  str_split c None (a +:+ String c b) = a :: str_split c None b.
Proof.
  induction a as [|d a IH]; intros Ha.
  - change (str_split c None (String c b) = EmptyString :: str_split c None b).
    cbn [str_split]. by rewrite Ascii.eqb_refl.
  - rewrite str_in_cons in Ha. apply orb_false_elim in Ha as [Hd Ha].
    change (String d a +:+ String c b) with (String d (a +:+ String c b)).
    cbn [str_split]. rewrite Hd, (IH Ha). reflexivity.
Qed.

Lemma str_split_join c parts :
  parts ≠ [] →
  Forall (λ p, has_char c p = false) parts →
  str_split c None (str_join (String c EmptyString) parts) = parts.
Proof.
  intros Hne Hall. induction Hall as [|p ps Hp Hps IH]; [done|].
  destruct ps as [|q ps].
  - cbn. by apply str_split_absent.
  - change (str_join (String c EmptyString) (p :: q :: ps))
      with (p +:+ String c EmptyString +:+ str_join (String c EmptyString) (q :: ps)).
    change (String c EmptyString +:+ ?x) with (String c x).
    rewrite (str_split_all _ _ _ Hp). f_equal. by apply IH.
Qed.

(** *** Decimal text of an integer *)

Import Decimal.

Lemma digit_value_first c :
  digit_value c ≠ None →
  Py_ISSPACE c = false ∧ (code c <? 128)%N = true ∧
  c ≠ "+"%char ∧ c ≠ "-"%char ∧ c ≠ "_"%char.
Proof.
  destruct c as [[] [] [] [] [] [] [] []]; intros H; try (by destruct H);
    repeat split; discriminate.
Qed.

Lemma uint_first_digit d :
  d ≠ Nil →
  ∃ c r, NilEmpty.string_of_uint d = String c r ∧ digit_value c ≠ None.
Proof. destruct d; [done|..]; intros _; eexists _, _; (split; [reflexivity|done]). Qed.

Lemma uint_is_ascii d : is_ascii (NilEmpty.string_of_uint d) = true.
Proof. induction d; cbn [NilEmpty.string_of_uint is_ascii]; rewrite ?IHd; reflexivity. Qed.

Lemma uint_no_char c d :
  digit_value c = None → has_char c (NilEmpty.string_of_uint d) = false.
Proof.
  intros Hc. induction d; [done|..];
    cbn [NilEmpty.string_of_uint]; rewrite str_in_cons, IHd, orb_false_r;
    (match goal with |- Ascii.eqb ?k c = false =>
       destruct (Ascii.eqb_spec k c) as [<-|]; [discriminate Hc|reflexivity] end).
Qed.

Ltac scan_done :=
  match goal with
  | |- Some (?a, _, ?s) = Some (_, _, _) =>
      apply (f_equal (fun k : N => Some (a, k, s))); lia
  end.

Lemma scan_digits_uint_pos d : ∀ a n,
  scan_digits (NilEmpty.string_of_uint d) false (Z.pos a) n
  = Some (Z.pos (Pos.of_uint_acc d a), (n + uint_digits d)%N, EmptyString).
Proof.
  unfold uint_digits.
  induction d; intros a n; cbn [NilEmpty.string_of_uint];
    [cbn; scan_done|..];
    (cbn [scan_digits]; change (Ascii.eqb _ "_") with false; cbv iota;
     match goal with |- context [digit_value ?k] =>
       let v := eval vm_compute in (digit_value k) in
       change (digit_value k) with v end; cbv iota;
     cbn [Pos.of_uint_acc String.length];
     match goal with |- scan_digits _ _ ?acc _ = _ =>
       match goal with |- context [Pos.of_uint_acc _ ?b] =>
         replace acc with (Z.pos b) by lia end end;
     rewrite IHd; scan_done).
Qed.

Lemma scan_digits_uint d : ∀ n,
  scan_digits (NilEmpty.string_of_uint d) false 0 n
  = Some (Z.of_N (Pos.of_uint d), (n + uint_digits d)%N, EmptyString).
Proof.
  unfold uint_digits.
  induction d; intros n; cbn [NilEmpty.string_of_uint];
    [cbn; scan_done|..];
    cbn [scan_digits]; change (Ascii.eqb _ "_") with false; cbv iota;
    match goal with |- context [digit_value ?k] =>
       let v := eval vm_compute in (digit_value k) in
       change (digit_value k) with v end; cbv iota.
  1: { change (0 * 10 + 0) with 0. rewrite IHd.
       cbn [Pos.of_uint String.length]. scan_done. }
  all: match goal with |- scan_digits _ _ ?acc _ = _ =>
         let v := eval vm_compute in acc in change acc with v end;
       rewrite scan_digits_uint_pos; unfold uint_digits;
       cbn [Pos.of_uint String.length Z.of_N]; scan_done.
Qed.

Section IntOfStr.
Variable max_str_digits : N.

Lemma py_int_unsigned s c r z digits :
  s = String c r → digit_value c ≠ None → is_ascii s = true →
  scan_digits s false 0 0 = Some (z, digits, EmptyString) →
  digits ≠ 0%N → digits_allowed max_str_digits digits →
  py_int max_str_digits s = Ok z
  ∧ py_int max_str_digits (String "-" s) = Ok (- z).
Proof.
  intros -> Hc Hascii Hscan Hn Hlim.
  destruct (digit_value_first c Hc) as (Hsp & Hlt & Hplus & Hminus & Hus).
  assert (Hn' : (digits =? 0)%N = false) by by apply N.eqb_neq.
  split.
  - unfold py_int. rewrite Hascii. cbn [lstrip_with]. rewrite Hsp.
    destruct c as [[] [] [] [] [] [] [] []]; try done;
      rewrite Hscan, Hn'; cbn; rewrite Hlim; f_equal; lia.
  - unfold py_int.
    change (is_ascii (String "-" (String c r))) with (is_ascii (String c r)).
    rewrite Hascii. cbn [lstrip_with].
    change (Py_ISSPACE "-") with false. cbv iota.
    destruct c as [[] [] [] [] [] [] [] []]; try done;
      rewrite Hscan, Hn'; cbn; rewrite Hlim; f_equal; lia.
Qed.

Lemma str_of_int_pos p :
  str_of_int (Z.pos p) = NilEmpty.string_of_uint (Pos.to_uint p)
  ∧ str_of_int (Z.neg p) = String "-" (NilEmpty.string_of_uint (Pos.to_uint p)).
Proof.
  unfold str_of_int. cbn [Z.to_int NilZero.string_of_int].
  pose proof (Unsigned.to_uint_nonnil p). by destruct (Pos.to_uint p).
Qed.

Lemma py_int_str_of_int n :
  digits_allowed max_str_digits (int_digits n) →
  py_int max_str_digits (str_of_int n) = Ok n.
Proof.
  destruct n as [|p|p]; [reflexivity|..]; unfold int_digits;
    change (Z.abs _) with (Z.pos p); destruct (str_of_int_pos p) as [Hpos Hneg];
    rewrite Hpos; intros Hlim;
    destruct (uint_first_digit _ (Unsigned.to_uint_nonnil p)) as (c & r & Hcr & Hc);
    assert (Hscan : scan_digits (NilEmpty.string_of_uint (Pos.to_uint p)) false 0 0
                    = Some (Z.pos p, uint_digits (Pos.to_uint p), EmptyString))
      by (by rewrite scan_digits_uint, Unsigned.of_to);
    assert (Hnz : uint_digits (Pos.to_uint p) ≠ 0%N)
      by (unfold uint_digits; rewrite Hcr; cbn; lia);
    pose proof (py_int_unsigned _ c r _ _ Hcr Hc (uint_is_ascii _) Hscan Hnz Hlim)
      as [Hu Hs].
  - exact Hu.
  - by rewrite Hneg.
Qed.

Lemma py_int_raises s e :
  py_int max_str_digits s = Raise e → is_ValueError e = true.
Proof.
  unfold py_int.
  repeat (match goal with
          | |- context [match ?x with _ => _ end] => destruct x
          | |- context [if ?x then _ else _] => destruct x
          end; try (intros [= <-]; reflexivity); try discriminate).
Qed.

End IntOfStr.

Lemma str_of_int_no_char c n :
  digit_value c = None → c ≠ "-"%char → has_char c (str_of_int n) = false.
Proof.
  intros Hc Hm. unfold str_of_int.
  assert (Hz : ∀ d, has_char c (NilZero.string_of_uint d) = false).
  { intros d. pose proof (uint_no_char c d Hc) as H.
    destruct d; try exact H.
    cbn. destruct (ascii_dec c "0") as [->|]; [discriminate Hc|reflexivity]. }
  destruct n as [|p|p]; cbn [Z.to_int NilZero.string_of_int].
  - apply Hz.
  - apply Hz.
  - rewrite str_in_cons, Hz, orb_false_r.
    destruct (Ascii.eqb_spec "-" c) as [<-|]; [done|reflexivity].
Qed.

(** *** Stripping a command *)

Lemma rstrip_kept f t :
  (∀ c, f c = true → has_char c t = false) → rstrip_with f t = t.
Proof.
  induction t as [|d t IH]; intros H; [done|].
  cbn [rstrip_with]. rewrite IH.
  - destruct (f d) eqn:Hd; [|by destruct t].
    specialize (H d Hd). by rewrite str_in_cons, Ascii.eqb_refl in H.
  - intros c Hc. specialize (H c Hc). rewrite str_in_cons in H.
    by apply orb_false_elim in H as [_ H].
Qed.

Lemma rstrip_app f s t :
  t ≠ EmptyString → rstrip_with f t = t → rstrip_with f (s +:+ t) = s +:+ t.
Proof.
  intros Ht H. induction s as [|c s IH]; [done|].
  change (String c s +:+ t) with (String c (s +:+ t)).
  cbn [rstrip_with]. rewrite IH.
  destruct (s +:+ t) eqn:E; [|done].
  destruct s; [by subst|discriminate E].
Qed.

Lemma white_not_digit c :
  is_whitespace c = true → digit_value c = None ∧ c ≠ "-"%char.
Proof. destruct c as [[] [] [] [] [] [] [] []]; intros H; try discriminate H; done. Qed.

Lemma str_of_int_nonempty n : str_of_int n ≠ EmptyString.
Proof.
  destruct n as [|p|p]; [done|..]; destruct (str_of_int_pos p) as [Hp Hn].
  - rewrite Hp.
    destruct (uint_first_digit _ (Unsigned.to_uint_nonnil p)) as (c & r & -> & _).
    done.
  - by rewrite Hn.
Qed.

(** A command that starts with a letter and ends with an integer is sent
    as it is. *)
Lemma str_strip_command c verb n :
  is_whitespace c = false →
  str_strip (String c verb +:+ str_of_int n) = String c verb +:+ str_of_int n.
Proof.
  intros Hc. unfold str_strip.
  change (String c verb +:+ str_of_int n) with (String c (verb +:+ str_of_int n)).
  cbn [lstrip_with]. rewrite Hc.
  change (String c (verb +:+ str_of_int n)) with (String c verb +:+ str_of_int n).
  apply rstrip_app; [apply str_of_int_nonempty|].
  apply rstrip_kept. intros d Hd.
  destruct (white_not_digit d Hd) as [Hdig Hminus].
  by apply str_of_int_no_char.
Qed.

End PyStrFacts.

Module CodecFacts.
Import PyStr PyStrFacts Codec Observations.

Lemma cut_first_none c s : cut_first c s = None ↔ has_char c s = false.
Proof.
  induction s as [|d r IH]; [done|].
  rewrite str_in_cons. cbn [cut_first].
  destruct (Ascii.eqb d c); [done|]. cbn [orb]. rewrite <- IH.
  destruct (cut_first c r) as [[a b]|]; done.
Qed.

Lemma cut_first_some c s a b :
  cut_first c s = Some (a, b) ↔ s = a +:+ String c b ∧ has_char c a = false.
Proof.
  revert a. induction s as [|d r IH]; intros a.
  - split; [done|]. intros [H _]. by destruct a.
  - cbn [cut_first]. destruct (Ascii.eqb_spec d c) as [->|Hne].
    + split.
      * intros [= <- <-]. done.
      * intros [H Ha]. destruct a as [|e a]; [by injection H as ->|].
        injection H as <- _. rewrite str_in_cons, Ascii.eqb_refl in Ha. done.
    + split.
      * destruct (cut_first c r) as [[a' b']|]; [|done].
        intros [= <- <-]. destruct (proj1 (IH a') eq_refl) as [-> Ha].
        split; [done|]. rewrite str_in_cons, Ha.
        by destruct (Ascii.eqb_spec d c).
      * intros [H Ha]. destruct a as [|e a]; [by injection H as ->|].
        injection H as <- Hr. rewrite str_in_cons in Ha.
        apply orb_false_elim in Ha as [_ Ha].
        by rewrite (proj2 (IH a) (conj Hr Ha)).
Qed.

Lemma str_split_cut c s :
  str_split c (Some 1%nat) s
  = match cut_first c s with Some (a, b) => [a; b] | None => [s] end.
Proof.
  destruct (cut_first c s) as [[a b]|] eqn:Hcut.
  - apply cut_first_some in Hcut as [-> Ha]. by apply str_split_once.
  - apply cut_first_none in Hcut. by apply str_split_absent.
Qed.

Section Decode.
Variable max_str_digits : N.

Lemma parse_pair_spec data p :
  parse_pair max_str_digits data p = Ok (spec_field max_str_digits data p).
Proof.
  unfold parse_pair, spec_field. rewrite str_split_cut.
  destruct (cut_first "=" p) as [[key text]|] eqn:Hcut.
  - apply cut_first_some in Hcut as [-> Hk].
    rewrite str_in_app, Hk, str_in_cons. cbn [orb Ascii.eqb].
    change (Ascii.eqb "=" "=") with true. cbn [orb].
    unfold spec_value.
    destruct (py_int max_str_digits text) as [n|e] eqn:Hint; [done|].
    by rewrite (py_int_raises _ _ _ Hint).
  - apply cut_first_none in Hcut. by rewrite Hcut.
Qed.

Lemma parse_pairs_spec pairs : ∀ data,
  parse_pairs max_str_digits data pairs
  = Ok (foldl (spec_field max_str_digits) data pairs).
Proof.
  induction pairs as [|p ps IH]; intros data; [done|].
  cbn [parse_pairs foldl]. by rewrite parse_pair_spec, IH.
Qed.

Lemma parse_response_spec s :
  parse_response max_str_digits s = Ok (spec_decode max_str_digits s).
Proof.
  unfold parse_response, spec_decode. rewrite str_split_cut.
  destruct (cut_first ":" s) as [[kind rest]|] eqn:Hcut.
  - apply cut_first_some in Hcut as [-> Hk].
    rewrite str_in_app, Hk, str_in_cons.
    change (Ascii.eqb ":" ":") with true. cbn.
    destruct (String.eqb rest EmptyString); [done|].
    by rewrite parse_pairs_spec.
  - apply cut_first_none in Hcut. by rewrite Hcut.
Qed.

Lemma parse_response_without_colon s :
  str_in ":" s = false → parse_response max_str_digits s = Ok (s, ∅).
Proof.
  intros Hs. rewrite parse_response_spec. unfold spec_decode.
  by rewrite (proj2 (cut_first_none _ _) Hs).
Qed.

Lemma parse_response_at_colon s kind rest :
  s = kind +:+ ":" +:+ rest → str_in ":" kind = false →
  parse_response max_str_digits s
  = Ok (kind,
        if String.eqb rest EmptyString then ∅
        else foldl (spec_field max_str_digits) ∅ (str_split "," None rest)).
Proof.
  intros Hs Hk. rewrite parse_response_spec. unfold spec_decode.
  by rewrite (proj2 (cut_first_some ":" s kind rest) (conj Hs Hk)).
Qed.

(** C1: every response line decodes, never raising, to what the
    specification describes: a line with no colon is its own kind with no
    data; otherwise the text before the first colon is the kind and the
    text after it, when not empty, is split on commas into key=value
    pairs, integer where [int] accepts the text and string otherwise,
    pairs with no [=] being skipped. *)
Theorem parse_response_decodes (s : string) :
  parse_response max_str_digits s = Ok (spec_decode max_str_digits s)
  ∧ (str_in ":" s = false → parse_response max_str_digits s = Ok (s, ∅))
  ∧ (∀ kind rest,
       s = kind +:+ ":" +:+ rest → str_in ":" kind = false →
       parse_response max_str_digits s
       = Ok (kind,
             if String.eqb rest EmptyString then ∅
             else foldl (spec_field max_str_digits) ∅ (str_split "," None rest))).
Proof.
  split; [apply parse_response_spec|]. split.
  - apply parse_response_without_colon.
  - apply parse_response_at_colon.
Qed.

(** *** Encoding then decoding *)

Lemma str_join_nonempty sep p ps :
  p ≠ EmptyString → str_join sep (p :: ps) ≠ EmptyString.
Proof. destruct p; [done|]. intros _. by destruct ps. Qed.

Lemma encode_field_nonempty kv : encode_field kv ≠ EmptyString.
Proof. unfold encode_field. destruct (kv.1); done. Qed.

Lemma encode_field_no_comma kv :
  field_ok max_str_digits kv → has_char "," (encode_field kv) = false.
Proof.
  intros (Hc & _ & _). unfold encode_field.
  rewrite !str_in_app, Hc, str_of_int_no_char; done.
Qed.

Lemma spec_field_encode data kv :
  field_ok max_str_digits kv →
  spec_field max_str_digits data (encode_field kv) = <[kv.1 := VInt kv.2]> data.
Proof.
  intros (_ & He & Hd). unfold spec_field, encode_field.
  change ("=" +:+ ?x) with (String "=" x).
  rewrite (proj2 (cut_first_some "=" _ (kv.1) (str_of_int kv.2)) (conj eq_refl He)).
  unfold spec_value. by rewrite py_int_str_of_int.
Qed.

Lemma foldl_spec_field_encode order : ∀ data,
  Forall (field_ok max_str_digits) order →
  foldl (spec_field max_str_digits) data (encode_field <$> order)
  = foldl (λ d kv, <[kv.1 := VInt kv.2]> d) data order.
Proof.
  induction order as [|kv order IH]; intros data Hall; [done|].
  apply Forall_cons in Hall as [Hkv Hall].
  cbn [fmap list_fmap foldl]. rewrite spec_field_encode by done. by apply IH.
Qed.

Lemma foldl_insert_list_to_map (order : list (string * Z)) : ∀ data : gmap string value,
  NoDup order.*1 →
  foldl (λ d kv, <[kv.1 := VInt kv.2]> d) data order
  = (VInt <$> (list_to_map order : gmap string Z)) ∪ data.
Proof.
  induction order as [|[k n] order IH]; intros data Hnd.
  - cbn. by rewrite fmap_empty, (left_id_L ∅ (∪)).
  - apply NoDup_cons in Hnd as [Hk Hnd].
    cbn [foldl list_to_map foldr fst snd]. rewrite IH by done.
    rewrite fmap_insert, <- insert_union_l.
    rewrite insert_union_r; [done|].
    rewrite lookup_fmap. by rewrite (not_elem_of_list_to_map_1 _ _ Hk).
Qed.

(** C4, as the code has it: a response whose kind holds no colon and
    whose keys hold neither a comma nor an equals sign, with integer
    values that [int] accepts back (within the digit limit), rendered in
    any order as kind, colon and comma-separated key=value pairs, decodes
    to the same kind and the same mapping, every value an integer. *)
Theorem response_roundtrip (kind : string) (fields : gmap string Z)
    (order : list (string * Z)) :
  NoDup order.*1 → list_to_map order = fields →
  str_in ":" kind = false →
  Forall (field_ok max_str_digits) order →
  parse_response max_str_digits (encode_response kind order)
  = Ok (kind, VInt <$> fields).
Proof.
  intros Hnd <- Hkind Hall.
  rewrite (parse_response_at_colon (encode_response kind order) kind
             (str_join "," (encode_field <$> order)) eq_refl Hkind).
  do 2 f_equal.
  destruct order as [|kv order].
  { change (list_to_map []) with (∅ : gmap string Z). by rewrite fmap_empty. }
  destruct (String.eqb_spec (str_join "," (encode_field <$> kv :: order)) EmptyString)
    as [Hempty|_].
  { change (encode_field <$> kv :: order)
      with (encode_field kv :: (encode_field <$> order)) in Hempty.
    by apply str_join_nonempty in Hempty; [|apply encode_field_nonempty]. }
  rewrite str_split_join.
  - rewrite foldl_spec_field_encode, foldl_insert_list_to_map by done.
    by rewrite (right_id_L ∅ (∪)).
  - done.
  - apply Forall_fmap. eapply Forall_impl; [exact Hall|].
    intros kv' Hkv'. by apply encode_field_no_comma.
Qed.

End Decode.

Lemma parse_response_decodes_witness :
  parse_response 4300 "PONG" = Ok ("PONG", ∅)
  ∧ parse_response 4300 "PROGRESS:CYCLE=12,TARGET=50"
    = Ok ("PROGRESS", <["TARGET" := VInt 50]> (<["CYCLE" := VInt 12]> ∅)).
Proof.
  split.
  - apply (proj1 (proj2 (parse_response_decodes 4300 "PONG"))). reflexivity.
  - apply (proj2 (proj2 (parse_response_decodes 4300 "PROGRESS:CYCLE=12,TARGET=50"))
             "PROGRESS" "CYCLE=12,TARGET=50"); reflexivity.
Defined.

Lemma response_roundtrip_witness :
  parse_response 4300
    (encode_response "PROGRESS" [("CYCLE", 12); ("TARGET", 50)])
  = Ok ("PROGRESS", VInt <$> (list_to_map [("CYCLE", 12); ("TARGET", 50)] : gmap string Z)).
Proof.
  apply (response_roundtrip 4300 "PROGRESS" _ [("CYCLE", 12); ("TARGET", 50)]).
  - refine (bool_decide_unpack (NoDup _) _). vm_compute. exact I.
  - reflexivity.
  - reflexivity.
  - repeat constructor.
Defined.

(** The round trip of C4 fails for a kind that holds a colon: the decoder
    cuts at the first colon. *)
Lemma response_roundtrip_colon_kind :
  let fields : gmap string Z := {["k" := 1]} in
  let decoded := parse_response 4300 (encode_response "A:B" (map_to_list fields)) in
  (∃ data, decoded = Ok ("A", data) ∧ data !! "B:k" = Some (VInt 1))
  ∧ decoded ≠ Ok ("A:B", VInt <$> fields).
Proof.
  split.
  - eexists. split; [vm_compute; reflexivity|]. vm_compute. reflexivity.
  - intros H.
    apply (f_equal (λ r, match r with Ok (k, _) => k | Raise _ => EmptyString end)) in H.
    vm_compute in H. discriminate H.
Qed.

End CodecFacts.

Module TransportFacts.
Import PyStr Transport Observations.

(** C10: while the manager is not connected (the flag is down, or there
    is no port object) [send_command] and [send_bytes] return False and
    change nothing: no byte is written, nothing is notified, no call into
    the serial library is made. *)
Theorem send_when_not_connected (w : World) (command : string)
    (data : list Byte.byte) :
  connected (bt_manager w) = false ∨ serial_port (bt_manager w) = None →
  send_command command w = (Ok false, w) ∧ send_bytes data w = (Ok false, w).
Proof.
  intros H.
  assert (Hn : not_ready (bt_manager w) = true).
  { unfold not_ready. destruct H as [-> | ->]; [done|].
    rewrite bool_decide_eq_true_2 by done. apply orb_true_r. }
  unfold send_command, send_bytes, bind, gets. cbv beta iota. by rewrite Hn.
Qed.

Lemma disconnect_notices_app tr1 tr2 :
  disconnect_notices (tr1 ++ tr2)
  = (disconnect_notices tr1 + disconnect_notices tr2)%nat.
Proof. induction tr1 as [|ev tr1 IH]; cbn; [done|]. rewrite IH. lia. Qed.

Lemma closes_app tr1 tr2 : closes (tr1 ++ tr2) = (closes tr1 + closes tr2)%nat.
Proof.
  induction tr1 as [|ev tr1 IH]; [done|].
  destruct ev; cbn [app closes]; rewrite IH; reflexivity.
Qed.

Ltac destruct_world w :=
  let sp := fresh "sp" in let c := fresh "c" in
  destruct w as [[sp c pn odr occ rt sr] a [tr pe cl fa al fi tl]].

(** C3, as the code has it: [disconnect] never raises and notifies
    "connection changed: false" once per call when a callback is
    installed, so two calls in succession notify twice; on the manager
    the second call changes nothing: the reader is told to stop, the
    handle and the port name are cleared and the connected flag is false.
    The first call closes the handle when there is one: [close] is called
    once, and when it raises the exception is ignored; the second call
    has no handle left to close and does not call the library. *)
Theorem disconnect_twice (w : World) :
  ∃ w1 w2,
    disconnect w = (Ok tt, w1) ∧ disconnect w1 = (Ok tt, w2)
    ∧ bt_manager w1
      = mkManager None false None (on_data_received (bt_manager w))
          (on_connection_changed (bt_manager w))
          (_reader_thread (bt_manager w)) true
    ∧ bt_manager w2 = bt_manager w1
    ∧ disconnect_notices (trace (env w1))
      = (disconnect_notices (trace (env w))
         + if on_connection_changed (bt_manager w) then 1 else 0)%nat
    ∧ disconnect_notices (trace (env w2))
      = (disconnect_notices (trace (env w))
         + if on_connection_changed (bt_manager w) then 2 else 0)%nat
    ∧ closes (trace (env w1))
      = (closes (trace (env w))
         + match serial_port (bt_manager w) with
           | Some _ => if next_call_raises w then 0 else 1
           | None => 0
           end)%nat
    ∧ faults (env w1)
      = match serial_port (bt_manager w) with
        | Some _ => tail (faults (env w))
        | None => faults (env w)
        end
    ∧ closes (trace (env w2)) = closes (trace (env w1))
    ∧ faults (env w2) = faults (env w1).
Proof.
  destruct_world w.
  destruct rt; [destruct al as [|[] [|[] al]]|];
    destruct sp; destruct fa as [|[e|] fa]; destruct occ;
    do 2 eexists; (split; [lazy -[app]; reflexivity|]);
    (split; [lazy -[app]; reflexivity|]);
    lazy -[app disconnect_notices closes Nat.add];
    rewrite ?disconnect_notices_app, ?closes_app; repeat split; cbn; lia.
Qed.

(** Two calls of [disconnect] on a connected manager with a listener
    notify "connection changed: false" twice, not once. *)
Lemma disconnect_twice_two_notices :
  let before := disconnect_notices (trace (env Controller.connected_world)) in
  let after :=
    disconnect_notices
      (trace (env (completed (disconnect ;; disconnect)
                     Controller.connected_world))) in
  after = (before + 2)%nat ∧ after ≠ (before + 1)%nat.
Proof. vm_compute. split; [reflexivity|discriminate]. Qed.

(** C6, as the code has it: on an open connection [send_command] writes
    the text stripped of surrounding white space, then one newline, as
    UTF-8, and flushes; when the write (or the flush) raises a serial
    fault it returns False after the disconnect handling: the connected
    flag is cleared and "connection changed: false" notified; nothing is
    reopened. *)
Theorem send_command_line (w : World) (command : string) :
  connected (bt_manager w) = true → serial_port (bt_manager w) ≠ None →
  (calls_return 2 w →
   send_command command w
   = (Ok true,
      after_effects
        [Written (encode_utf8 (str_strip command +:+ newline)); Flushed] 2 w))
  ∧ (∀ msg rest,
       faults (env w) = Some (SerialException msg) :: rest →
       ∃ w', send_command command w = (Ok false, w')
         ∧ bt_manager w' = set_connected false (bt_manager w)
         ∧ trace (env w')
           = (trace (env w) ++ [Printed ("Send failed: " +:+ msg)]
              ++ disconnect_handling w)%list)
  ∧ (∀ msg rest,
       faults (env w) = None :: Some (SerialException msg) :: rest →
       ∃ w', send_command command w = (Ok false, w')
         ∧ bt_manager w' = set_connected false (bt_manager w)
         ∧ trace (env w')
           = (trace (env w)
              ++ [Written (encode_utf8 (str_strip command +:+ newline));
                  Printed ("Send failed: " +:+ msg)]
              ++ disconnect_handling w)%list).
Proof.
  destruct_world w. cbn [bt_manager connected serial_port env faults].
  intros -> Hsp. destruct sp as [handle|]; [clear Hsp|done].
  unfold send_command, bind, gets, not_ready. cbv beta iota.
  cbn [bt_manager connected serial_port negb orb].
  rewrite bool_decide_eq_false_2 by done. split; [|split].
  - unfold calls_return. cbn [env faults].
    destruct fa as [|[e|] [|[e'|] fa]]; intros Hret;
      try (by inversion Hret as [|? ? Hh Ht]; try inversion Ht);
      lazy -[app encode_utf8 str_strip append]; rewrite <- ?app_assoc; reflexivity.
  - intros msg rest ->.
    destruct occ; eexists;
      (split; [lazy -[app encode_utf8 str_strip append]; reflexivity|]);
      (split; [reflexivity|]);
      lazy -[app encode_utf8 str_strip append];
      rewrite <- ?app_assoc; reflexivity.
  - intros msg rest ->.
    destruct occ; eexists;
      (split; [lazy -[app encode_utf8 str_strip append]; reflexivity|]);
      (split; [reflexivity|]);
      lazy -[app encode_utf8 str_strip append];
      rewrite <- ?app_assoc; reflexivity.
Qed.

Lemma send_command_line_witness :
  send_command "PING" Controller.connected_world
  = (Ok true,
     after_effects [Written (encode_utf8 ("PING" +:+ newline)); Flushed] 2
       Controller.connected_world).
Proof.
  apply (proj1 (send_command_line Controller.connected_world "PING"
                  eq_refl ltac:(discriminate))).
  vm_compute. constructor.
Defined.

(** [send_command] does not write the text as given when it carries
    surrounding white space. *)
Lemma send_command_strips :
  let w := Controller.connected_world in
  send_command " PING" w
  = (Ok true, after_effects [Written (encode_utf8 ("PING" +:+ newline)); Flushed] 2 w)
  ∧ send_command " PING" w
    ≠ (Ok true,
       after_effects [Written (encode_utf8 (" PING" +:+ newline)); Flushed] 2 w).
Proof. vm_compute. split; [reflexivity|discriminate]. Qed.

Lemma disconnect_returns (w : World) : ∃ w1, disconnect w = (Ok tt, w1).
Proof.
  destruct_world w.
  destruct rt; [destruct al as [|[] al]|];
    destruct sp; destruct fa as [|[e|] fa]; destruct occ;
    eexists; lazy -[app]; reflexivity.
Qed.

(** C8: when the serial open raises a serial fault, [connect] returns
    False without raising and leaves the manager disconnected: the
    connected flag is false and no handle is stored. *)
Theorem connect_open_failure (w : World) (port : string) (baudrate timeout : Z)
    (msg : string) (rest : list (option exn)) :
  let w0 := if connected (bt_manager w) then completed disconnect w else w in
  faults (env w0) = Some (SerialException msg) :: rest →
  ∃ w', connect port baudrate timeout w = (Ok false, w')
    ∧ connected (bt_manager w') = false
    ∧ serial_port (bt_manager w') = None
    ∧ trace (env w')
      = (trace (env w0) ++ [Printed ("Connection failed: " +:+ msg)])%list.
Proof.
  intros w0 Hf.
  assert (Hstart : ∃ r, (if connected (bt_manager w) then disconnect else ret tt) w
                        = (Ok r, w0)).
  { subst w0. destruct (connected (bt_manager w)); [|by eexists].
    destruct (disconnect_returns w) as [w1 H1]. unfold completed.
    rewrite H1. by eexists. }
  destruct Hstart as [[] Hstart].
  unfold connect. unfold bind at 1. unfold gets at 1. cbv beta iota.
  unfold bind at 1. rewrite Hstart. clear Hstart.
  generalize dependent w0. intros w0. destruct_world w0.
  cbn [env faults]. intros ->.
  eexists. split; [lazy -[app append]; reflexivity|]. repeat split.
Qed.

Lemma connect_open_failure_witness :
  ∃ w', connect "COM3" 115200 2000
          (set_env (set_faults [Some (SerialException "could not open port 'COM3'")]
                      (env Controller.initial_world)) Controller.initial_world)
        = (Ok false, w')
    ∧ connected (bt_manager w') = false
    ∧ serial_port (bt_manager w') = None.
Proof.
  destruct (connect_open_failure
              (set_env (set_faults [Some (SerialException "could not open port 'COM3'")]
                          (env Controller.initial_world)) Controller.initial_world)
              "COM3" 115200 2000 "could not open port 'COM3'" [] eq_refl)
    as (w' & H1 & H2 & H3 & _).
  exists w'. repeat split; assumption.
Defined.

Lemma send_when_not_connected_witness :
  send_command "PING" Controller.initial_world = (Ok false, Controller.initial_world)
  ∧ send_bytes [Byte.x00] Controller.initial_world = (Ok false, Controller.initial_world).
Proof. apply send_when_not_connected. left. reflexivity. Defined.

End TransportFacts.

Module Exec.
Import Observations.

(** *** Running a statement on a state *)

Lemma bind_ok {A B} (m : M A) (k : A → M B) w a w' :
  m w = (Ok a, w') → bind m k w = k a w'.
Proof. unfold bind. by intros ->. Qed.

Lemma bind_raise {A B} (m : M A) (k : A → M B) w e w' :
  m w = (Raise e, w') → bind m k w = (Raise e, w').
Proof. unfold bind. by intros ->. Qed.

Lemma bind_bind {A B C} (m : M A) (k : A → M B) (k' : B → M C) w :
  bind (bind m k) k' w = bind m (fun a => bind (k a) k') w.
Proof. unfold bind. by destruct (m w) as [[a|e] w']. Qed.

Lemma bind_ret {A B} (a : A) (k : A → M B) w : bind (ret a) k w = k a w.
Proof. reflexivity. Qed.

Lemma bind_gets {A B} (f : World → A) (k : A → M B) w :
  bind (gets f) k w = k (f w) w.
Proof. reflexivity. Qed.

Lemma bind_modify {B} (f : World → World) (k : unit → M B) w :
  bind (modify f) k w = k tt (f w).
Proof. reflexivity. Qed.

Lemma bind_assign_app {B} f (k : unit → M B) w :
  bind (assign_app f) k w = k tt (set_app (f (app_state w)) w).
Proof. reflexivity. Qed.

Lemma bind_assign_manager {B} f (k : unit → M B) w :
  bind (assign_manager f) k w = k tt (set_bt_manager (f (bt_manager w)) w).
Proof. reflexivity. Qed.

Lemma bind_emit {B} ev (k : unit → M B) w : bind (emit ev) k w = k tt (logged ev w).
Proof. reflexivity. Qed.

Lemma bind_root_after {B} task (k : unit → M B) w :
  bind (root_after task) k w = k tt (queued task w).
Proof. reflexivity. Qed.

Lemma try_except_ok {A} (body : M A) caught handler w a w' :
  body w = (Ok a, w') → try_except body caught handler w = (Ok a, w').
Proof. unfold try_except. by intros ->. Qed.

Lemma try_except_caught {A} (body : M A) caught handler w e w' :
  body w = (Raise e, w') → caught e = true →
  try_except body caught handler w = handler e w'.
Proof. unfold try_except. by intros -> ->. Qed.

(** Reading the fields of an updated state. *)
Ltac fields :=
  cbn [bt_manager app_state env set_bt_manager set_app set_env logged queued
       after_effects Controller.rest_of_timeline Controller.advance
       serial_port connected port_name on_data_received on_connection_changed
       _reader_thread _stop_reader
       set_serial_port set_connected set_port_name set_reader_thread set_stop_reader
       is_running is_paused current_cycle target_cycles infinite_cycles cycles_var
       status_var progress_var ota_file_path ota_in_progress ota_abort_flag
       ota_ready_event ota_error_message ota_progress_var ota_status_var
       device_version_var
       set_is_running set_is_paused set_current_cycle set_target_cycles
       set_cycles_var set_status_var set_progress_var set_ota_in_progress
       set_ota_abort_flag set_ota_ready_event set_ota_error_message
       set_ota_progress_var set_ota_status_var set_device_version_var
       trace pending clock faults alive files timeline
       set_trace set_pending set_clock set_faults set_alive set_timeline
       completed fst snd] in *.

(** One statement of a sequence, at the head of the left-hand side. *)
Ltac step :=
  lazymatch goal with
  | |- bind (gets ?f) ?k ?w = _ => rewrite (bind_gets f k w)
  | |- bind (ret ?a) ?k ?w = _ => rewrite (bind_ret a k w)
  | |- bind (assign_app ?f) ?k ?w = _ => rewrite (bind_assign_app f k w)
  | |- bind (assign_manager ?f) ?k ?w = _ => rewrite (bind_assign_manager f k w)
  | |- bind (emit ?ev) ?k ?w = _ => rewrite (bind_emit ev k w)
  | |- bind (root_after ?t) ?k ?w = _ => rewrite (bind_root_after t k w)
  | |- bind (modify ?f) ?k ?w = _ => rewrite (bind_modify f k w)
  | |- bind (bind ?m ?k) ?k' ?w = _ => rewrite (bind_bind m k k' w)
  end;
  cbv beta.

(** The statements at the head, as far as they go. *)
Ltac run := repeat first [step | progress cbv beta iota].

(** *** What a statement leaves alone *)

Section Keeps.
Context {B : Type} (π : World → B).

Lemma keeps_ret {A} (a : A) : Keeps π (ret a).
Proof. done. Qed.

Lemma keeps_raise {A} e : Keeps π (raise (A:=A) e).
Proof. done. Qed.

Lemma keeps_gets {A} (f : World → A) : Keeps π (gets f).
Proof. done. Qed.

Lemma keeps_bind {A C} (m : M A) (k : A → M C) :
  Keeps π m → (∀ a, Keeps π (k a)) → Keeps π (bind m k).
Proof.
  intros Hm Hk w. specialize (Hm w). unfold completed, bind in *.
  destruct (m w) as [[a|e] w1]; cbn in *; [|done].
  rewrite <- Hm. apply Hk.
Qed.

Lemma keeps_try {A} (body : M A) caught handler :
  Keeps π body → (∀ e, Keeps π (handler e)) →
  Keeps π (try_except body caught handler).
Proof.
  intros Hm Hk w. specialize (Hm w). unfold completed, try_except in *.
  destruct (body w) as [[a|e] w1]; cbn in *; [done|].
  destruct (caught e); [|done]. rewrite <- Hm. apply Hk.
Qed.

Lemma keeps_modify (f : World → World) :
  (∀ w, π (f w) = π w) → Keeps π (modify f).
Proof. intros H w. apply H. Qed.

Lemma keeps_assign_app f :
  (∀ w, π (set_app (f (app_state w)) w) = π w) → Keeps π (assign_app f).
Proof. intros H w. apply H. Qed.

Lemma keeps_assign_manager f :
  (∀ w, π (set_bt_manager (f (bt_manager w)) w) = π w) →
  Keeps π (assign_manager f).
Proof. intros H w. apply H. Qed.

Lemma keeps_assign_env f :
  (∀ w, π (set_env (f (env w)) w) = π w) → Keeps π (assign_env f).
Proof. intros H w. apply H. Qed.

Lemma keeps_emit ev : ignores_env π → Keeps π (emit ev).
Proof. intros H w. apply H. Qed.

Lemma keeps_root_after task : ignores_env π → Keeps π (root_after task).
Proof.
  intros H. apply keeps_bind; [by apply keeps_emit|].
  intros _ w. apply H.
Qed.

Lemma keeps_library_call : ignores_env π → Keeps π library_call.
Proof.
  intros H w. unfold completed, library_call.
  destruct (faults (env w)) as [|[e|] rest]; cbn; [done|apply H..].
Qed.

Lemma keeps_is_alive : ignores_env π → Keeps π is_alive.
Proof.
  intros H w. unfold completed, is_alive.
  destruct (alive (env w)) as [|b rest]; cbn; [done|apply H].
Qed.

End Keeps.

Create HintDb keeps.

Ltac keeps_head m :=
  lazymatch m with
  | ?f _ => keeps_head f
  | _ => m
  end.

(** Goes through the statements of a method. *)
Ltac keeps :=
  repeat
    lazymatch goal with
    | |- Keeps _ (bind _ _) => apply keeps_bind; [|intros ?]
    | |- Keeps _ (try_except _ _ _) => apply keeps_try; [|intros ?]
    | |- Keeps _ (ret _) => apply keeps_ret
    | |- Keeps _ (raise _) => apply keeps_raise
    | |- Keeps _ (gets _) => apply keeps_gets
    | |- Keeps _ (assign_app _) => apply keeps_assign_app; intros ?; reflexivity
    | |- Keeps _ (assign_manager _) => apply keeps_assign_manager; intros ?; reflexivity
    | |- Keeps _ (assign_env _) => apply keeps_assign_env; intros ?; reflexivity
    | |- Keeps _ (emit _) => apply keeps_emit; intros ? ?; reflexivity
    | |- Keeps _ (print _) => apply keeps_emit; intros ? ?; reflexivity
    | |- Keeps _ (root_after _) => apply keeps_root_after; intros ? ?; reflexivity
    | |- Keeps _ library_call => apply keeps_library_call; intros ? ?; reflexivity
    | |- Keeps _ is_alive => apply keeps_is_alive; intros ? ?; reflexivity
    | |- Keeps _ (if ?b then _ else _) => destruct b
    | |- Keeps _ (match ?x with _ => _ end) => destruct x
    | |- Keeps _ (let _ := _ in _) => cbv zeta
    | |- Keeps _ ?m =>
        first [ solve [auto with keeps]
              | let h := keeps_head m in unfold h ]
    end.

End Exec.

Module ControllerFacts.
Import PyStr PyStrFacts Codec CodecFacts Transport TransportFacts Controller Exec
  Observations.

(** *** What the OTA session rests on *)

Lemma keeps_core_handle_disconnect : Keeps core _handle_disconnect.
Proof. keeps. Qed.

Lemma keeps_core_send_command command : Keeps core (send_command command).
Proof. keeps. Qed.

Lemma keeps_core_update_progress : Keeps core _update_progress.
Proof. unfold _update_progress, truediv. keeps. Qed.

#[local] Hint Resolve keeps_core_handle_disconnect keeps_core_send_command
  keeps_core_update_progress : keeps.

Lemma keeps_core_abort : Keeps core _abort_ota_upload.
Proof. keeps. Qed.

Lemma keeps_core_run_task task : Keeps core (run_task task).
Proof. destruct task; keeps. Qed.

Lemma run_tasks_core tasks : ∀ w,
  core (foldl (λ w' task, completed (run_task task) w') w tasks) = core w.
Proof.
  induction tasks as [|task tasks IH]; intros w; [done|].
  cbn [foldl]. rewrite IH. apply keeps_core_run_task.
Qed.

Lemma run_pending_core w : core (run_pending w) = core w.
Proof. unfold run_pending. by rewrite run_tasks_core. Qed.

(** *** The abort flag is never cleared on the way *)

Lemma keeps_abort_handle_disconnect : Keeps abort_flag _handle_disconnect.
Proof. keeps. Qed.

Lemma keeps_abort_send_command command : Keeps abort_flag (send_command command).
Proof. keeps. Qed.

Lemma keeps_abort_update_progress : Keeps abort_flag _update_progress.
Proof. unfold _update_progress, truediv. keeps. Qed.

#[local] Hint Resolve keeps_abort_handle_disconnect keeps_abort_send_command
  keeps_abort_update_progress : keeps.

Lemma keeps_abort_run_task task : Keeps abort_flag (run_task task).
Proof. destruct task; keeps. Qed.

Lemma run_tasks_abort tasks : ∀ w,
  abort_flag (foldl (λ w' task, completed (run_task task) w') w tasks)
  = abort_flag w.
Proof.
  induction tasks as [|task tasks IH]; intros w; [done|].
  cbn [foldl]. rewrite IH. apply keeps_abort_run_task.
Qed.

Lemma run_pending_abort w : abort_flag (run_pending w) = abort_flag w.
Proof. unfold run_pending. by rewrite run_tasks_abort. Qed.

Lemma abort_clicked_abort w :
  abort_flag w = true → abort_flag (completed _abort_ota_upload w) = true.
Proof.
  intros Hset. unfold _abort_ota_upload, completed. rewrite bind_gets.
  destruct (ota_in_progress (app_state w)); [|exact Hset].
  rewrite bind_assign_app.
  set (w1 := set_app (set_ota_abort_flag true (app_state w)) w).
  pose proof (keeps_abort_send_command "OTA_ABORT" w1) as Hsend.
  unfold completed in Hsend. unfold bind.
  destruct (send_command "OTA_ABORT" w1) as [[sent|e] w2]; cbn [snd] in *;
    change (abort_flag w2 = true); by rewrite Hsend.
Qed.

Section Interpreter.
Variable max_str_digits : N.

Lemma process_response_core data w :
  core (completed (_process_response max_str_digits data) w)
  = (ota_file_path (app_state w),
     ota_ready_event (app_state w) || ready_line max_str_digits data
     || error_line max_str_digits data,
     if error_line max_str_digits data then Some data
     else ota_error_message (app_state w)).
Proof.
  unfold ready_line, error_line, kind_of, _process_response, _append_serial_output.
  unfold completed. rewrite bind_emit, parse_response_spec.
  destruct (spec_decode max_str_digits data) as [k d]. cbn [fst].
  assert (Hsame : ∀ (m : M unit) w1, core w1 = core w → Keeps core m →
            core (m w1).2 = (ota_file_path (app_state w),
                             ota_ready_event (app_state w) || false || false,
                             ota_error_message (app_state w))).
  { intros m w1 Hw1 Hm. pose proof (Hm w1) as Hk. unfold completed in Hk.
    rewrite Hk, Hw1, !orb_false_r. reflexivity. }
  destruct (String.eqb_spec k "PONG") as [->|_]; [apply Hsame; [done|keeps]|].
  destruct (String.eqb_spec k "STATUS") as [->|_]; [apply Hsame; [done|keeps]|].
  destruct (String.eqb_spec k "PROGRESS") as [->|_]; [apply Hsame; [done|keeps]|].
  destruct (String.eqb_spec k "COMPLETE") as [->|_]; [apply Hsame; [done|keeps]|].
  destruct (String.eqb_spec k "OK") as [->|_].
  { cbn [String.eqb Ascii.eqb Bool.eqb andb].
    destruct (str_in "OTA_READY" data); [|apply Hsame; [done|keeps]].
    unfold core. rewrite !bind_assign_app. cbn [ret snd]. fields.
    by rewrite orb_true_r. }
  destruct (String.eqb_spec k "VERSION") as [->|_]; [apply Hsame; [done|keeps]|].
  destruct (String.eqb_spec k "OTA_PROGRESS") as [->|_].
  { apply Hsame; [done|]. unfold truediv. keeps. }
  destruct (String.eqb_spec k "ERR") as [->|_]; [|apply Hsame; [done|keeps]].
  cbn [andb]. rewrite !bind_assign_app.
  destruct (str_in "OTA" data); [|apply Hsame; [done|keeps]].
  rewrite !bind_assign_app, bind_gets. fields.
  rewrite !orb_true_r.
  destruct (ota_in_progress (app_state w)); reflexivity.
Qed.

Lemma keeps_abort_process_response data :
  Keeps abort_flag (_process_response max_str_digits data).
Proof. unfold _process_response, truediv. keeps. Qed.

Lemma env_step_abort ev w :
  abort_flag w = true → abort_flag (env_step max_str_digits ev w) = true.
Proof.
  intros Hset. destruct ev as [ms|data| | |]; cbn [env_step].
  - exact Hset.
  - by rewrite keeps_abort_process_response.
  - by apply abort_clicked_abort.
  - by rewrite keeps_abort_handle_disconnect.
  - by rewrite run_pending_abort.
Qed.

Lemma await_ready_abort events : ∀ ms w,
  abort_flag w = true →
  abort_flag (await_ready max_str_digits ms events w).2 = true.
Proof.
  induction events as [|ev events IH]; intros ms w Hset; cbn [await_ready].
  - by destruct (ota_ready_event (app_state w)).
  - destruct (ota_ready_event (app_state w)); [exact Hset|].
    destruct ev as [t|data| | |];
      try (apply IH; by apply env_step_abort).
    destruct (t <=? ms)%Z; [by apply IH|exact Hset].
Qed.

Lemma env_step_quiet ev w :
  quiet max_str_digits ev = true → core (env_step max_str_digits ev w) = core w.
Proof.
  destruct ev as [ms|data| | |]; cbn [quiet env_step]; intros Hq.
  - reflexivity.
  - rewrite process_response_core.
    apply negb_true_iff, orb_false_elim in Hq as [-> ->].
    by rewrite !orb_false_r.
  - apply keeps_core_abort.
  - apply keeps_core_handle_disconnect.
  - apply run_pending_core.
Qed.

Lemma await_ready_quiet events : ∀ ms w,
  forallb (quiet max_str_digits) (within ms events) = true →
  ota_ready_event (app_state w) = false →
  ∃ w', await_ready max_str_digits ms events w = (false, w') ∧ core w' = core w.
Proof.
  induction events as [|ev events IH]; intros ms w Hq Hlatch.
  - cbn [await_ready]. rewrite Hlatch. by eexists.
  - assert (Hother : quiet max_str_digits ev = true →
                     forallb (quiet max_str_digits) (within ms events) = true →
              ∃ w', await_ready max_str_digits ms events
                      (env_step max_str_digits ev w) = (false, w')
                    ∧ core w' = core w).
    { intros Hev Hrest.
      pose proof (env_step_quiet ev w Hev) as Hcore.
      destruct (IH ms (env_step max_str_digits ev w) Hrest) as (w' & Hw' & Hc).
      - injection Hcore as _ Hl _. by rewrite Hl.
      - exists w'. split; [done|]. by rewrite Hc. }
    destruct ev as [t|data| | |]; cbn [await_ready within] in *; rewrite Hlatch;
      try (apply andb_prop in Hq as [Hev Hrest]; by apply Hother).
    destruct (t <=? ms)%Z.
    + apply andb_prop in Hq as [_ Hrest].
      destruct (IH (ms - t) (advance t w) Hrest Hlatch) as (w' & Hw' & Hc).
      by exists w'.
    + by eexists.
Qed.

Lemma send_command_returns command w :
  serial_faults 2 w → ∃ sent w', send_command command w = (Ok sent, w').
Proof.
  unfold serial_faults. destruct_world w. cbn [env faults].
  destruct c; [|by eexists _, _].
  destruct sp; [|by eexists _, _].
  destruct fa as [|[e|] [|[e'|] fa]]; intros Hf;
    cbn [take] in Hf; repeat (apply Forall_cons in Hf as [? Hf]);
    repeat match goal with
           | H : is_SerialException ?e = true |- _ =>
               destruct e; [clear H|discriminate H..]
           end;
    destruct occ; eexists _, _; lazy -[app encode_utf8 str_strip append];
    reflexivity.
Qed.

Lemma getsize_file path bytes w :
  files (env w) !! path = Some bytes →
  getsize (Some path) w = (Ok (Z.of_nat (length bytes)), w).
Proof. intros H. unfold getsize. by rewrite bind_gets, H. Qed.

Lemma open_rb_file path bytes w :
  files (env w) !! path = Some bytes → open_rb (Some path) w = (Ok bytes, w).
Proof. intros H. unfold open_rb. by rewrite bind_gets, H. Qed.

Lemma thread_times_out fuel w path bytes :
  ota_file_path (app_state w) = Some path →
  files (env w) !! path = Some bytes →
  serial_faults 2 w →
  forallb (quiet max_str_digits) (within 5000 (timeline (env w))) = true →
  ∃ w2, _ota_upload_thread max_str_digits fuel w
        = (Ok (Some tt), queued (ota_finish_update_ui timeout_message false) w2)
        ∧ core w2 = (Some path, false, None)
        ∧ (abort_flag w = true → abort_flag w2 = true).
Proof.
  intros Hpath Hfile Hfaults Hquiet.
  unfold _ota_upload_thread.
  set (w0 := set_app (set_ota_error_message None
                        (set_ota_ready_event false (app_state w))) w).
  destruct (send_command_returns
              ("OTA_START:" +:+ str_of_int (Z.of_nat (length bytes))) w0)
    as (sent & w1 & Hsend); [exact Hfaults|].
  pose proof (keeps_core_send_command
                ("OTA_START:" +:+ str_of_int (Z.of_nat (length bytes))) w0)
    as Hcore1.
  unfold completed in Hcore1. rewrite Hsend in Hcore1. cbn [snd] in Hcore1.
  unfold core, w0 in Hcore1.
  cbn [app_state set_app ota_file_path ota_ready_event ota_error_message
       set_ota_error_message set_ota_ready_event] in Hcore1.
  rewrite Hpath in Hcore1. injection Hcore1 as Hpath1 Hlatch1 Herr1.
  set (w1' := queued (set_ota_status "Waiting for device ready...")
                (queued (append_serial_output
                           (">>> OTA_START:" +:+ str_of_int (Z.of_nat (length bytes)))
                           "sent") w1)).
  assert (Htl : timeline (env w1') = timeline (env w)).
  { subst w1'. fields.
    change (timeline (env w1) = timeline (env w0)).
    clear -Hsend. revert Hsend. destruct_world w0.
    unfold send_command, bind, gets, not_ready. cbv beta iota. fields.
    destruct c; [|by intros [= _ <-]].
    destruct sp; cbn [negb orb bool_decide decide_rel]; [|by intros [= _ <-]].
    destruct fa as [|[[]|] [|[[]|] fa]]; destruct occ;
      lazy -[app encode_utf8 str_strip append]; by intros [= _ <-]. }
  destruct (await_ready_quiet (timeline (env w1')) 5000 w1')
    as (w2 & Hwait & Hcore2); [by rewrite Htl|exact Hlatch1|].
  exists w2. split.
  - apply try_except_ok.
    rewrite bind_gets, Hpath.
    rewrite (bind_ok _ _ _ _ _ (getsize_file path bytes w Hfile)).
    cbv zeta. rewrite !bind_assign_app. fold w0.
    rewrite (bind_ok _ _ _ _ _ Hsend).
    rewrite !bind_root_after. fold w1'.
    unfold ota_ready_event_wait at 1. unfold bind at 1. rewrite Hwait.
    cbn [negb]. rewrite bind_gets.
    assert (Herr : ota_error_message (app_state w2) = None).
    { injection Hcore2 as _ _ He. rewrite He. exact Herr1. }
    rewrite Herr. cbn [truthy]. unfold _ota_finish.
    rewrite bind_root_after. reflexivity.
  - split.
    + rewrite Hcore2. unfold core, w1'. fields.
      by rewrite Hpath1, Hlatch1, Herr1.
    + intros Hset.
      pose proof (await_ready_abort (timeline (env w1')) 5000 w1') as Habort.
      rewrite Hwait in Habort. apply Habort.
      pose proof (keeps_abort_send_command
                    ("OTA_START:" +:+ str_of_int (Z.of_nat (length bytes))) w0)
        as Hkept.
      unfold completed in Hkept. rewrite Hsend in Hkept. cbn [snd] in Hkept.
      change (abort_flag w1 = true). by rewrite Hkept.
Qed.

Lemma run_pending_finish message success w2 :
  let a := app_state (run_pending (queued (ota_finish_update_ui message success) w2)) in
  ota_in_progress a = false ∧ ota_status_var a = Text message
  ∧ ota_progress_var a = (if success then 1 else 0)%Q
  ∧ core (run_pending (queued (ota_finish_update_ui message success) w2)) = core w2
  ∧ abort_flag (run_pending (queued (ota_finish_update_ui message success) w2))
    = abort_flag w2.
Proof.
  unfold run_pending. fields. rewrite foldl_app. cbn [foldl run_task].
  set (wx := foldl _ _ (pending (env w2))).
  assert (Hx : core wx = core w2) by (unfold wx; by rewrite run_tasks_core).
  assert (Hy : abort_flag wx = abort_flag w2)
    by (unfold wx; by rewrite run_tasks_abort).
  unfold _ota_update_ui, completed.
  rewrite !bind_assign_app.
  destruct success.
  - rewrite bind_assign_app. unfold showinfo, emit, assign_env, modify. cbn [snd].
    unfold core, abort_flag in *. fields. done.
  - unfold assign_app, modify. cbn [snd]. unfold core, abort_flag in *. fields.
    done.
Qed.


End Interpreter.



End ControllerFacts.

Module TransferFacts.
Import PyStr PyStrFacts Codec CodecFacts Transport TransportFacts Controller Exec
  ControllerFacts Observations.

Lemma calls_return_nil n w : faults (env w) = [] → calls_return n w.
Proof. unfold calls_return. intros ->. by rewrite take_nil. Qed.

Lemma send_bytes_ok data w :
  connected (bt_manager w) = true → serial_port (bt_manager w) ≠ None →
  calls_return 2 w →
  send_bytes data w = (Ok true, after_effects [Written data; Flushed] 2 w).
Proof.
  unfold calls_return. destruct_world w. fields. intros -> Hsp.
  destruct sp as [handle|]; [clear Hsp|done].
  destruct fa as [|[e|] [|[e'|] fa]]; intros Hret;
    try (by inversion Hret as [|? ? Hh Ht]; try inversion Ht);
    lazy -[app]; rewrite <- ?app_assoc; reflexivity.
Qed.

Lemma send_command_ok command w :
  connected (bt_manager w) = true → serial_port (bt_manager w) ≠ None →
  calls_return 2 w →
  send_command command w
  = (Ok true,
     after_effects
       [Written (encode_utf8 (str_strip command +:+ newline)); Flushed] 2 w).
Proof.
  unfold calls_return. destruct_world w. fields. intros -> Hsp.
  destruct sp as [handle|]; [clear Hsp|done].
  destruct fa as [|[e|] [|[e'|] fa]]; intros Hret;
    try (by inversion Hret as [|? ? Hh Ht]; try inversion Ht);
    lazy -[app encode_utf8 str_strip append]; rewrite <- ?app_assoc; reflexivity.
Qed.

Section Interpreter.
Variable max_str_digits : N.

Abbreviation transfer_loop := (Controller.transfer_loop max_str_digits).
Abbreviation pass_time := (Controller.pass_time max_str_digits).

Lemma transfer_step fuel file_size f bytes_sent last w :
  (0 ≤ bytes_sent < file_size)%Z →
  ota_abort_flag (app_state w) = false →
  connected (bt_manager w) = true → serial_port (bt_manager w) ≠ None →
  (clock (env w) - last ≤ 5000)%Z →
  take 512 f ≠ [] →
  calls_return 2 w →
  transfer_loop (S fuel) file_size 512 f bytes_sent last w
  = transfer_loop fuel file_size 512 (drop 512 f)
      (bytes_sent + Z.of_nat (length (take 512 f))) (clock (env w))
      (chunk_sent max_str_digits (take 512 f) (bytes_sent + Z.of_nat (length (take 512 f)))
         file_size w).
Proof.
  intros Hb Habort Hconn Hsp Hclock Hchunk Hret.
  cbn [Controller.transfer_loop].
  rewrite (proj2 (Z.ltb_lt _ _)) by lia.
  rewrite bind_gets, Habort.
  unfold is_connected at 1. rewrite bind_gets, Hconn.
  rewrite bool_decide_eq_true_2 by done. cbn [andb negb].
  rewrite bind_gets. rewrite (proj2 (Z.ltb_ge _ _)) by lia.
  change (Z.to_nat 512) with 512%nat.
  rewrite bool_decide_eq_false_2 by done.
  rewrite (bind_ok _ _ _ _ _ (send_bytes_ok _ w Hconn Hsp Hret)).
  cbn [negb]. rewrite bind_gets.
  unfold truediv. rewrite (proj2 (Z.eqb_neq file_size 0)) by lia.
  rewrite bind_ret, bind_root_after.
  unfold time_sleep at 1. rewrite bind_bind, bind_emit, bind_modify.
  reflexivity.
Qed.

(** At the check of the abort flag the loop ends the session. *)
Lemma transfer_aborts fuel file_size f bytes_sent last w :
  (bytes_sent < file_size)%Z →
  ota_abort_flag (app_state w) = true →
  transfer_loop (S fuel) file_size 512 f bytes_sent last w
  = (Ok (Some Returned), queued (ota_finish_update_ui "Aborted by user" false) w).
Proof.
  intros Hb Habort. cbn [Controller.transfer_loop].
  rewrite (proj2 (Z.ltb_lt _ _)) by lia.
  rewrite bind_gets, Habort. unfold _ota_finish. by rewrite bind_root_after.
Qed.

Lemma transfer_done fuel file_size f bytes_sent last w :
  (file_size ≤ bytes_sent)%Z →
  transfer_loop fuel file_size 512 f bytes_sent last w = (Ok (Some Completed), w).
Proof.
  intros Hb. destruct fuel; cbn [Controller.transfer_loop];
    by rewrite (proj2 (Z.ltb_ge _ _)) by lia.
Qed.

Lemma bind_send_bytes_ok {B} data (k : bool → M B) w :
  connected (bt_manager w) = true → serial_port (bt_manager w) ≠ None →
  calls_return 2 w →
  bind (send_bytes data) k w
  = k true (after_effects [Written data; Flushed] 2 w).
Proof.
  intros Hc Hs Hr. by rewrite (bind_ok _ _ _ _ _ (send_bytes_ok data w Hc Hs Hr)).
Qed.

Lemma bind_send_command_ok {B} command (k : bool → M B) w :
  connected (bt_manager w) = true → serial_port (bt_manager w) ≠ None →
  calls_return 2 w →
  bind (send_command command) k w
  = k true (after_effects
              [Written (encode_utf8 (str_strip command +:+ newline)); Flushed] 2 w).
Proof.
  intros Hc Hs Hr.
  by rewrite (bind_ok _ _ _ _ _ (send_command_ok command w Hc Hs Hr)).
Qed.

Lemma bind_open_rb {B} path bytes (k : list Byte.byte → M B) w :
  files (env w) !! path = Some bytes → bind (open_rb (Some path)) k w = k bytes w.
Proof. intros H. by rewrite (bind_ok _ _ _ _ _ (open_rb_file path bytes w H)). Qed.

Lemma try_except_ext {A} (body body' : M A) caught handler w w' :
  body w = body' w' →
  try_except body caught handler w = try_except body' caught handler w'.
Proof. intros H. unfold try_except. by rewrite H. Qed.

Lemma process_ready_line w :
  completed (_process_response max_str_digits "OK:OTA_READY") w
  = ready_line_handled w.
Proof.
  unfold _process_response, _append_serial_output, completed.
  rewrite bind_emit, parse_response_spec. reflexivity.
Qed.

Lemma await_ready_set ms events w :
  ota_ready_event (app_state w) = true →
  await_ready max_str_digits ms events w = (true, rest_of_timeline events w).
Proof. intros H. destruct events as [|[] ?]; cbn [await_ready]; by rewrite H. Qed.

Lemma thread_reaches_transfer fuel w path bytes rest :
  ota_file_path (app_state w) = Some path →
  files (env w) !! path = Some bytes →
  connected (bt_manager w) = true → serial_port (bt_manager w) ≠ None →
  calls_return 2 w →
  ota_abort_flag (app_state w) = false →
  timeline (env w) = DeviceLine "OK:OTA_READY" :: rest →
  let file_size := Z.of_nat (length bytes) in
  let w' := transfer_start file_size rest w in
  _ota_upload_thread max_str_digits fuel w
  = try_except
      (bind (transfer_loop fuel file_size 512 bytes 0 (clock (env w')))
         (after_transfer max_str_digits))
      any_exception
      (fun e => _ota_finish ("Error: " +:+ str_of_exn e) false ;; ret (Some tt))
      w'.
Proof.
  intros Hpath Hfile Hconn Hsp Hret Habort Htl file_size w'.
  unfold _ota_upload_thread. apply try_except_ext.
  step. rewrite Hpath.
  rewrite (bind_ok _ _ _ _ _ (getsize_file path bytes w Hfile)).
  fold file_size. cbv zeta. do 2 step.
  rewrite bind_send_command_ok by (fields; assumption).
  do 2 step.
  unfold ota_ready_event_wait at 1. unfold bind at 1. fields.
  rewrite Htl. cbn [await_ready]. fields.
  cbn [env_step]. rewrite process_ready_line.
  rewrite await_ready_set by reflexivity. cbv beta iota. cbn [negb].
  step. unfold ready_line_handled at 1. fields. cbn [truthy].
  step. unfold ready_line_handled at 1. fields. rewrite Habort.
  step.
  rewrite (bind_open_rb path bytes)
    by (unfold ready_line_handled; fields; exact Hfile).
  reflexivity.
Qed.

Lemma steady_step fuel file_size f bytes_sent last w :
  steady w → (0 ≤ bytes_sent < file_size)%Z →
  (clock (env w) - last ≤ 5000)%Z → f ≠ [] →
  let sent := (bytes_sent + Z.of_nat (length (take 512 f)))%Z in
  ∃ w1, transfer_loop (S fuel) file_size 512 f bytes_sent last w
        = transfer_loop fuel file_size 512 (drop 512 f) sent (clock (env w)) w1
    ∧ steady w1 ∧ clock (env w1) = (clock (env w) + 20)%Z
    ∧ trace (env w1)
      = (trace (env w) ++ chunk_events (take 512 f) sent file_size)%list.
Proof.
  intros (Habort & Hconn & Hsp & Hfaults & Htl) Hb Hclock Hf sent.
  eexists. split; [|split; [|split]].
  - apply transfer_step; try done.
    + by destruct f.
    + by apply calls_return_nil.
  - unfold chunk_sent. fields. rewrite Htl. cbn [Controller.pass_time].
    unfold steady. fields. rewrite Hfaults. by rewrite drop_nil.
  - unfold chunk_sent. fields. rewrite Htl. cbn [Controller.pass_time].
    fields. reflexivity.
  - unfold chunk_sent. fields. rewrite Htl. cbn [Controller.pass_time].
    fields. unfold chunk_events. by rewrite <- !app_assoc.
Qed.

Lemma transfer_start_steady file_size w :
  ota_abort_flag (app_state w) = false →
  connected (bt_manager w) = true → serial_port (bt_manager w) ≠ None →
  faults (env w) = [] →
  steady (transfer_start file_size [] w).
Proof.
  intros Habort Hconn Hsp Hfaults.
  unfold steady, transfer_start, ready_line_handled. fields.
  rewrite Hfaults. by rewrite drop_nil.
Qed.

Lemma str_strip_ota_start file_size :
  str_strip ("OTA_START:" +:+ str_of_int file_size)
  = "OTA_START:" +:+ str_of_int file_size.
Proof. by apply (str_strip_command "O" "TA_START:"). Qed.

Lemma start_trace file_size rest w :
  trace (env (transfer_start file_size rest w))
  = (trace (env w) ++ start_events file_size)%list.
Proof.
  unfold transfer_start, ready_line_handled, start_events. fields.
  rewrite str_strip_ota_start. by rewrite <- !app_assoc.
Qed.

(** C5: a session on a file of 2048 bytes, with the link up, the library
    returning, no abort and the device answering ready, sends exactly four
    chunks of 512 bytes; each write is flushed and followed by one
    progress notification, with the fractions 1/4, 1/2, 3/4 and 1, the
    bytes sent so far and the total; then the session verifies and
    succeeds.  In general an iteration that sends its chunk reports
    (bytes sent so far) / (file size). *)
Theorem ota_upload_2048 :
  (∀ (w : World) (fuel : nat) (path : string) (bytes : list Byte.byte),
     ota_file_path (app_state w) = Some path →
     files (env w) !! path = Some bytes →
     length bytes = 2048%nat →
     connected (bt_manager w) = true → serial_port (bt_manager w) ≠ None →
     faults (env w) = [] →
     ota_abort_flag (app_state w) = false →
     timeline (env w) = [DeviceLine "OK:OTA_READY"] →
     (4 ≤ fuel)%nat →
     ∃ w', _ota_upload_thread max_str_digits fuel w = (Ok (Some tt), w')
       ∧ trace (env w')
         = (trace (env w) ++ start_events 2048
            ++ [Written (take 512 bytes); Flushed;
                After (update_ota_progress (1 # 4) 512 2048); Slept 20;
                Written (take 512 (drop 512 bytes)); Flushed;
                After (update_ota_progress (1 # 2) 1024 2048); Slept 20;
                Written (take 512 (drop 1024 bytes)); Flushed;
                After (update_ota_progress (3 # 4) 1536 2048); Slept 20;
                Written (drop 1536 bytes); Flushed;
                After (update_ota_progress 1 2048 2048); Slept 20;
                After (set_ota_status "Verifying..."); Slept 2000;
                After (ota_finish_update_ui
                         "Upload complete - device restarting" true)])%list)
  ∧ (∀ fuel file_size f bytes_sent last w,
       (0 ≤ bytes_sent < file_size)%Z →
       ota_abort_flag (app_state w) = false →
       connected (bt_manager w) = true → serial_port (bt_manager w) ≠ None →
       (clock (env w) - last ≤ 5000)%Z →
       take 512 f ≠ [] →
       calls_return 2 w →
       let sent := (bytes_sent + Z.of_nat (length (take 512 f)))%Z in
       transfer_loop (S fuel) file_size 512 f bytes_sent last w
       = transfer_loop fuel file_size 512 (drop 512 f) sent (clock (env w))
           (pass_time 20 (timeline (env w))
              (logged (Slept 20)
                 (queued (update_ota_progress
                            (Qred (inject_Z sent / inject_Z file_size))
                            sent file_size)
                    (after_effects [Written (take 512 f); Flushed] 2 w))))).
Proof.
  split; [|intros; by apply transfer_step].
  intros w fuel path bytes Hpath Hfile Hlen Hconn Hsp Hfaults Habort Htl Hfuel.
  destruct fuel as [|[|[|[|fuel]]]]; try lia. clear Hfuel.
  pose proof (thread_reaches_transfer (S (S (S (S fuel)))) w path bytes []
                Hpath Hfile Hconn Hsp (calls_return_nil 2 w Hfaults) Habort Htl)
    as Hstart.
  cbv zeta in Hstart. rewrite Hlen in Hstart.
  change (Z.of_nat 2048) with 2048%Z in Hstart.
  pose proof (transfer_start_steady 2048 w Habort Hconn Hsp Hfaults) as Hs0.
  pose proof (start_trace 2048 [] w) as Ht0.
  set (w0 := transfer_start 2048 [] w) in *.
  assert (Hl0 : length (take 512 bytes) = 512%nat)
    by (rewrite length_take, Hlen; reflexivity).
  assert (Hl1 : length (take 512 (drop 512 bytes)) = 512%nat)
    by (rewrite length_take, length_drop, Hlen; reflexivity).
  assert (Hl2 : length (take 512 (drop 512 (drop 512 bytes))) = 512%nat)
    by (rewrite length_take, !length_drop, Hlen; reflexivity).
  assert (Hl3 : length (take 512 (drop 512 (drop 512 (drop 512 bytes)))) = 512%nat)
    by (rewrite length_take, !length_drop, Hlen; reflexivity).
  assert (Hne : ∀ l : list Byte.byte, length (take 512 l) = 512%nat → l ≠ [])
    by (by intros [|? ?] ?).
  destruct (steady_step (S (S (S fuel))) 2048 bytes 0 (clock (env w0)) w0)
    as (w1 & Hrun1 & Hs1 & Hc1 & Ht1); [done|lia|lia|by apply Hne|].
  rewrite Hl0 in Hrun1, Ht1. change (0 + Z.of_nat 512)%Z with 512%Z in Hrun1, Ht1.
  destruct (steady_step (S (S fuel)) 2048 (drop 512 bytes) 512 (clock (env w0)) w1)
    as (w2 & Hrun2 & Hs2 & Hc2 & Ht2); [done|lia|lia|by apply Hne|].
  rewrite Hl1 in Hrun2, Ht2. change (512 + Z.of_nat 512)%Z with 1024%Z in Hrun2, Ht2.
  destruct (steady_step (S fuel) 2048 (drop 512 (drop 512 bytes)) 1024
              (clock (env w1)) w2)
    as (w3 & Hrun3 & Hs3 & Hc3 & Ht3); [done|lia|lia|by apply Hne|].
  rewrite Hl2 in Hrun3, Ht3. change (1024 + Z.of_nat 512)%Z with 1536%Z in Hrun3, Ht3.
  destruct (steady_step fuel 2048 (drop 512 (drop 512 (drop 512 bytes))) 1536
              (clock (env w2)) w3)
    as (w4 & Hrun4 & Hs4 & Hc4 & Ht4); [done|lia|lia|by apply Hne|].
  rewrite Hl3 in Hrun4, Ht4. change (1536 + Z.of_nat 512)%Z with 2048%Z in Hrun4, Ht4.
  rewrite (transfer_done fuel 2048 _ 2048) in Hrun4 by lia.
  rewrite Hrun4 in Hrun3. rewrite Hrun3 in Hrun2. rewrite Hrun2 in Hrun1.
  destruct Hs4 as (_ & _ & _ & _ & Htl4).
  eexists. split.
  - rewrite Hstart. apply try_except_ok.
    rewrite (bind_ok _ _ _ _ _ Hrun1). cbn [after_transfer].
    step. unfold time_sleep. repeat step. fields. rewrite Htl4.
    cbn [Controller.pass_time]. unfold _ota_finish. step. reflexivity.
  - fields. rewrite Ht4, Ht3, Ht2, Ht1, Ht0. rewrite <- !app_assoc.
    rewrite !drop_drop. change (512 + 512)%nat with 1024%nat.
    change (1024 + 512)%nat with 1536%nat.
    assert (Hlast : take 512 (drop 1536 bytes) = drop 1536 bytes)
      by (apply take_ge; rewrite length_drop, Hlen; vm_compute; reflexivity).
    rewrite Hlast. reflexivity.
Qed.

Lemma abort_clicked w :
  ota_in_progress (app_state w) = true →
  connected (bt_manager w) = true → serial_port (bt_manager w) ≠ None →
  calls_return 2 w →
  completed _abort_ota_upload w = abort_handled w.
Proof.
  intros Hbusy Hconn Hsp Hret.
  assert (Hrun : _abort_ota_upload w = (Ok tt, abort_handled w)).
  { unfold _abort_ota_upload. step. rewrite Hbusy. step.
    rewrite bind_send_command_ok by (fields; assumption).
    reflexivity. }
  unfold completed. by rewrite Hrun.
Qed.

(** C9, as the code has it.  When the loop reaches its check with bytes
    still to send and the abort flag set, it sends nothing more and ends
    the session with "Aborted by user".  The abort button, while a
    session is in progress, sets the flag and, on an open link with the
    library returning, transmits OTA_ABORT.  On a file of 2048 bytes,
    an abort during the pacing delay after the second chunk leaves two
    chunks written, then OTA_ABORT, then the aborted end: no third or
    fourth chunk. *)
Theorem ota_abort :
  (∀ fuel file_size f bytes_sent last w,
     (bytes_sent < file_size)%Z →
     ota_abort_flag (app_state w) = true →
     transfer_loop (S fuel) file_size 512 f bytes_sent last w
     = (Ok (Some Returned),
        queued (ota_finish_update_ui "Aborted by user" false) w))
  ∧ (∀ w,
       ota_in_progress (app_state w) = true →
       connected (bt_manager w) = true → serial_port (bt_manager w) ≠ None →
       calls_return 2 w →
       let w' := completed _abort_ota_upload w in
       ota_abort_flag (app_state w') = true
       ∧ trace (env w')
         = (trace (env w)
            ++ [Written (encode_utf8 ("OTA_ABORT" +:+ newline)); Flushed;
                SerialOutput ">>> OTA_ABORT" "sent"])%list)
  ∧ (∀ (w : World) (fuel : nat) (path : string) (bytes : list Byte.byte),
       ota_file_path (app_state w) = Some path →
       files (env w) !! path = Some bytes →
       length bytes = 2048%nat →
       connected (bt_manager w) = true → serial_port (bt_manager w) ≠ None →
       faults (env w) = [] →
       ota_in_progress (app_state w) = true →
       ota_abort_flag (app_state w) = false →
       timeline (env w) = [DeviceLine "OK:OTA_READY"; Tick 30; AbortClicked] →
       (3 ≤ fuel)%nat →
       ∃ w', _ota_upload_thread max_str_digits fuel w = (Ok (Some tt), w')
         ∧ trace (env w')
           = (trace (env w) ++ start_events 2048
              ++ [Written (take 512 bytes); Flushed;
                  After (update_ota_progress (1 # 4) 512 2048); Slept 20;
                  Written (take 512 (drop 512 bytes)); Flushed;
                  After (update_ota_progress (1 # 2) 1024 2048); Slept 20;
                  Written (encode_utf8 ("OTA_ABORT" +:+ newline)); Flushed;
                  SerialOutput ">>> OTA_ABORT" "sent";
                  After (ota_finish_update_ui "Aborted by user" false)])%list).
Proof.
  split; [intros; by apply transfer_aborts|]. split.
  { intros w Hbusy Hconn Hsp Hret w'. subst w'.
    rewrite abort_clicked by done. unfold abort_handled. fields.
    split; [done|]. by rewrite <- !app_assoc. }
  intros w fuel path bytes Hpath Hfile Hlen Hconn Hsp Hfaults Hbusy Habort Htl Hfuel.
  destruct fuel as [|[|[|fuel]]]; try lia. clear Hfuel.
  pose proof (thread_reaches_transfer (S (S (S fuel))) w path bytes
                [Tick 30; AbortClicked]
                Hpath Hfile Hconn Hsp (calls_return_nil 2 w Hfaults) Habort Htl)
    as Hstart.
  cbv zeta in Hstart. rewrite Hlen in Hstart.
  change (Z.of_nat 2048) with 2048%Z in Hstart.
  pose proof (start_trace 2048 [Tick 30; AbortClicked] w) as Ht0.
  assert (Hw0 : ∃ w0, w0 = transfer_start 2048 [Tick 30; AbortClicked] w
            ∧ ota_abort_flag (app_state w0) = false
            ∧ ota_in_progress (app_state w0) = true
            ∧ connected (bt_manager w0) = true
            ∧ serial_port (bt_manager w0) ≠ None
            ∧ faults (env w0) = []
            ∧ timeline (env w0) = [Tick 30; AbortClicked]).
  { eexists. split; [reflexivity|].
    unfold transfer_start, ready_line_handled. fields.
    rewrite Hfaults, drop_nil. done. }
  destruct Hw0 as (w0 & Ew0 & Ha0 & Hb0 & Hc0 & Hp0 & Hf0 & Htl0).
  rewrite <- Ew0 in Hstart, Ht0. clear Ew0.
  assert (Hl0 : length (take 512 bytes) = 512%nat)
    by (rewrite length_take, Hlen; reflexivity).
  assert (Hl1 : length (take 512 (drop 512 bytes)) = 512%nat)
    by (rewrite length_take, length_drop, Hlen; reflexivity).
  assert (Hne : ∀ l : list Byte.byte, length (take 512 l) = 512%nat → take 512 l ≠ [])
    by (intros l Hl E; by rewrite E in Hl).
  (* the first chunk *)
  pose proof (transfer_step (S (S fuel)) 2048 bytes 0 (clock (env w0)) w0
                ltac:(lia) Ha0 Hc0 Hp0 ltac:(lia) (Hne _ Hl0)
                (calls_return_nil 2 w0 Hf0)) as Hrun1.
  rewrite Hl0 in Hrun1. change (0 + Z.of_nat 512)%Z with 512%Z in Hrun1.
  unfold chunk_sent in Hrun1. rewrite Htl0 in Hrun1.
  cbn [Controller.pass_time] in Hrun1.
  change (30 <=? 20)%Z with false in Hrun1. cbv iota in Hrun1.
  change (30 - 20)%Z with 10%Z in Hrun1.
  match type of Hrun1 with
  | _ = Controller.transfer_loop _ _ _ _ _ _ _ ?x => set (w1 := x) in *
  end.
  assert (H1 : ota_abort_flag (app_state w1) = false
            ∧ ota_in_progress (app_state w1) = true
            ∧ connected (bt_manager w1) = true
            ∧ serial_port (bt_manager w1) ≠ None
            ∧ faults (env w1) = []
            ∧ timeline (env w1) = [Tick 10; AbortClicked]
            ∧ clock (env w1) = (clock (env w0) + 20)%Z
            ∧ trace (env w1)
              = (trace (env w0) ++ chunk_events (take 512 bytes) 512 2048)%list).
  { unfold w1, chunk_events. fields. rewrite Hf0, drop_nil, <- !app_assoc. done. }
  destruct H1 as (Ha1 & Hb1 & Hc1 & Hp1 & Hf1 & Htl1 & Hk1 & Ht1).
  clearbody w1.
  (* the second chunk, and the abort during its pacing delay *)
  pose proof (transfer_step (S fuel) 2048 (drop 512 bytes) 512 (clock (env w0)) w1
                ltac:(lia) Ha1 Hc1 Hp1 ltac:(lia) (Hne _ Hl1)
                (calls_return_nil 2 w1 Hf1)) as Hrun2.
  rewrite Hl1 in Hrun2. change (512 + Z.of_nat 512)%Z with 1024%Z in Hrun2.
  unfold chunk_sent in Hrun2. rewrite Htl1 in Hrun2.
  cbn [Controller.pass_time] in Hrun2.
  change (10 <=? 20)%Z with true in Hrun2. cbv iota in Hrun2.
  cbn [env_step] in Hrun2.
  rewrite abort_clicked in Hrun2
    by first [ fields; assumption
             | apply calls_return_nil; fields; rewrite Hf1; apply drop_nil ].
  match type of Hrun2 with
  | _ = Controller.transfer_loop _ _ _ _ _ _ _ ?x => set (w2 := x) in *
  end.
  assert (H2 : ota_abort_flag (app_state w2) = true
            ∧ trace (env w2)
              = (trace (env w1)
                 ++ chunk_events (take 512 (drop 512 bytes)) 1024 2048
                 ++ [Written (encode_utf8 ("OTA_ABORT" +:+ newline)); Flushed;
                     SerialOutput ">>> OTA_ABORT" "sent"])%list).
  { unfold w2, abort_handled, chunk_events. fields.
    rewrite <- !app_assoc. done. }
  destruct H2 as (Ha2 & Ht2). clearbody w2.
  rewrite (transfer_aborts fuel 2048 _ 1024 _ w2 ltac:(lia) Ha2) in Hrun2.
  rewrite Hrun2 in Hrun1.
  eexists. split.
  - rewrite Hstart. apply try_except_ok.
    rewrite (bind_ok _ _ _ _ _ Hrun1). reflexivity.
  - fields. rewrite Ht2, Ht1, Ht0. rewrite <- !app_assoc. reflexivity.
Qed.

End Interpreter.

Lemma ota_abort_witness :
  ∃ w', _ota_upload_thread 4300 3
          (upload_world firmware [DeviceLine "OK:OTA_READY"; Tick 30; AbortClicked])
        = (Ok (Some tt), w').
Proof.
  destruct (proj2 (proj2 (ota_abort 4300))
              (upload_world firmware [DeviceLine "OK:OTA_READY"; Tick 30; AbortClicked])
              3%nat "firmware.bin" firmware)
    as (w' & Hrun & Htrace);
    [reflexivity|reflexivity|reflexivity|reflexivity|discriminate
    |reflexivity|reflexivity|reflexivity|reflexivity|lia|].
  by exists w'.
Defined.

(** An abort during the pacing delay after the last chunk is not seen:
    the flag is set, and the session ends as a success. *)
Lemma abort_after_last_chunk :
  let w' := completed (_ota_upload_thread 4300 5)
              (upload_world firmware
                 [DeviceLine "OK:OTA_READY"; Tick 70; AbortClicked]) in
  ota_abort_flag (app_state w') = true
  ∧ last (trace (env w'))
    = Some (After (ota_finish_update_ui "Upload complete - device restarting" true))
  ∧ last (trace (env w'))
    ≠ Some (After (ota_finish_update_ui "Aborted by user" false)).
Proof. vm_compute. split; [reflexivity|]. split; [reflexivity|discriminate]. Qed.

Lemma ota_upload_2048_witness :
  ∃ w', _ota_upload_thread 4300 4
          (upload_world firmware [DeviceLine "OK:OTA_READY"])
        = (Ok (Some tt), w').
Proof.
  destruct (proj1 (ota_upload_2048 4300)
              (upload_world firmware [DeviceLine "OK:OTA_READY"]) 4%nat
              "firmware.bin" firmware)
    as (w' & Hrun & _); [reflexivity|reflexivity|reflexivity|reflexivity
                        |discriminate|reflexivity|reflexivity|reflexivity|lia|].
  by exists w'.
Defined.

End TransferFacts.

Module CycleFacts.
Import PyStr PyStrFacts Codec CodecFacts Transport TransportFacts Controller Exec
  ControllerFacts TransferFacts Observations.

Lemma str_of_int_inj a b : str_of_int a = str_of_int b → a = b.
Proof.
  intros H.
  assert (Ha : py_int 0 (str_of_int a) = Ok a)
    by (apply py_int_str_of_int; unfold digits_allowed; by rewrite andb_false_r).
  assert (Hb : py_int 0 (str_of_int b) = Ok b)
    by (apply py_int_str_of_int; unfold digits_allowed; by rewrite andb_false_r).
  rewrite H, Hb in Ha. by injection Ha.
Qed.

Lemma calls_return_split n m w w' :
  calls_return (n + m) w → faults (env w') = drop n (faults (env w)) →
  calls_return n w ∧ calls_return m w'.
Proof.
  unfold calls_return. intros H ->. revert H.
  generalize (faults (env w)) as l. induction n as [|n IH]; intros l H.
  - split; [by rewrite take_0|by rewrite drop_0].
  - destruct l as [|x l]; [by rewrite drop_nil, !take_nil|].
    cbn [Nat.add take drop] in *. apply Forall_cons in H as [Hx H].
    destruct (IH l H) as [H1 H2]. split; [by constructor|done].
Qed.

Lemma keeps_settings_send_command command :
  Keeps cycle_settings (send_command command).
Proof. keeps. Qed.

Lemma keeps_settings_update_progress : Keeps cycle_settings _update_progress.
Proof. unfold _update_progress, truediv. keeps. Qed.



End CycleFacts.

Module FuelFacts.
Import PyStr Codec Transport Controller Observations Exec.

Section Interpreter.
Variable max_str_digits : N.

(** With more fuel than the file has bytes the loop comes to an end. *)
Lemma transfer_loop_ends fuel : ∀ file_size f bytes_sent last w,
  (length f < fuel)%nat →
  (transfer_loop max_str_digits fuel file_size 512 f bytes_sent last w).1
  ≠ Ok None.
Proof.
  induction fuel as [|fuel IH]; intros file_size f bytes_sent last w Hfuel; [lia|].
  cbn [transfer_loop]. destruct (bytes_sent <? file_size)%Z; [|done].
  rewrite bind_gets. destruct (ota_abort_flag (app_state w)).
  { unfold _ota_finish. by rewrite bind_root_after. }
  unfold is_connected at 1. rewrite bind_gets.
  destruct (connected (bt_manager w) && _); cbn [negb];
    [|unfold _ota_finish; by rewrite bind_root_after].
  rewrite bind_gets. destruct (5000 <? _)%Z;
    [unfold _ota_finish; by rewrite bind_root_after|].
  change (Z.to_nat 512) with 512%nat.
  destruct (bool_decide_reflect (take 512 f = [])) as [|Hchunk]; [done|].
  unfold bind at 1. destruct (send_bytes (take 512 f) w) as [[[]|e] w1]; [| |done].
  - cbn [negb]. rewrite bind_gets. unfold truediv.
    destruct (file_size =? 0)%Z; [done|].
    rewrite bind_ret, bind_root_after. unfold time_sleep at 1.
    rewrite bind_bind, bind_emit, bind_modify.
    apply IH. rewrite length_drop. destruct f; [done|]. cbn [length] in *. lia.
  - cbn [negb]. unfold _ota_finish. by rewrite bind_root_after.
Qed.

End Interpreter.
End FuelFacts.

Module ManagerFacts.
Import PyStr Codec Transport Controller Manager Observations Notions Exec
  TransportFacts.

(** X1: on an open connection [send_bytes] writes the bytes as they are
    (nothing stripped, nothing appended) and flushes; when the write
    raises a serial fault it returns False after the disconnect handling;
    any other exception of the library reaches the caller, with the
    connected flag still up. *)
Theorem send_bytes_raw (w : World) (data : list Byte.byte) :
  connected (bt_manager w) = true → serial_port (bt_manager w) ≠ None →
  (calls_return 2 w →
   send_bytes data w = (Ok true, after_effects [Written data; Flushed] 2 w))
  ∧ (∀ msg rest,
       faults (env w) = Some (SerialException msg) :: rest →
       ∃ w', send_bytes data w = (Ok false, w')
         ∧ bt_manager w' = set_connected false (bt_manager w)
         ∧ trace (env w')
           = (trace (env w) ++ [Printed ("Send bytes failed: " +:+ msg)]
              ++ disconnect_handling w)%list)
  ∧ (∀ e rest,
       faults (env w) = Some e :: rest → is_SerialException e = false →
       ∃ w', send_bytes data w = (Raise e, w')
         ∧ bt_manager w' = bt_manager w ∧ trace (env w') = trace (env w)).
Proof.
  destruct_world w. cbn [bt_manager connected serial_port env faults].
  intros -> Hsp. destruct sp as [handle|]; [clear Hsp|done].
  unfold send_bytes, bind, gets, not_ready. cbv beta iota.
  cbn [bt_manager connected serial_port negb orb].
  rewrite bool_decide_eq_false_2 by done. split; [|split].
  - unfold calls_return. cbn [env faults].
    destruct fa as [|[e|] [|[e'|] fa]]; intros Hret;
      try (by inversion Hret as [|? ? Hh Ht]; try inversion Ht);
      lazy -[app]; rewrite <- ?app_assoc; reflexivity.
  - intros msg rest ->.
    destruct occ; eexists;
      (split; [lazy -[app append]; reflexivity|]);
      (split; [reflexivity|]);
      lazy -[app append]; rewrite <- ?app_assoc; reflexivity.
  - intros e rest -> He.
    destruct e; try discriminate He;
      eexists; (split; [lazy -[app append]; reflexivity|]); done.
Qed.

Lemma send_bytes_raw_witness :
  send_bytes [Byte.x01; Byte.x0a; Byte.x20] connected_world
  = (Ok true,
     after_effects [Written [Byte.x01; Byte.x0a; Byte.x20]; Flushed] 2
       connected_world).
Proof.
  apply (proj1 (send_bytes_raw connected_world [Byte.x01; Byte.x0a; Byte.x20]
                  eq_refl ltac:(discriminate))).
  vm_compute. constructor.
Defined.


(** What [connect] does before it opens the port. *)
Lemma connect_prefix (w : World) :
  let w0 := if connected (bt_manager w) then completed disconnect w else w in
  (if connected (bt_manager w) then disconnect else ret tt) w = (Ok tt, w0).
Proof.
  cbv zeta. destruct (connected (bt_manager w)); [|done].
  destruct (disconnect_returns w) as [w1 H1]. unfold completed. by rewrite H1.
Qed.

Ltac connect_start w0 :=
  unfold connect; unfold bind at 1; unfold gets at 1; cbv beta iota;
  unfold bind at 1; rewrite connect_prefix; cbv beta iota zeta;
  fold w0; generalize dependent w0; intros w0; destruct_world w0.

(** X2: when the port opens and the first write goes through, [connect]
    (after disconnecting, if the manager was connected) returns True with
    the port object, the port name and the connected flag set, the reader
    started and the listener told; it lets the device settle for 500 ms
    and then sends PING. *)
Theorem connect_opens (w : World) (port : string) (baudrate timeout : Z) :
  let w0 := if connected (bt_manager w) then completed disconnect w else w in
  calls_return 3 w0 →
  ∃ w', connect port baudrate timeout w = (Ok true, w')
    ∧ bt_manager w'
      = mkManager (Some (mkSerial port baudrate timeout timeout)) true (Some port)
          (on_data_received (bt_manager w0)) (on_connection_changed (bt_manager w0))
          true false
    ∧ trace (env w')
      = (trace (env w0) ++ [Opened port baudrate timeout; ReaderStarted]
         ++ (if on_connection_changed (bt_manager w0)
             then [ConnectionChanged true; After (update_connection_ui true)]
             else [])
         ++ [Slept 500; Written (encode_utf8 ("PING" +:+ newline)); Flushed])%list
    ∧ clock (env w') = (clock (env w0) + 500)%Z.
Proof.
  intros w0. connect_start w0.
  unfold calls_return. cbn [env faults bt_manager on_data_received on_connection_changed
                            trace clock].
  intros Hret.
  destruct fa as [|[e|] [|[e1|] [|[e2|] fa]]];
    try (by repeat (apply Forall_cons in Hret as [? Hret]));
    destruct occ; eexists;
      (split; [lazy -[app Z.add]; reflexivity|]);
      (split; [reflexivity|]);
      (split; [lazy -[app Z.add]; rewrite <- ?app_assoc; reflexivity|]);
      reflexivity.
Qed.

Lemma connect_opens_witness :
  ∃ w', connect "COM3" 115200 2000 initial_world = (Ok true, w')
    ∧ bt_manager w'
      = mkManager (Some (mkSerial "COM3" 115200 2000 2000)) true (Some "COM3")
          true true true false.
Proof.
  destruct (connect_opens initial_world "COM3" 115200 2000) as (w' & H1 & H2 & _).
  - vm_compute. constructor.
  - exists w'. split; [exact H1|exact H2].
Defined.

(** X3: [connect] returns True as soon as the port has opened: when the
    PING that follows fails with a serial fault, the answer is still
    True, although the connected flag is down again and [is_connected]
    says False; the port object stays stored and is not closed. *)
Theorem connect_ping_failure (w : World) (port : string) (baudrate timeout : Z)
    (msg : string) (rest : list (option exn)) :
  let w0 := if connected (bt_manager w) then completed disconnect w else w in
  faults (env w0) = None :: Some (SerialException msg) :: rest →
  ∃ w', connect port baudrate timeout w = (Ok true, w')
    ∧ connected (bt_manager w') = false
    ∧ serial_port (bt_manager w') = Some (mkSerial port baudrate timeout timeout)
    ∧ is_connected w' = (Ok false, w')
    ∧ trace (env w')
      = (trace (env w0) ++ [Opened port baudrate timeout; ReaderStarted]
         ++ (if on_connection_changed (bt_manager w0)
             then [ConnectionChanged true; After (update_connection_ui true)]
             else [])
         ++ [Slept 500; Printed ("Send failed: " +:+ msg)]
         ++ (if on_connection_changed (bt_manager w0)
             then [ConnectionChanged false; After (update_connection_ui false)]
             else []))%list.
Proof.
  intros w0. connect_start w0.
  cbn [env faults trace bt_manager on_connection_changed]. intros ->.
  destruct occ; eexists;
    (split; [lazy -[app Z.add append]; reflexivity|]);
    (split; [reflexivity|]); (split; [reflexivity|]); (split; [reflexivity|]);
    lazy -[app Z.add append]; rewrite <- ?app_assoc; reflexivity.
Qed.

Lemma connect_ping_failure_witness :
  let w := set_env (set_faults [None; Some (SerialException "write failed")]
                      (env initial_world)) initial_world in
  ∃ w', connect "COM3" 115200 2000 w = (Ok true, w')
    ∧ connected (bt_manager w') = false
    ∧ is_connected w' = (Ok false, w').
Proof.
  destruct (connect_ping_failure
              (set_env (set_faults [None; Some (SerialException "write failed")]
                          (env initial_world)) initial_world)
              "COM3" 115200 2000 "write failed" [] eq_refl)
    as (w' & H1 & H2 & _ & H4 & _).
  exists w'. repeat split; assumption.
Defined.

Lemma send_bytes_fault data w msg rest :
  connected (bt_manager w) = true → serial_port (bt_manager w) ≠ None →
  faults (env w) = Some (SerialException msg) :: rest →
  ∃ w', send_bytes data w = (Ok false, w')
    ∧ bt_manager w' = set_connected false (bt_manager w)
    ∧ trace (env w')
      = (trace (env w) ++ [Printed ("Send bytes failed: " +:+ msg)]
         ++ disconnect_handling w)%list.
Proof.
  destruct_world w. cbn [bt_manager connected serial_port env faults].
  intros -> Hsp ->. destruct sp as [handle|]; [clear Hsp|done].
  destruct occ; eexists;
    (split; [lazy -[app append]; reflexivity|]);
    (split; [reflexivity|]);
    lazy -[app append]; rewrite <- ?app_assoc; reflexivity.
Qed.

(** An exception of the library that is no serial fault goes through
    [send_command]. *)
Lemma send_command_raises command w e rest :
  connected (bt_manager w) = true → serial_port (bt_manager w) ≠ None →
  faults (env w) = Some e :: rest → is_SerialException e = false →
  ∃ w', send_command command w = (Raise e, w')
    ∧ trace (env w') = trace (env w).
Proof.
  destruct_world w. cbn [bt_manager connected serial_port env faults].
  intros -> Hsp -> He. destruct sp as [handle|]; [clear Hsp|done].
  destruct e; try discriminate He;
    eexists; (split; [lazy -[app append encode_utf8 str_strip]; reflexivity|]); done.
Qed.

(** X4: after a send has failed with a serial fault the port object is
    kept as it is, open, but nothing more goes to it: [is_connected] and
    [get_serial_port] deny the connection, and further sends return False
    without a call into the library. *)
Theorem send_after_fault (w : World) (command next : string)
    (data : list Byte.byte) (msg : string) (rest : list (option exn)) :
  connected (bt_manager w) = true → serial_port (bt_manager w) ≠ None →
  faults (env w) = Some (SerialException msg) :: rest →
  ∃ w1, send_command command w = (Ok false, w1)
    ∧ serial_port (bt_manager w1) = serial_port (bt_manager w)
    ∧ faults (env w1) = rest
    ∧ is_connected w1 = (Ok false, w1)
    ∧ get_serial_port w1 = (Ok None, w1)
    ∧ get_port_name w1 = (Ok None, w1)
    ∧ send_command next w1 = (Ok false, w1)
    ∧ send_bytes data w1 = (Ok false, w1).
Proof.
  destruct_world w. cbn [bt_manager connected serial_port env faults].
  intros -> Hsp ->. destruct sp as [handle|]; [clear Hsp|done].
  destruct occ; eexists; (split; [lazy -[app append]; reflexivity|]);
    repeat split.
Qed.

Lemma send_after_fault_witness :
  let w := set_env (set_faults [Some (SerialException "write failed")]
                      (env connected_world)) connected_world in
  ∃ w1, send_command "STATUS" w = (Ok false, w1)
    ∧ send_command "PING" w1 = (Ok false, w1)
    ∧ send_bytes [Byte.x00] w1 = (Ok false, w1).
Proof.
  destruct (send_after_fault
              (set_env (set_faults [Some (SerialException "write failed")]
                          (env connected_world)) connected_world)
              "STATUS" "PING" [Byte.x00] "write failed" []
              eq_refl ltac:(discriminate) eq_refl)
    as (w1 & H1 & _ & _ & _ & _ & _ & H7 & H8).
  exists w1. repeat split; assumption.
Defined.

(** *** The connected flag, the port object and the port name *)

Lemma send_command_manager command w :
  bt_manager (completed (send_command command) w) = bt_manager w
  ∨ bt_manager (completed (send_command command) w)
    = set_connected false (bt_manager w).
Proof.
  destruct_world w. unfold completed, send_command, bind, gets. cbv beta iota.
  destruct (not_ready _); [by left|].
  destruct fa as [|[e|] [|[e'|] fa]]; try destruct e; try destruct e';
    destruct occ; lazy -[app append encode_utf8 str_strip]; auto.
Qed.

Lemma send_bytes_manager data w :
  bt_manager (completed (send_bytes data) w) = bt_manager w
  ∨ bt_manager (completed (send_bytes data) w)
    = set_connected false (bt_manager w).
Proof.
  destruct_world w. unfold completed, send_bytes, bind, gets. cbv beta iota.
  destruct (not_ready _); [by left|].
  destruct fa as [|[e|] [|[e'|] fa]]; try destruct e; try destruct e';
    destruct occ; lazy -[app append]; auto.
Qed.

Lemma linked_lowered m : linked (set_connected false m).
Proof. intros H. discriminate H. Qed.

Lemma disconnect_manager w :
  bt_manager (completed disconnect w)
  = mkManager None false None (on_data_received (bt_manager w))
      (on_connection_changed (bt_manager w)) (_reader_thread (bt_manager w)) true.
Proof.
  destruct_world w.
  destruct rt; [destruct al as [|[] al]|];
    destruct sp; destruct fa as [|[e|] fa]; destruct occ;
    lazy -[app]; reflexivity.
Qed.

Lemma connect_linked port baudrate timeout w :
  linked (bt_manager (completed (connect port baudrate timeout) w)).
Proof.
  pose (w0 := if connected (bt_manager w) then completed disconnect w else w).
  assert (Hc : connected (bt_manager w0) = false).
  { subst w0. destruct (connected (bt_manager w)) eqn:E; [|done].
    by rewrite disconnect_manager. }
  unfold completed. connect_start w0. cbn [bt_manager connected]. intros ->.
  destruct fa as [|[e|] [|[e1|] [|[e2|] fa]]];
    try destruct e; try destruct e1; try destruct e2; destruct occ;
    lazy -[app append Z.add encode_utf8 linked]; unfold linked;
    cbn [connected serial_port port_name]; intros H; try discriminate H; done.
Qed.

(** X5: whatever the library does, the methods of the manager keep the
    connected flag tied to the port object and the port name: while the
    flag is up both are there, so [is_connected] answers with the flag and
    [get_port_name] has a name to give. *)
Theorem manager_linked (w : World) (calls : list Call) :
  linked (bt_manager w) →
  let w' := foldl (λ w c, run_call c w) w calls in
  linked (bt_manager w')
  ∧ is_connected w' = (Ok (connected (bt_manager w')), w')
  ∧ (connected (bt_manager w') = true →
     ∃ name, get_port_name w' = (Ok (Some name), w')).
Proof.
  intros H w'.
  assert (Hl : linked (bt_manager w')).
  { subst w'. revert w H. induction calls as [|c calls IH]; intros w H; [done|].
    cbn [foldl]. apply IH. destruct c; cbn [run_call].
    - apply connect_linked.
    - rewrite disconnect_manager. intros Hc. discriminate Hc.
    - destruct (send_command_manager command w) as [-> | ->];
        [done|apply linked_lowered].
    - destruct (send_bytes_manager data w) as [-> | ->];
        [done|apply linked_lowered].
    - destruct_world w. destruct occ; intros Hc; discriminate Hc. }
  split; [done|]. unfold is_connected, get_port_name, gets. split.
  - f_equal. destruct (connected (bt_manager w')) eqn:E; [|done].
    destruct (Hl E) as [Hs _]. cbn. by rewrite bool_decide_eq_true_2.
  - intros E. destruct (Hl E) as [_ Hn]. rewrite E.
    destruct (port_name (bt_manager w')) as [name|]; [by exists name|done].
Qed.

Lemma manager_linked_witness :
  let w' := foldl (λ w c, run_call c w) initial_world
              [CallConnect "COM3" 115200 2000; CallSendCommand "STATUS";
               CallHandleDisconnect; CallConnect "COM4" 115200 2000] in
  is_connected w' = (Ok (connected (bt_manager w')), w').
Proof.
  refine (proj1 (proj2 (manager_linked initial_world
            [CallConnect "COM3" 115200 2000; CallSendCommand "STATUS";
             CallHandleDisconnect; CallConnect "COM4" 115200 2000] _))).
  intros H. discriminate H.
Defined.

End ManagerFacts.

Module ProtocolFacts.
Import PyStr PyStrFacts Codec CodecFacts Transport Controller Manager Observations
  Notions Exec TransportFacts TransferFacts CycleFacts.

Lemma command_text_stripped c : str_strip (command_text c) = command_text c.
Proof.
  destruct c; cbn [command_text];
    first [ reflexivity
          | by apply (str_strip_command "S") ].
Qed.

Lemma command_text_one_line c : str_in newline (command_text c) = false.
Proof.
  unfold newline. destruct c; cbn [command_text]; try reflexivity;
    unfold CommandProtocol.set_type, CommandProtocol.set_extend,
      CommandProtocol.set_retract, CommandProtocol.set_dwell_extend,
      CommandProtocol.set_dwell_retract, CommandProtocol.set_speed,
      CommandProtocol.set_cycles;
    rewrite str_in_app; rewrite str_of_int_no_char by done; reflexivity.
Qed.

Lemma append_inj_r (p a b : string) : p +:+ a = p +:+ b → a = b.
Proof. induction p as [|c p IH]; [done|]. intros H. injection H as H. auto. Qed.

Lemma command_text_inj c c' : command_text c = command_text c' → c = c'.
Proof.
  destruct c, c'; cbn [command_text];
    unfold CommandProtocol.set_type, CommandProtocol.set_extend,
      CommandProtocol.set_retract, CommandProtocol.set_dwell_extend,
      CommandProtocol.set_dwell_retract, CommandProtocol.set_speed,
      CommandProtocol.set_cycles, CommandProtocol.start, CommandProtocol.stop,
      CommandProtocol.pause, CommandProtocol.resume, CommandProtocol.go_home,
      CommandProtocol.go_extend, CommandProtocol.go_retract,
      CommandProtocol.get_status, CommandProtocol.get_settings,
      CommandProtocol.ping;
    intros H; try reflexivity; try discriminate H;
    try (apply append_inj_r, str_of_int_inj in H; by subst).
Qed.

(** X6: every command [CommandProtocol] builds, for an argument that
    [str] renders (one within the digit limit of the interpreter), is one
    line that [send_command] writes as it is (stripping changes nothing),
    followed by one newline; and two commands are the same text only when
    they are the same command with the same argument. *)
Theorem command_on_the_wire (max_str_digits : N) (c : Command) :
  built max_str_digits c →
  str_strip (command_text c) = command_text c
  ∧ str_in newline (command_text c) = false
  ∧ (∀ c', built max_str_digits c' →
           command_text c = command_text c' → c = c')
  ∧ (∀ w, connected (bt_manager w) = true → serial_port (bt_manager w) ≠ None →
          calls_return 2 w →
          send_command (command_text c) w
          = (Ok true,
             after_effects
               [Written (encode_utf8 (command_text c +:+ newline)); Flushed] 2 w)).
Proof.
  intros _.
  split; [apply command_text_stripped|].
  split; [apply command_text_one_line|].
  split; [intros c' _; apply command_text_inj|].
  intros w Hc Hs Hr. rewrite send_command_ok by done.
  by rewrite command_text_stripped.
Qed.

Lemma command_on_the_wire_witness :
  send_command (CommandProtocol.set_dwell_extend 2200) connected_world
  = (Ok true,
     after_effects
       [Written (encode_utf8 ("SET_DWELL_EXT:2200" +:+ newline)); Flushed] 2
       connected_world).
Proof.
  refine (proj2 (proj2 (proj2 (command_on_the_wire 4300 (SetDwellExtend 2200) _)))
            connected_world eq_refl _ _).
  - intros n [= <-]. right. apply N.leb_le. reflexivity.
  - discriminate.
  - vm_compute. constructor.
Defined.

End ProtocolFacts.

Module DecodeFacts.
Import PyStr PyStrFacts Codec CodecFacts Observations Notions.

Lemma str_split_parts c s :
  Forall (λ p, has_char c p = false) (str_split c None s).
Proof.
  induction s as [|d r IH]; [by repeat constructor|].
  cbn [str_split]. rewrite bool_decide_eq_false_2 by done.
  cbn [negb fmap option_fmap option_map]. rewrite andb_true_r.
  destruct (Ascii.eqb_spec d c) as [->|Hd].
  - constructor; [done|exact IH].
  - assert (Hdc : Ascii.eqb d c = false) by by apply Ascii.eqb_neq.
    destruct (str_split c None r) as [|h t].
    + constructor; [|constructor]. by rewrite str_in_cons, Hdc.
    + apply Forall_cons in IH as [Hh Ht]. constructor; [|done].
      by rewrite str_in_cons, Hh, Hdc.
Qed.

Lemma str_split_not_nil c m s : str_split c m s ≠ [].
Proof.
  revert m. induction s as [|d r IH]; intros m; [done|].
  cbn [str_split]. destruct (_ && _); [done|].
  specialize (IH m). by destruct (str_split c m r).
Qed.

Lemma str_split_snoc c s p :
  has_char c p = false →
  str_split c None (s +:+ String c p) = (str_split c None s ++ [p])%list.
Proof.
  intros Hp. induction s as [|d r IH].
  - change (EmptyString +:+ String c p) with (String c p).
    cbn [str_split]. rewrite Ascii.eqb_refl, bool_decide_eq_false_2 by done.
    cbn [negb andb fmap option_fmap option_map].
    by rewrite (str_split_absent c None p Hp).
  - change (String d r +:+ String c p) with (String d (r +:+ String c p)).
    cbn [str_split fmap option_fmap option_map]. rewrite !IH.
    rewrite bool_decide_eq_false_2 by done. cbn [negb]. rewrite andb_true_r.
    destruct (Ascii.eqb d c); [done|].
    destruct (str_split c None r) as [|h t] eqn:E; [|done].
    by destruct (str_split_not_nil c None r).
Qed.

Section Decode.
Variable max_str_digits : N.

Lemma spec_field_entries data p :
  has_char "," p = false →
  map_Forall (entry_ok max_str_digits) data →
  map_Forall (entry_ok max_str_digits) (spec_field max_str_digits data p).
Proof.
  intros Hp Hdata. unfold spec_field.
  destruct (cut_first "=" p) as [[key text]|] eqn:E; [|done].
  apply cut_first_some in E as [-> Hkey].
  rewrite str_in_app, str_in_cons in Hp.
  apply orb_false_elim in Hp as [Hk Ht]. cbn [Ascii.eqb Bool.eqb orb] in Ht.
  apply map_Forall_insert_2; [|done].
  unfold entry_ok, spec_value. repeat split; try done.
  destruct (py_int max_str_digits text) as [n|e] eqn:Hint; [done|].
  split; [done|by exists e].
Qed.

Lemma foldl_spec_field_entries parts : ∀ data,
  Forall (λ p, has_char "," p = false) parts →
  map_Forall (entry_ok max_str_digits) data →
  map_Forall (entry_ok max_str_digits)
    (foldl (spec_field max_str_digits) data parts).
Proof.
  induction parts as [|p parts IH]; intros data Hparts Hdata; [done|].
  apply Forall_cons in Hparts as [Hp Hparts]. cbn [foldl].
  apply IH; [done|]. by apply spec_field_entries.
Qed.

(** X7: whatever the line, the kind [parse_response] returns holds no
    colon and is the line itself or what stands before its first colon;
    no key of the data holds a comma or an equals sign, and a value is a
    string only when [int] refuses its text. *)
Theorem parse_response_shape (s kind : string) (data : gmap string value) :
  parse_response max_str_digits s = Ok (kind, data) →
  str_in ":" kind = false
  ∧ (s = kind ∧ data = ∅ ∨ ∃ rest, s = kind +:+ ":" +:+ rest)
  ∧ map_Forall (entry_ok max_str_digits) data.
Proof.
  rewrite parse_response_spec. unfold spec_decode. intros H.
  destruct (cut_first ":" s) as [[k rest]|] eqn:E.
  - injection H as -> <-. apply cut_first_some in E as [-> Hk].
    split; [done|]. split; [right; by exists rest|].
    destruct (String.eqb rest EmptyString); [apply map_Forall_empty|].
    apply foldl_spec_field_entries;
      [apply str_split_parts|apply map_Forall_empty].
  - injection H as -> <-. apply cut_first_none in E.
    split; [done|]. split; [by left|apply map_Forall_empty].
Qed.

(** X8: a field at the end of a line overrides what the fields before it
    gave its key (the last occurrence of a key wins); the key is the text
    before the first equals sign of the field, and the value, which may
    hold equals signs itself, is an integer when [int] accepts it and
    the text as it stands otherwise. *)
Theorem last_field_wins (kind rest key text : string) :
  str_in ":" kind = false →
  str_in "," key = false → str_in "=" key = false →
  str_in "," text = false →
  ∃ data,
    parse_response max_str_digits
      (kind +:+ ":" +:+ rest +:+ "," +:+ key +:+ "=" +:+ text)
    = Ok (kind, data)
    ∧ data !! key
      = Some (match py_int max_str_digits text with
              | Ok n => VInt n
              | Raise _ => VStr text
              end).
Proof.
  intros Hkind Hk1 Hk2 Ht.
  rewrite (parse_response_at_colon max_str_digits _ kind
             (rest +:+ "," +:+ key +:+ "=" +:+ text) eq_refl Hkind).
  assert (Hne : String.eqb (rest +:+ "," +:+ key +:+ "=" +:+ text) EmptyString
                = false) by by destruct rest.
  rewrite Hne. eexists. split; [reflexivity|].
  change ("," +:+ key +:+ "=" +:+ text) with (String "," (key +:+ "=" +:+ text)).
  rewrite str_split_snoc.
  - rewrite foldl_app. cbn [foldl]. unfold spec_field at 1.
    rewrite (proj2 (cut_first_some "=" (key +:+ "=" +:+ text) key text))
      by done.
    unfold spec_value. by rewrite lookup_insert_eq.
  - rewrite str_in_app, Hk1. change ("=" +:+ text) with (String "=" text).
    by rewrite str_in_cons, Ht.
Qed.

End Decode.

Lemma parse_response_shape_witness :
  ∃ rest, "STATUS:STATE=RUNNING,POS=45" = "STATUS" +:+ ":" +:+ rest.
Proof.
  destruct (parse_response_shape 4300 "STATUS:STATE=RUNNING,POS=45" "STATUS"
              (<["POS" := VInt 45]> (<["STATE" := VStr "RUNNING"]> ∅)))
    as (_ & [[H _]|H] & _).
  - rewrite parse_response_spec. reflexivity.
  - discriminate H.
  - exact H.
Defined.

Lemma last_field_wins_witness :
  ∃ data, parse_response 4300 "STATUS:POS=1,STATE=a=b,POS= 4_2 " = Ok ("STATUS", data)
    ∧ data !! "POS" = Some (VInt 42).
Proof.
  destruct (last_field_wins 4300 "STATUS" "POS=1,STATE=a=b" "POS" " 4_2 ")
    as (data & H1 & H2); [reflexivity..|].
  exists data. split; [exact H1|exact H2].
Defined.

End DecodeFacts.

Module HandlerFacts.
Import PyStr PyStrFacts Codec CodecFacts Transport Controller Manager Observations
  Notions Exec TransportFacts ControllerFacts TransferFacts CycleFacts ManagerFacts.

Section Interpreter.
Variable max_str_digits : N.

(** X9: a VERSION line sets the device version to everything that
    follows its first colon, further colons, commas and equals signs
    included (nothing when the colon ends the line); a bare VERSION gives
    Unknown.  Nothing else changes but the terminal pane, and the index
    into the split line never fails. *)
Theorem version_line (w : World) (version : string) :
  _process_response max_str_digits ("VERSION:" +:+ version) w
  = (Ok tt,
     set_app (set_device_version_var version (app_state w))
       (logged (SerialOutput ("VERSION:" +:+ version) "received") w))
  ∧ _process_response max_str_digits "VERSION" w
    = (Ok tt,
       set_app (set_device_version_var "Unknown" (app_state w))
         (logged (SerialOutput "VERSION" "received") w)).
Proof.
  split; [|reflexivity].
  unfold _process_response, _append_serial_output. step.
  pose proof (parse_response_at_colon max_str_digits
                ("VERSION:" +:+ version) "VERSION" version eq_refl eq_refl)
    as Hparse.
  rewrite Hparse. cbv beta iota. cbn [String.eqb Ascii.eqb Bool.eqb].
  assert (Hin : str_in ":" ("VERSION:" +:+ version) = true)
    by (by rewrite str_in_app).
  rewrite Hin.
  change ("VERSION:" +:+ version) with ("VERSION" +:+ String ":" version) at 1.
  rewrite (str_split_once ":" "VERSION" version eq_refl).
  reflexivity.
Qed.

(** X10: a line whose kind is none of the eight the handler knows is
    shown in the terminal pane and changes nothing else; the handler
    returns. *)
Theorem unknown_kind_logged (w : World) (data kind : string)
    (fields : gmap string value) :
  parse_response max_str_digits data = Ok (kind, fields) →
  kind ∉ known_kinds →
  _process_response max_str_digits data w
  = (Ok tt, logged (SerialOutput data "received") w).
Proof.
  intros Hparse Hkind.
  unfold _process_response, _append_serial_output. step. rewrite Hparse.
  cbv beta iota.
  repeat match goal with
  | |- context [String.eqb kind ?k] =>
      destruct (String.eqb_spec kind k) as [->|_];
        [exfalso; apply Hkind; unfold known_kinds; set_solver|]
  end.
  reflexivity.
Qed.

(** What a PROGRESS line with a CYCLE and a TARGET field decodes to. *)
Lemma progress_fields ctext ttext :
  str_in "," ctext = false → str_in "," ttext = false →
  parse_response max_str_digits
    ("PROGRESS:CYCLE=" +:+ ctext +:+ ",TARGET=" +:+ ttext)
  = Ok ("PROGRESS",
        <["TARGET" := spec_value max_str_digits ttext]>
          (<["CYCLE" := spec_value max_str_digits ctext]> ∅)).
Proof.
  intros Hc Ht.
  pose proof (parse_response_at_colon max_str_digits
                ("PROGRESS:CYCLE=" +:+ ctext +:+ ",TARGET=" +:+ ttext)
                "PROGRESS" ("CYCLE=" +:+ ctext +:+ ",TARGET=" +:+ ttext)
                eq_refl eq_refl) as Hparse.
  rewrite Hparse. clear Hparse.
  assert (Hne : String.eqb ("CYCLE=" +:+ ctext +:+ ",TARGET=" +:+ ttext)
                  EmptyString = false) by reflexivity.
  rewrite Hne. do 2 f_equal.
  change ("CYCLE=" +:+ ctext +:+ ",TARGET=" +:+ ttext)
    with (("CYCLE=" +:+ ctext) +:+ String "," ("TARGET=" +:+ ttext)).
  rewrite str_split_all by (by rewrite str_in_app, Hc).
  rewrite str_split_absent by (by rewrite str_in_app, Ht).
  cbn [foldl]. unfold spec_field.
  rewrite (proj2 (cut_first_some "=" ("CYCLE=" +:+ ctext) "CYCLE" ctext))
    by done.
  by rewrite (proj2 (cut_first_some "=" ("TARGET=" +:+ ttext) "TARGET" ttext))
    by done.
Qed.

Lemma spec_value_int n :
  digits_allowed max_str_digits (int_digits n) →
  spec_value max_str_digits (str_of_int n) = VInt n.
Proof. intros H. unfold spec_value. by rewrite py_int_str_of_int. Qed.

Lemma str_of_int_no_comma n : str_in "," (str_of_int n) = false.
Proof. by apply str_of_int_no_char. Qed.

(** X11: a PROGRESS line with a cycle count within a positive target
    stores both and sets the progress bar to their quotient, a fraction
    between 0 and 1; in infinite mode it stores the count and leaves the
    target and the bar alone.  When the CYCLE field is no number the
    handler stores its text as the count and raises a TypeError at the
    division. *)
Theorem progress_line (w : World) (cycle target : Z) :
  digits_allowed max_str_digits (int_digits cycle) →
  digits_allowed max_str_digits (int_digits target) →
  (0 ≤ cycle ≤ target)%Z → (0 < target)%Z →
  let line := "PROGRESS:CYCLE=" +:+ str_of_int cycle
              +:+ ",TARGET=" +:+ str_of_int target in
  (infinite_cycles (app_state w) = false →
   ∃ fraction,
     _process_response max_str_digits line w
     = (Ok tt,
        set_app (set_progress_var fraction
                   (set_target_cycles (VInt target)
                      (set_current_cycle (VInt cycle) (app_state w))))
          (logged (SerialOutput line "received") w))
     ∧ fraction == inject_Z cycle / inject_Z target
     ∧ 0 <= fraction <= 1)%Q
  ∧ (infinite_cycles (app_state w) = true →
     _process_response max_str_digits line w
     = (Ok tt,
        set_app (set_current_cycle (VInt cycle) (app_state w))
          (logged (SerialOutput line "received") w)))
  ∧ (∀ text e,
       infinite_cycles (app_state w) = false →
       str_in "," text = false → py_int max_str_digits text = Raise e →
       let bad := "PROGRESS:CYCLE=" +:+ text
                  +:+ ",TARGET=" +:+ str_of_int target in
       _process_response max_str_digits bad w
       = (Raise (TypeError "unsupported operand type(s) for /: 'str' and 'int'"),
          set_app (set_target_cycles (VInt target)
                     (set_current_cycle (VStr text) (app_state w)))
            (logged (SerialOutput bad "received") w))).
Proof.
  intros Hdc Hdt Hrange Hpos line.
  assert (Hline : parse_response max_str_digits line
                  = Ok ("PROGRESS",
                        <["TARGET" := VInt target]> (<["CYCLE" := VInt cycle]> ∅))).
  { subst line. rewrite progress_fields by apply str_of_int_no_comma.
    by rewrite !spec_value_int. }
  split; [|split].
  - intros Hfinite. exists (Qred (inject_Z cycle / inject_Z target)).
    split; [|split].
    + unfold _process_response, _append_serial_output. step. rewrite Hline.
      cbv beta iota. cbn [String.eqb Ascii.eqb Bool.eqb]. cbv zeta.
      rewrite lookup_insert_eq, lookup_insert_ne, lookup_insert_eq by done.
      cbn [default from_option id]. run. fields. rewrite Hfinite. cbn [negb].
      run. unfold _update_progress. run. fields. rewrite Hfinite.
      rewrite (proj2 (Z.ltb_lt 0 target)) by lia.
      unfold truediv. rewrite (proj2 (Z.eqb_neq target 0)) by lia.
      run. reflexivity.
    + apply Qred_correct.
    + rewrite Qred_correct.
      assert (HposQ : (0 < inject_Z target)%Q)
        by (change 0%Q with (inject_Z 0); rewrite <- Zlt_Qlt; exact Hpos).
      split.
      * apply Qle_shift_div_l; [exact HposQ|].
        rewrite Qmult_0_l. change 0%Q with (inject_Z 0).
        rewrite <- Zle_Qle. lia.
      * apply Qle_shift_div_r; [exact HposQ|].
        rewrite Qmult_1_l. rewrite <- Zle_Qle. lia.
  - intros Hinf.
    unfold _process_response, _append_serial_output. step. rewrite Hline.
    cbv beta iota. cbn [String.eqb Ascii.eqb Bool.eqb]. cbv zeta.
    rewrite lookup_insert_eq, lookup_insert_ne, lookup_insert_eq by done.
    cbn [default from_option id]. run. fields. rewrite Hinf. cbn [negb].
    run. unfold _update_progress. run. fields. rewrite Hinf. reflexivity.
  - intros text e Hfinite Htext Hint bad.
    assert (Hbad : parse_response max_str_digits bad
                   = Ok ("PROGRESS",
                         <["TARGET" := VInt target]> (<["CYCLE" := VStr text]> ∅))).
    { subst bad. rewrite progress_fields by (done || apply str_of_int_no_comma).
      rewrite spec_value_int by done. unfold spec_value. by rewrite Hint. }
    unfold _process_response, _append_serial_output. step. rewrite Hbad.
    cbv beta iota. cbn [String.eqb Ascii.eqb Bool.eqb]. cbv zeta.
    rewrite lookup_insert_eq, lookup_insert_ne, lookup_insert_eq by done.
    cbn [default from_option id]. run. fields. rewrite Hfinite. cbn [negb].
    run. unfold _update_progress. run. fields. rewrite Hfinite.
    rewrite (proj2 (Z.ltb_lt 0 target)) by lia.
    reflexivity.
Qed.


End Interpreter.

Lemma progress_line_witness :
  ∃ fraction,
    _process_response 4300 "PROGRESS:CYCLE=12,TARGET=50" initial_world
    = (Ok tt,
       set_app (set_progress_var fraction
                  (set_target_cycles (VInt 50)
                     (set_current_cycle (VInt 12) (app_state initial_world))))
         (logged (SerialOutput "PROGRESS:CYCLE=12,TARGET=50" "received")
            initial_world))
    ∧ (fraction == 12 / 50)%Q.
Proof.
  destruct (proj1 (progress_line 4300 initial_world 12 50
                     eq_refl eq_refl ltac:(lia) ltac:(lia)) eq_refl)
    as (fraction & H1 & H2 & _).
  exists fraction. split; [exact H1|exact H2].
Defined.

Lemma unknown_kind_logged_witness :
  _process_response 4300 "BOOT:reason=power" initial_world
  = (Ok tt, logged (SerialOutput "BOOT:reason=power" "received") initial_world).
Proof.
  apply (unknown_kind_logged 4300 initial_world "BOOT:reason=power" "BOOT"
           {["reason" := VStr "power"]}).
  - rewrite parse_response_spec. reflexivity.
  - unfold known_kinds. intros H. repeat (apply elem_of_cons in H as [H|H]; [discriminate H|]).
    by apply elem_of_nil in H.
Defined.


End HandlerFacts.

Module RunFacts.
Import PyStr PyStrFacts Codec CodecFacts Transport Controller Manager Observations
  Notions Exec TransportFacts ControllerFacts TransferFacts CycleFacts ManagerFacts.

Lemma keeps_app_send_command command : Keeps app_state (send_command command).
Proof. keeps. Qed.

Lemma keeps_manager_run_task task : Keeps bt_manager (run_task task).
Proof. destruct task; keeps. Qed.

(** A send whose library calls raise nothing but serial faults returns,
    and leaves the application alone. *)
Lemma send_command_app command w :
  serial_faults 2 w →
  ∃ sent w1, send_command command w = (Ok sent, w1) ∧ app_state w1 = app_state w.
Proof.
  intros Hf. destruct (send_command_returns command w Hf) as (sent & w1 & Hsend).
  exists sent, w1. split; [done|].
  pose proof (keeps_app_send_command command w) as Hk.
  unfold completed in Hk. by rewrite Hsend in Hk.
Qed.

(** X13: on an open link the pause button flips the paused flag and
    sends PAUSE or RESUME accordingly; the flag flips even when the
    command could not be sent (the result of the send is not looked at),
    and whether or not a run is going on.  Without a connection the
    button does nothing. *)
Theorem pause_toggles (w : World) :
  (connected (bt_manager w) = false ∨ serial_port (bt_manager w) = None →
   _pause_cycles w = (Ok tt, w))
  ∧ (connected (bt_manager w) = true → serial_port (bt_manager w) ≠ None →
     serial_faults 2 w →
     ∃ w', _pause_cycles w = (Ok tt, w')
       ∧ app_state w'
         = set_status_var (if is_paused (app_state w) then "Resumed" else "Paused")
             (set_is_paused (negb (is_paused (app_state w))) (app_state w))
       ∧ (calls_return 2 w →
          trace (env w')
          = (trace (env w)
             ++ [Written (encode_utf8
                            ((if is_paused (app_state w) then "RESUME" else "PAUSE")
                             +:+ newline));
                 Flushed])%list)).
Proof.
  split.
  - intros H. unfold _pause_cycles, is_connected. step.
    destruct H as [-> | ->]; [done|].
    rewrite bool_decide_eq_false_2 by (by intros []).
    by rewrite andb_false_r.
  - intros Hconn Hsp Hf.
    assert (Hready : is_connected w = (Ok true, w)).
    { unfold is_connected, gets. by rewrite Hconn, bool_decide_eq_true_2. }
    destruct (is_paused (app_state w)) eqn:Hp.
    + destruct (send_command_app CommandProtocol.resume w Hf)
        as (sent & w1 & Hsend & Happ).
      eexists. split; [|split].
      * unfold _pause_cycles. rewrite (bind_ok _ _ _ _ _ Hready). cbn [negb].
        step. rewrite Hp. run. rewrite (bind_ok _ _ _ _ _ Hsend). run.
        unfold _update_button_states. reflexivity.
      * fields. by rewrite Happ.
      * intros Hret. rewrite (send_command_ok _ w Hconn Hsp Hret) in Hsend.
        injection Hsend as _ <-. fields. reflexivity.
    + destruct (send_command_app CommandProtocol.pause w Hf)
        as (sent & w1 & Hsend & Happ).
      eexists. split; [|split].
      * unfold _pause_cycles. rewrite (bind_ok _ _ _ _ _ Hready). cbn [negb].
        step. rewrite Hp. run. rewrite (bind_ok _ _ _ _ _ Hsend). run.
        unfold _update_button_states. reflexivity.
      * fields. by rewrite Happ.
      * intros Hret. rewrite (send_command_ok _ w Hconn Hsp Hret) in Hsend.
        injection Hsend as _ <-. fields. reflexivity.
Qed.

Lemma pause_toggles_witness :
  ∃ w', _pause_cycles connected_world = (Ok tt, w')
    ∧ is_paused (app_state w') = true
    ∧ status_var (app_state w') = "Paused".
Proof.
  destruct (proj2 (pause_toggles connected_world)) as (w' & H1 & H2 & _).
  - reflexivity.
  - discriminate.
  - constructor.
  - exists w'. split; [exact H1|]. rewrite H2. split; reflexivity.
Defined.

Lemma run_tasks_manager tasks : ∀ w,
  bt_manager (foldl (λ w' task, completed (run_task task) w') w tasks)
  = bt_manager w.
Proof.
  induction tasks as [|task tasks IH]; intros w; [done|].
  cbn [foldl]. rewrite IH. apply keeps_manager_run_task.
Qed.

(** X14: three ways a run ends.  The stop button, on an open link, sends
    STOP and clears the running and paused flags, also when the command
    could not be sent; without a connection it leaves the flags as they
    are.  A COMPLETE line clears them and reports the count of the line
    (0 when it gives none).  A lost link clears the running flag once the
    main loop has run the queued notification, whatever else was
    queued. *)
Theorem run_ends (max_str_digits : N) (w : World) :
  (connected (bt_manager w) = false ∨ serial_port (bt_manager w) = None →
   _stop_cycles w = (Ok tt, w))
  ∧ (connected (bt_manager w) = true → serial_port (bt_manager w) ≠ None →
     serial_faults 2 w →
     ∃ w', _stop_cycles w = (Ok tt, w')
       ∧ app_state w'
         = set_status_var "Stopped - at EXTEND"
             (set_is_paused false (set_is_running false (app_state w)))
       ∧ (calls_return 2 w →
          trace (env w')
          = (trace (env w)
             ++ [Written (encode_utf8 ("STOP" +:+ newline)); Flushed])%list))
  ∧ (∀ data fields,
       parse_response max_str_digits data = Ok ("COMPLETE", fields) →
       _process_response max_str_digits data w
       = (Ok tt,
          set_app
            (set_is_paused false
               (set_is_running false
                  (set_status_var
                     ("Complete - "
                      +:+ str_of_value (default (VInt 0) (fields !! "CYCLES"))
                      +:+ " cycles finished") (app_state w))))
            (logged (SerialOutput data "received") w)))
  ∧ (on_connection_changed (bt_manager w) = true →
     let w' := run_pending (completed _handle_disconnect w) in
     is_running (app_state w') = false
     ∧ status_var (app_state w') = "Disconnected"
     ∧ connected (bt_manager w') = false
     ∧ last (trace (env w')) = Some (SerialOutput "Disconnected" "error")).
Proof.
  split; [|split; [|split]].
  - intros H. unfold _stop_cycles, is_connected. step.
    destruct H as [-> | ->]; [done|].
    rewrite bool_decide_eq_false_2 by (by intros []).
    by rewrite andb_false_r.
  - intros Hconn Hsp Hf.
    assert (Hready : is_connected w = (Ok true, w)).
    { unfold is_connected, gets. by rewrite Hconn, bool_decide_eq_true_2. }
    destruct (send_command_app CommandProtocol.stop w Hf)
      as (sent & w1 & Hsend & Happ).
    eexists. split; [|split].
    + unfold _stop_cycles. rewrite (bind_ok _ _ _ _ _ Hready). cbn [negb].
      rewrite (bind_ok _ _ _ _ _ Hsend). run.
      unfold _update_button_states. run. reflexivity.
    + fields. by rewrite Happ.
    + intros Hret. rewrite (send_command_ok _ w Hconn Hsp Hret) in Hsend.
      injection Hsend as _ <-. fields. reflexivity.
  - intros data fields Hparse.
    unfold _process_response, _append_serial_output. step. rewrite Hparse.
    cbv beta iota. cbn [String.eqb Ascii.eqb Bool.eqb]. cbv zeta. run.
    unfold _update_button_states. reflexivity.
  - intros Hocc w'. subst w'.
    unfold completed, _handle_disconnect, notify_connection_changed.
    assert (Hrun : ∃ w1, (assign_manager (set_connected false) ;;
                          installed <- gets (λ w0, on_connection_changed (bt_manager w0)) ;;
                          (if installed
                           then emit (ConnectionChanged false) ;;
                                root_after (update_connection_ui false)
                           else ret tt)) w
                         = (Ok tt, queued (update_connection_ui false) w1)
                         ∧ connected (bt_manager w1) = false).
    { exists (logged (ConnectionChanged false)
                (set_bt_manager (set_connected false (bt_manager w)) w)).
      split.
      - run. fields. rewrite Hocc. run. reflexivity.
      - fields. reflexivity. }
    destruct Hrun as (w1 & -> & Hc1). cbn [snd].
    unfold run_pending. fields. rewrite foldl_app. cbn [foldl run_task].
    set (wx := foldl _ _ (pending (env w1))).
    assert (Hm : bt_manager wx = bt_manager w1)
      by (unfold wx; by rewrite run_tasks_manager).
    clearbody wx.
    unfold completed.
    assert (Hui : ∃ a2,
              _update_connection_ui false wx
              = (Ok tt, set_app a2 (logged (SerialOutput "Disconnected" "error") wx))
              ∧ is_running a2 = false ∧ status_var a2 = "Disconnected").
    { unfold _update_connection_ui, _append_serial_output.
      destruct (is_running (app_state wx)) eqn:Hr.
      - eexists. split.
        + run. fields. rewrite Hr. run. unfold _update_button_states.
          reflexivity.
        + done.
      - exists (set_status_var "Disconnected" (app_state wx)). split.
        + run. fields. rewrite Hr. reflexivity.
        + done. }
    destruct Hui as (a2 & -> & Hr2 & Hs2). fields.
    rewrite Hm, Hc1. repeat split; try done. apply last_snoc.
Qed.

Lemma run_ends_witness :
  let w := set_app (set_is_running true (app_state connected_world))
             connected_world in
  ∃ w', _stop_cycles w = (Ok tt, w')
    ∧ is_running (app_state w') = false
    ∧ is_running (app_state (run_pending (completed _handle_disconnect w)))
      = false.
Proof.
  pose proof (run_ends 4300
                (set_app (set_is_running true (app_state connected_world))
                   connected_world)) as (_ & Hstop & _ & Hlost).
  destruct Hstop as (w' & H1 & H2 & _).
  - reflexivity.
  - discriminate.
  - constructor.
  - exists w'. split; [exact H1|]. split; [by rewrite H2|].
    exact (proj1 (Hlost eq_refl)).
Defined.

End RunFacts.

Module SessionFacts.
Import PyStr PyStrFacts Codec CodecFacts Transport Controller Manager Observations
  Notions Exec TransportFacts ControllerFacts TransferFacts CycleFacts ManagerFacts.

(** X15: the upload button starts a worker only when the link is up, a
    firmware file is selected and exists, no session is in progress and
    the user has confirmed; the session then starts with the abort flag
    cleared and the progress at 0.  In every other case nothing of the
    application changes and no worker is started: the user is warned when
    the link is down ("Not Connected") or the file is missing ("No
    File"), and a session in progress or a declined question pass in
    silence. *)
Theorem upload_start_guard (w : World) (confirmed : bool) :
  _start_ota_upload confirmed w
  = (Ok tt,
     if negb (link_up w) then
       logged (MessageBox "warning" "Not Connected" "Please connect first") w
     else if negb (firmware_found w) then
       logged (MessageBox "warning" "No File" "Please select a firmware file") w
     else if ota_in_progress (app_state w) || negb confirmed then w
     else
       logged ThreadStarted
         (set_app
            (set_ota_status_var (Text "Starting upload...")
               (set_ota_progress_var 0
                  (set_ota_abort_flag false
                     (set_ota_in_progress true (app_state w))))) w)).
Proof.
  unfold _start_ota_upload, is_connected, link_up, firmware_found, showwarning.
  step. destruct (connected (bt_manager w) && _); cbn [negb]; [|reflexivity].
  step. destruct (ota_file_path (app_state w)) as [p|] eqn:Hp; cbn [truthy];
    [|by run].
  destruct (String.eqb p EmptyString); cbn [negb andb]; [by run|].
  unfold path_exists. change (default EmptyString (Some p)) with p. run.
  destruct (bool_decide_reflect (files (env w) !! p ≠ None)) as [Hf|Hf];
    cbn [negb]; [|reflexivity].
  step. destruct (ota_in_progress (app_state w)); cbn [orb]; [reflexivity|].
  destruct (files (env w) !! p) as [bytes|] eqn:Hfile; [|done].
  rewrite (bind_ok _ _ _ _ _ (getsize_file p bytes w Hfile)).
  destruct confirmed; cbn [negb]; [|reflexivity].
  run. reflexivity.
Qed.

End SessionFacts.

Module UploadFacts.
Import PyStr PyStrFacts Codec CodecFacts Transport Controller Manager Observations
  Notions Exec TransportFacts ControllerFacts TransferFacts CycleFacts ManagerFacts.

Lemma written_app tr1 tr2 :
  written (tr1 ++ tr2) = (written tr1 ++ written tr2)%list.
Proof.
  induction tr1 as [|ev tr1 IH]; [done|].
  destruct ev; cbn [written app]; by rewrite ?IH.
Qed.

Lemma pieces_nil : pieces 512 [] = [].
Proof. reflexivity. Qed.

Lemma pieces_cons (f : list Byte.byte) :
  f ≠ [] → pieces 512 f = take 512 f :: pieces 512 (drop 512 f).
Proof.
  intros Hf. unfold pieces. rewrite length_drop.
  assert (Hlen : (0 < length f)%nat) by (destruct f; [done|cbn; lia]).
  assert (Hk : ((length f + (512 - 1)) / 512
                = S ((length f - 512 + (512 - 1)) / 512))%nat).
  { change (512 - 1)%nat with 511%nat.
    destruct (Nat.le_gt_cases (length f) 512) as [Hle|Hgt].
    - replace (length f - 512)%nat with 0%nat by lia.
      change ((0 + 511) / 512)%nat with 0%nat.
      symmetry. apply (Nat.div_unique _ _ _ (length f - 1)); lia.
    - replace (length f + 511)%nat with ((length f - 512 + 511) + 1 * 512)%nat by lia.
      rewrite Nat.div_add by lia. lia. }
  rewrite Hk. reflexivity.
Qed.

Lemma pieces_ind (P : list Byte.byte → Prop) :
  P [] → (∀ f, f ≠ [] → P (drop 512 f) → P f) → ∀ f, P f.
Proof.
  intros Hnil Hcons f.
  assert (H : ∀ n (f : list Byte.byte), (length f ≤ n)%nat → P f).
  { clear f. induction n as [|n IH]; intros f Hn.
    - destruct f; [done|cbn in Hn; lia].
    - destruct f as [|b f]; [done|]. apply Hcons; [done|].
      apply IH. rewrite length_drop. cbn [length] in *. lia. }
  by apply (H (length f)).
Qed.

Lemma pieces_concat (f : list Byte.byte) : concat (pieces 512 f) = f.
Proof.
  induction f as [|f Hf IH] using pieces_ind; [done|].
  rewrite pieces_cons by done. cbn [concat]. rewrite IH. apply take_drop.
Qed.

Lemma pieces_sizes (f : list Byte.byte) :
  Forall (λ c, (0 < length c ≤ 512)%nat) (pieces 512 f).
Proof.
  induction f as [|f Hf IH] using pieces_ind; [constructor|].
  rewrite pieces_cons by done. constructor; [|done].
  rewrite length_take. destruct f; [done|]. cbn [length]. lia.
Qed.

Section Interpreter.
Variable max_str_digits : N.

Abbreviation transfer_loop := (Controller.transfer_loop max_str_digits).

Lemma transfer_all fuel : ∀ f bytes_sent last w file_size,
  steady w →
  file_size = (bytes_sent + Z.of_nat (length f))%Z → (0 ≤ bytes_sent)%Z →
  (clock (env w) - last ≤ 5000)%Z →
  (length f ≤ 512 * fuel)%nat →
  ∃ w', transfer_loop fuel file_size 512 f bytes_sent last w
        = (Ok (Some Completed), w')
    ∧ steady w'
    ∧ written (trace (env w')) = (written (trace (env w)) ++ pieces 512 f)%list.
Proof.
  induction fuel as [|fuel IH]; intros f bytes_sent last w file_size
    Hsteady Hsize Hsent Hclock Hfuel.
  - destruct f; [|cbn in Hfuel; lia]. exists w.
    rewrite (transfer_done max_str_digits 0 file_size [] bytes_sent)
      by (cbn in Hsize; lia).
    by rewrite pieces_nil, app_nil_r.
  - destruct (decide (f = [])) as [->|Hf].
    { exists w.
      rewrite (transfer_done max_str_digits (S fuel) file_size [] bytes_sent)
        by (cbn in Hsize; lia).
      by rewrite pieces_nil, app_nil_r. }
    assert (Hlen : (0 < length f)%nat) by (destruct f; [done|cbn; lia]).
    destruct (steady_step max_str_digits fuel file_size f bytes_sent last w)
      as (w1 & Hrun & Hs1 & Hc1 & Ht1); [done|lia|done|done|].
    cbv zeta in Hrun, Ht1.
    destruct (IH (drop 512 f)
                (bytes_sent + Z.of_nat (length (take 512 f)))%Z
                (clock (env w)) w1 file_size)
      as (w' & Hrest & Hs' & Ht'); [done| |lia|lia| |].
    + rewrite Hsize, length_take, length_drop. lia.
    + rewrite length_drop. lia.
    + exists w'. split; [by rewrite Hrun|]. split; [done|].
      rewrite Ht', Ht1, written_app, (pieces_cons f Hf).
      unfold chunk_events. cbn [written]. by rewrite <- app_assoc.
Qed.

(** X16: with the link up, the library returning, no abort and the
    device answering ready, the worker sends the whole file, whatever its
    size: after the OTA_START line the writes are the file cut into
    pieces of 512 bytes, in order, the last one holding what is left (no
    piece at all for an empty file), so that the bytes sent are the bytes
    of the file; then the session ends as a success. *)
Theorem upload_sends_file (w : World) (fuel : nat) (path : string)
    (bytes : list Byte.byte) :
  ota_file_path (app_state w) = Some path →
  files (env w) !! path = Some bytes →
  connected (bt_manager w) = true → serial_port (bt_manager w) ≠ None →
  faults (env w) = [] →
  ota_abort_flag (app_state w) = false →
  timeline (env w) = [DeviceLine "OK:OTA_READY"] →
  (length bytes ≤ 512 * fuel)%nat →
  ∃ w', _ota_upload_thread max_str_digits fuel w = (Ok (Some tt), w')
    ∧ written (trace (env w'))
      = (written (trace (env w))
         ++ encode_utf8 ("OTA_START:" +:+ str_of_int (Z.of_nat (length bytes))
                         +:+ newline)
            :: pieces 512 bytes)%list
    ∧ concat (pieces 512 bytes) = bytes
    ∧ Forall (λ c, (0 < length c ≤ 512)%nat) (pieces 512 bytes)
    ∧ last (trace (env w'))
      = Some (After (ota_finish_update_ui
                       "Upload complete - device restarting" true)).
Proof.
  intros Hpath Hfile Hconn Hsp Hfaults Habort Htl Hfuel.
  pose proof (thread_reaches_transfer max_str_digits fuel w path bytes []
                Hpath Hfile Hconn Hsp (calls_return_nil 2 w Hfaults) Habort Htl)
    as Hstart.
  cbv zeta in Hstart.
  pose proof (transfer_start_steady (Z.of_nat (length bytes)) w
                Habort Hconn Hsp Hfaults) as Hs0.
  pose proof (start_trace (Z.of_nat (length bytes)) [] w) as Ht0.
  set (w0 := transfer_start (Z.of_nat (length bytes)) [] w) in *.
  destruct (transfer_all fuel bytes 0 (clock (env w0)) w0 (Z.of_nat (length bytes)))
    as (w1 & Hrun & Hs1 & Ht1); [done|lia|lia|lia|done|].
  destruct Hs1 as (_ & _ & _ & _ & Htl1).
  eexists. split; [|split; [|split; [|split]]].
  - rewrite Hstart. apply try_except_ok.
    rewrite (bind_ok _ _ _ _ _ Hrun). cbn [after_transfer].
    step. unfold time_sleep. repeat step. fields. rewrite Htl1.
    cbn [Controller.pass_time]. unfold _ota_finish. step. reflexivity.
  - fields. rewrite !written_app. cbn [written app]. rewrite !app_nil_r.
    rewrite Ht1, Ht0, written_app. unfold start_events. cbn [written].
    by rewrite <- app_assoc.
  - apply pieces_concat.
  - apply pieces_sizes.
  - fields. apply last_snoc.
Qed.

(** X17: at any turn of the transfer loop with bytes left and no abort,
    a link that is down ends the session with "Connection lost" before
    anything is written, and a serial fault while writing the chunk ends
    it with "Failed to send data": the chunk is not written, the
    connected flag goes down and the loop does not go round again. *)
Theorem transfer_stops (fuel : nat) (file_size : Z) (f : list Byte.byte)
    (bytes_sent last : Z) (w : World) :
  (bytes_sent < file_size)%Z →
  ota_abort_flag (app_state w) = false →
  (link_up w = false →
   transfer_loop (S fuel) file_size 512 f bytes_sent last w
   = (Ok (Some Returned),
      queued (ota_finish_update_ui "Connection lost" false) w))
  ∧ (∀ msg rest,
       link_up w = true → (clock (env w) - last ≤ 5000)%Z → f ≠ [] →
       faults (env w) = Some (SerialException msg) :: rest →
       ∃ w', transfer_loop (S fuel) file_size 512 f bytes_sent last w
             = (Ok (Some Returned), w')
         ∧ connected (bt_manager w') = false
         ∧ trace (env w')
           = (trace (env w) ++ [Printed ("Send bytes failed: " +:+ msg)]
              ++ disconnect_handling w
              ++ [After (ota_finish_update_ui "Failed to send data" false)])%list).
Proof.
  intros Hb Habort. unfold link_up. split.
  - intros Hdown. cbn [Controller.transfer_loop].
    rewrite (proj2 (Z.ltb_lt _ _)) by lia.
    rewrite bind_gets, Habort.
    unfold is_connected at 1. rewrite bind_gets, Hdown. cbn [negb].
    unfold _ota_finish. by rewrite bind_root_after.
  - intros msg rest Hup Hclock Hf Hfault.
    apply andb_prop in Hup as [Hconn Hsp]. apply bool_decide_eq_true in Hsp.
    destruct (send_bytes_fault (take 512 f) w msg rest Hconn Hsp Hfault)
      as (w1 & Hsend & Hm1 & Ht1).
    eexists. split; [|split].
    + cbn [Controller.transfer_loop].
      rewrite (proj2 (Z.ltb_lt _ _)) by lia.
      rewrite bind_gets, Habort.
      unfold is_connected at 1. rewrite bind_gets, Hconn.
      rewrite bool_decide_eq_true_2 by done. cbn [andb negb].
      rewrite bind_gets. rewrite (proj2 (Z.ltb_ge _ _)) by lia.
      change (Z.to_nat 512) with 512%nat.
      rewrite bool_decide_eq_false_2 by (by destruct f).
      rewrite (bind_ok _ _ _ _ _ Hsend). cbn [negb].
      unfold _ota_finish. by rewrite bind_root_after.
    + fields. by rewrite Hm1.
    + fields. rewrite Ht1. by rewrite <- !app_assoc.
Qed.

(** The worker when [getsize] or the first write raises. *)
Lemma thread_catches fuel w e w1 :
  (path <- gets (λ w, ota_file_path (app_state w)) ;; getsize path) w
  = (Raise e, w1) →
  _ota_upload_thread max_str_digits fuel w
  = (Ok (Some tt),
     queued (ota_finish_update_ui ("Error: " +:+ str_of_exn e) false) w1).
Proof.
  intros H. unfold _ota_upload_thread.
  rewrite bind_gets in H.
  erewrite try_except_caught;
    [|rewrite bind_gets; by rewrite (bind_raise _ _ _ _ _ H)|done].
  unfold _ota_finish. by rewrite bind_root_after.
Qed.

(** X18: the worker lets no exception out.  When no file is selected or
    the selected file has gone, and when the library raises anything but
    a serial fault while OTA_START is written, the session ends with
    "Error: " and the text of the exception, and the worker returns; in
    the first two cases nothing has been sent. *)
Theorem upload_error_caught (w : World) (fuel : nat) :
  (ota_file_path (app_state w) = None →
   ∃ msg, _ota_upload_thread max_str_digits fuel w
          = (Ok (Some tt),
             queued (ota_finish_update_ui ("Error: " +:+ msg) false) w))
  ∧ (∀ path,
       ota_file_path (app_state w) = Some path → files (env w) !! path = None →
       ∃ msg, _ota_upload_thread max_str_digits fuel w
              = (Ok (Some tt),
                 queued (ota_finish_update_ui ("Error: " +:+ msg) false) w))
  ∧ (∀ path bytes e rest,
       ota_file_path (app_state w) = Some path →
       files (env w) !! path = Some bytes →
       link_up w = true →
       faults (env w) = Some e :: rest → is_SerialException e = false →
       ∃ w', _ota_upload_thread max_str_digits fuel w = (Ok (Some tt), w')
         ∧ written (trace (env w')) = written (trace (env w))
         ∧ last (trace (env w'))
           = Some (After (ota_finish_update_ui
                            ("Error: " +:+ str_of_exn e) false))).
Proof.
  split; [|split].
  - intros Hpath.
    exists "stat: path should be string, bytes, os.PathLike or integer, not NoneType".
    apply (thread_catches fuel w
             (TypeError "stat: path should be string, bytes, os.PathLike or integer, not NoneType")
             w).
    rewrite bind_gets, Hpath. reflexivity.
  - intros path Hpath Hfile.
    exists ("[Errno 2] No such file or directory: '" +:+ path +:+ "'").
    apply (thread_catches fuel w
             (OSError ("[Errno 2] No such file or directory: '" +:+ path +:+ "'"))
             w).
    rewrite bind_gets, Hpath. unfold getsize. by rewrite bind_gets, Hfile.
  - intros path bytes e rest Hpath Hfile Hup Hfault He.
    apply andb_prop in Hup as [Hconn Hsp]. apply bool_decide_eq_true in Hsp.
    set (w0 := set_app (set_ota_error_message None
                          (set_ota_ready_event false (app_state w))) w).
    destruct (send_command_raises
                ("OTA_START:" +:+ str_of_int (Z.of_nat (length bytes))) w0 e rest)
      as (w1 & Hsend & Ht1); [done..|].
    eexists. split; [|split].
    + unfold _ota_upload_thread. erewrite try_except_caught; [| |done].
      * unfold _ota_finish. rewrite bind_root_after. reflexivity.
      * rewrite bind_gets, Hpath.
        rewrite (bind_ok _ _ _ _ _ (getsize_file path bytes w Hfile)).
        cbv zeta. rewrite !bind_assign_app. fold w0.
        by rewrite (bind_raise _ _ _ _ _ Hsend).
    + fields. rewrite written_app, Ht1. cbn [written]. by rewrite app_nil_r.
    + fields. apply last_snoc.
Qed.

(** The state after an ERR line that holds OTA has been handled during a
    session. *)
Lemma process_error_line line fields w :
  parse_response max_str_digits line = Ok ("ERR", fields) →
  str_in "OTA" line = true →
  ota_in_progress (app_state w) = true →
  _process_response max_str_digits line w
  = (Ok tt,
     queued (ota_finish_update_ui ("OTA Error: " +:+ line) false)
       (set_app
          (set_ota_ready_event true
             (set_ota_error_message (Some line)
                (set_status_var ("Error: " +:+ line) (app_state w))))
          (logged (SerialOutput line "received") w))).
Proof.
  intros Hparse Hota Hbusy.
  unfold _process_response, _append_serial_output. step. rewrite Hparse.
  cbv beta iota. cbn [String.eqb Ascii.eqb Bool.eqb]. run. rewrite Hota.
  run. fields. rewrite Hbusy. unfold _ota_finish. reflexivity.
Qed.

(** X19: when the device answers the announcement of a session with an
    ERR line that holds OTA, the worker wakes up and returns without
    sending a single chunk; the handler of the line has stored the line
    as the error and queued the end of the session, which the main loop
    then shows as "OTA Error: " and the line. *)
Theorem device_error_ends_session (w : World) (fuel : nat) (path line : string)
    (bytes : list Byte.byte) (fields : gmap string value)
    (rest : list EnvEvent) :
  ota_file_path (app_state w) = Some path →
  files (env w) !! path = Some bytes →
  connected (bt_manager w) = true → serial_port (bt_manager w) ≠ None →
  calls_return 2 w →
  ota_in_progress (app_state w) = true →
  timeline (env w) = DeviceLine line :: rest →
  parse_response max_str_digits line = Ok ("ERR", fields) →
  str_in "OTA" line = true →
  ∃ w', _ota_upload_thread max_str_digits fuel w = (Ok (Some tt), w')
    ∧ written (trace (env w'))
      = (written (trace (env w))
         ++ [encode_utf8 ("OTA_START:" +:+ str_of_int (Z.of_nat (length bytes))
                          +:+ newline)])%list
    ∧ last (trace (env w'))
      = Some (After (ota_finish_update_ui ("OTA Error: " +:+ line) false))
    ∧ ota_error_message (app_state w') = Some line
    ∧ status_var (app_state w') = "Error: " +:+ line
    ∧ ota_in_progress (app_state (run_pending w')) = false
    ∧ ota_status_var (app_state (run_pending w'))
      = Text ("OTA Error: " +:+ line).
Proof.
  intros Hpath Hfile Hconn Hsp Hret Hbusy Htl Hparse Hota.
  assert (Hne : String.eqb line EmptyString = false) by (by destruct line).
  eexists. split.
  - unfold _ota_upload_thread. apply try_except_ok.
    step. rewrite Hpath.
    rewrite (bind_ok _ _ _ _ _ (getsize_file path bytes w Hfile)).
    cbv zeta. do 2 step.
    rewrite bind_send_command_ok by (fields; assumption).
    do 2 step.
    unfold ota_ready_event_wait at 1. unfold bind at 1. fields.
    rewrite Htl. cbn [await_ready]. fields.
    cbn [env_step]. unfold completed.
    rewrite (process_error_line line fields) by (try done; fields; exact Hbusy).
    cbn [snd]. rewrite await_ready_set by reflexivity. cbv beta iota. cbn [negb].
    step. fields. cbn [truthy]. rewrite Hne. cbn [negb].
    reflexivity.
  - match goal with
    | |- context [rest_of_timeline rest (queued ?t ?wz)] =>
        change (rest_of_timeline rest (queued t wz))
          with (queued t (rest_of_timeline rest wz));
        pose proof (run_pending_finish ("OTA Error: " +:+ line) false
                      (rest_of_timeline rest wz)) as Hfin
    end.
    cbv zeta in Hfin. destruct Hfin as (Hp & Hs & _ & _).
    split; [|split; [|split; [|split; [|split]]]]; try done.
    + fields. rewrite !written_app. cbn [written app].
      rewrite str_strip_ota_start. by rewrite !app_nil_r.
    + fields. apply last_snoc.
Qed.

End Interpreter.

Lemma upload_sends_file_witness :
  ∃ w', _ota_upload_thread 4300 2
          (upload_world (repeat Byte.x41 700) [DeviceLine "OK:OTA_READY"])
        = (Ok (Some tt), w')
    ∧ written (trace (env w'))
      = (written (trace (env (upload_world (repeat Byte.x41 700)
                                [DeviceLine "OK:OTA_READY"])))
         ++ [encode_utf8 ("OTA_START:700" +:+ newline);
             repeat Byte.x41 512; repeat Byte.x41 188])%list.
Proof.
  destruct (upload_sends_file 4300
              (upload_world (repeat Byte.x41 700) [DeviceLine "OK:OTA_READY"])
              2 "firmware.bin" (repeat Byte.x41 700))
    as (w' & H1 & H2 & _);
    [reflexivity|reflexivity|reflexivity|discriminate|reflexivity|reflexivity
    |reflexivity|vm_compute; lia|].
  exists w'. split; [exact H1|]. rewrite H2. reflexivity.
Defined.

Lemma transfer_stops_witness :
  Controller.transfer_loop 4300 1 2048 512 (repeat Byte.x41 2048) 0 0 initial_world
  = (Ok (Some Returned),
     queued (ota_finish_update_ui "Connection lost" false) initial_world).
Proof.
  apply (proj1 (transfer_stops 4300 0 2048 (repeat Byte.x41 2048) 0 0
                  initial_world eq_refl eq_refl)).
  reflexivity.
Defined.

Lemma upload_error_caught_witness :
  let w := set_app (set_ota_file_path (Some "gone.bin") (app_state connected_world))
             connected_world in
  ∃ msg, _ota_upload_thread 4300 1 w
         = (Ok (Some tt),
            queued (ota_finish_update_ui ("Error: " +:+ msg) false) w).
Proof.
  apply (proj1 (proj2 (upload_error_caught 4300
                         (set_app (set_ota_file_path (Some "gone.bin")
                                     (app_state connected_world))
                            connected_world) 1)) "gone.bin");
    reflexivity.
Defined.

Lemma device_error_ends_session_witness :
  ∃ w', _ota_upload_thread 4300 2
          (upload_world (repeat Byte.x41 700) [DeviceLine "ERR:OTA begin failed"])
        = (Ok (Some tt), w')
    ∧ ota_status_var (app_state (run_pending w'))
      = Text "OTA Error: ERR:OTA begin failed".
Proof.
  destruct (device_error_ends_session 4300
              (upload_world (repeat Byte.x41 700)
                 [DeviceLine "ERR:OTA begin failed"])
              2 "firmware.bin" "ERR:OTA begin failed" (repeat Byte.x41 700) ∅ [])
    as (w' & H1 & _ & _ & _ & _ & _ & H7);
    [reflexivity|reflexivity|reflexivity|discriminate|constructor|reflexivity
    |reflexivity| |reflexivity|].
  - rewrite parse_response_spec. reflexivity.
  - exists w'. split; [exact H1|exact H7].
Defined.

End UploadFacts.

Module SettingsFacts.
Import Settings Notions.
#[local] Open Scope settings_scope.

Ltac destruct_store s := destruct s as [file m d o p].

Lemma complete_defaults : complete DEFAULT_SETTINGS.
Proof. by intros key H. Qed.

Lemma complete_union fields : complete (fields ∪ DEFAULT_SETTINGS).
Proof.
  intros key [v Hv]. rewrite lookup_union, Hv.
  destruct (fields !! key); by eexists.
Qed.

Lemma complete_insert m key value : complete m → complete (<[key := value]> m).
Proof.
  intros H k Hk. destruct (decide (key = k)) as [->|Hne].
  - rewrite lookup_insert_eq. by eexists.
  - rewrite lookup_insert_ne by done. by apply H.
Qed.

Lemma union_complete m : complete m → m ∪ DEFAULT_SETTINGS = m.
Proof.
  intros H. apply map_eq. intros key. rewrite lookup_union.
  destruct (m !! key) as [v|] eqn:Hm.
  - by destruct (DEFAULT_SETTINGS !! key).
  - destruct (DEFAULT_SETTINGS !! key) as [d|] eqn:Hd; [|done].
    destruct (H key) as [v Hv]; [by eexists|]. congruence.
Qed.

(** Runs a method on a store whose parts are variables, splitting on what
    the file system does. *)
Ltac unfold_methods :=
  unfold after, load, set, reset_to_defaults, get, get_all, getitem;
  unfold save; unfold write_json, file_exists, read_json;
  unfold stry, sbind, fs_call, sgets, smodify, sprint, sraise, sret.

Ltac fields :=
  cbv beta;
  cbn [io settings_file disk settings stdout set_io set_settings set_disk
       set_stdout set_settings_file snd fst].

Ltac split_cases :=
  repeat (fields; rewrite ?lookup_insert_eq;
          match goal with
          | |- context [match ?x with _ => _ end] =>
              first [ is_var x; destruct x
                    | lazymatch x with
                      | _ !! _ => idtac
                      | bool_decide _ => idtac
                      | writes _ _ => idtac
                      | reads _ _ => idtac
                      | int_reads _ _ => idtac
                      end;
                      destruct x eqn:? ]
          end);
  repeat progress (fields; rewrite ?lookup_insert_eq).

Section Interpreter.
Variable max_str_digits : N.
Variable unfinished : gmap string pyval → string.

#[local] Abbreviation load := (Settings.load max_str_digits).
#[local] Abbreviation save := (Settings.save max_str_digits unfinished).
#[local] Abbreviation set := (Settings.set max_str_digits unfinished).
#[local] Abbreviation reset_to_defaults :=
  (Settings.reset_to_defaults max_str_digits unfinished).
#[local] Abbreviation run_settings_call :=
  (Notions.run_settings_call max_str_digits unfinished).
#[local] Abbreviation writes := (Settings.writes max_str_digits).
#[local] Abbreviation reads := (Settings.reads max_str_digits).
#[local] Abbreviation int_writes := (Settings.int_writes max_str_digits).
#[local] Abbreviation int_reads := (Settings.int_reads max_str_digits).

(** What [load] can leave in the settings. *)
Lemma load_settings s :
  settings (after load s) = settings s
  ∨ settings (after load s) = DEFAULT_SETTINGS
  ∨ ∃ fields, settings (after load s) = fields ∪ DEFAULT_SETTINGS.
Proof. destruct_store s. unfold_methods. split_cases; eauto. Qed.

Lemma save_settings s : settings (after save s) = settings s.
Proof. destruct_store s. unfold_methods. by split_cases. Qed.

Lemma call_complete c s :
  complete (settings s) → complete (settings (run_settings_call c s)).
Proof.
  intros H. destruct c; cbn [Notions.run_settings_call].
  - destruct (load_settings s) as [-> | [-> | [fields ->]]];
      [done|apply complete_defaults|apply complete_union].
  - by rewrite save_settings.
  - done.
  - unfold after, Settings.set, sbind, smodify.
    change (complete (settings (after save
              (set_settings (<[key:=value]> (settings s)) s)))).
    rewrite save_settings. by apply complete_insert.
  - done.
  - unfold after, Settings.reset_to_defaults, sbind, smodify.
    change (complete (settings (after save (set_settings DEFAULT_SETTINGS s)))).
    rewrite save_settings. apply complete_defaults.
Qed.

Lemma init_complete joinpath file appdata s :
  (file = None → fs_works 1 s) →
  complete (settings (after (init max_str_digits joinpath file appdata) s)).
Proof.
  intros Hdir.
  assert (H : ∀ s1, complete (settings s1) →
                    complete (settings (after (load ;; sret tt) s1))).
  { intros s1 H1. pose proof (call_complete CallLoad s1 H1) as H2.
    cbn [Notions.run_settings_call] in H2. unfold after, sbind in *.
    destruct (load s1) as [[a|e] s2]; done. }
  unfold init, after. destruct file as [name|].
  - apply (H (set_settings DEFAULT_SETTINGS (set_settings_file name s))).
    apply complete_defaults.
  - cbv zeta. specialize (Hdir eq_refl). unfold fs_works in Hdir.
    assert (Hfs : ∃ s1, fs_call s = (Returns tt, s1)).
    { destruct_store s. unfold fs_call. fields. cbn [io] in Hdir.
      destruct o as [|[msg|] o]; [by eexists| |by eexists].
      apply Forall_cons in Hdir as [Hd _]. discriminate Hd. }
    destruct Hfs as [s1 Hfs]. unfold sbind at 1. unfold sbind at 1.
    rewrite Hfs.
    apply (H (set_settings DEFAULT_SETTINGS (set_settings_file _ s1))).
    apply complete_defaults.
Qed.

(** X20: once the manager has been made (the settings directory could be
    created, when no file is named), every key of the defaults stays in
    the settings through any calls of [load], [save], [get], [set],
    [get_all] and [reset_to_defaults], whatever the file holds and
    whatever the file system does; so the properties, which index the
    settings by these keys, never raise KeyError. *)
Theorem settings_complete (joinpath : string → string → string)
    (file appdata : option string) (s : Store) (calls : list SettingsCall) :
  (file = None → fs_works 1 s) →
  let s' := foldl (λ s c, run_settings_call c s)
              (after (init max_str_digits joinpath file appdata) s) calls in
  complete (settings s')
  ∧ ∀ key, is_Some (DEFAULT_SETTINGS !! key) →
           ∃ v, getitem key s' = (Returns v, s').
Proof.
  intros Hdir s'.
  assert (Hc : complete (settings s')).
  { subst s'. generalize (init_complete joinpath file appdata s Hdir).
    generalize (after (init max_str_digits joinpath file appdata) s). clear.
    induction calls as [|c calls IH]; intros s H; [done|].
    cbn [foldl]. apply IH. by apply call_complete. }
  split; [done|]. intros key Hkey. destruct (Hc key Hkey) as [v Hv].
  exists v. unfold getitem, sbind, sgets. by rewrite Hv.
Qed.

(** *** The digit limit *)

Lemma writes_insert m key value :
  writes (<[key := value]> m) = true → int_writes (longest_int value) = true.
Proof.
  unfold Settings.writes. intros H%bool_decide_eq_true.
  apply (H key value). apply lookup_insert_eq.
Qed.

Lemma int_writes_reads digits :
  int_writes digits = true → int_reads digits = true.
Proof.
  unfold Settings.int_writes, Settings.int_reads.
  intros H%negb_true_iff. apply negb_true_iff.
  by rewrite <- andb_assoc, H, andb_false_r.
Qed.

Lemma writes_reads m : writes m = true → reads (Mapping m) = true.
Proof.
  unfold Settings.writes. intros H%bool_decide_eq_true. cbn [Settings.reads].
  apply bool_decide_eq_true. intros key v Hv.
  apply int_writes_reads. by apply (H key v).
Qed.

Lemma int_writes_short digits :
  limit_ok max_str_digits → (digits ≤ 640)%N → int_writes digits = true.
Proof.
  unfold limit_ok, Settings.int_writes. intros [->|Hmax] Hd; [done|].
  apply negb_true_iff, andb_false_iff. right. apply N.ltb_ge. lia.
Qed.

Lemma writes_defaults : limit_ok max_str_digits → writes DEFAULT_SETTINGS = true.
Proof.
  intros Hmax. apply bool_decide_eq_true. unfold DEFAULT_SETTINGS.
  cbn [list_to_map foldr uncurry fst snd].
  repeat (apply map_Forall_insert_2;
          [apply int_writes_short; [exact Hmax|by vm_compute]|]).
  apply map_Forall_empty.
Qed.

(** X21: [set] changes the one key and nothing else of the settings, and
    a [get] after it gives the value back, whatever becomes of the save.
    When the file system works and [str] renders every integer of the
    settings, the file then holds the new settings and the answer is
    True.  A save that fails at the opening of the file leaves the file
    as it was; one that fails when the text is written out leaves it
    empty; both answer False.  But when the value is an integer beyond
    the digit limit, [json.dump] raises a ValueError that [save] does
    not catch: [set] raises, the file is left cut short, and the next
    [load] falls back to the defaults. *)
Theorem set_then_get (s : Store) (key : string) (value default : pyval) :
  ∃ r s',
    set key value s = (r, s')
    ∧ settings s' = <[key := value]> (settings s)
    ∧ get key default s' = (Returns value, s')
    ∧ (fs_works 2 s → writes (<[key := value]> (settings s)) = true →
       r = Returns true
       ∧ disk s' = <[settings_file s := Json (Mapping (settings s'))]> (disk s))
    ∧ (∀ msg rest, io s = Some msg :: rest →
       r = Returns false ∧ disk s' = disk s
       ∧ stdout s' = (stdout s ++ ["Error saving settings: " +:+ msg])%list)
    ∧ (∀ msg rest, io s = None :: Some msg :: rest →
       r = Returns false
       ∧ disk s' = <[settings_file s := empty_file]> (disk s)
       ∧ settings (after load s') = DEFAULT_SETTINGS)
    ∧ (fs_works 2 s → int_writes (longest_int value) = false →
       r = Raises ValueError
       ∧ disk s' = <[settings_file s := NotJson (unfinished (settings s'))]>
                     (disk s)
       ∧ settings (after load s') = DEFAULT_SETTINGS).
Proof.
  destruct_store s. unfold fs_works. fields.
  assert (Hload : ∀ why d0 o0 p0 m0,
            settings (after load (mkStore file m0 (<[file := NotJson why]> d0) o0 p0))
            = DEFAULT_SETTINGS).
  { intros why d0 o0 p0 m0. unfold_methods. fields.
    destruct o0 as [|[msg1|] [|[msg2|] [|[msg3|] o0]]];
      fields; rewrite ?lookup_insert_eq;
      rewrite ?bool_decide_eq_true_2 by done;
      fields; rewrite ?lookup_insert_eq; fields; reflexivity. }
  destruct (Settings.writes max_str_digits (<[key := value]> m)) eqn:Hw;
    destruct o as [|[msg|] [|[msg'|] o]];
    eexists _, _;
    (split; [unfold_methods; fields; rewrite ?Hw; fields; reflexivity|]);
    (split; [reflexivity|]);
    (split; [unfold get, sgets; fields; by rewrite lookup_insert_eq|]);
    (split; [intros Hio Hok; cbn [take] in Hio;
             repeat (apply Forall_cons in Hio as [? Hio]); try done;
             fields; split; try done;
             by rewrite ?insert_insert_eq|]);
    (split; [intros ? ? [=]; subst; fields; done|]);
    (split; [intros ? ? [=]; subst; fields;
             repeat split; try done; try apply Hload|]);
    intros Hio Hbig; cbn [take] in Hio;
    repeat (apply Forall_cons in Hio as [? Hio]); try done;
    try (apply writes_insert in Hw; congruence);
    fields; repeat split; try done;
    rewrite ?insert_insert_eq; try done; apply Hload.
Qed.


(** X23: when the file system works and [str] renders every integer of
    the settings, a [load] after a [save] gives the settings back: the
    file holds them, and what [load] returns is the settings laid over
    the defaults, which is the settings themselves when no default key is
    missing; after [reset_to_defaults], under a digit limit the
    interpreter accepts, it gives the defaults. *)
Theorem save_then_load (s : Store) :
  fs_works 5 s →
  (writes (settings s) = true →
   ∃ s', (save ;; load) s = (Returns (settings s ∪ DEFAULT_SETTINGS), s')
     ∧ settings s' = settings s ∪ DEFAULT_SETTINGS
     ∧ disk s' !! settings_file s' = Some (Json (Mapping (settings s)))
     ∧ (complete (settings s) → settings s' = settings s))
  ∧ (limit_ok max_str_digits →
     ∃ s', (reset_to_defaults ;; load) s = (Returns DEFAULT_SETTINGS, s')
       ∧ settings s' = DEFAULT_SETTINGS
       ∧ disk s' !! settings_file s' = Some (Json (Mapping DEFAULT_SETTINGS))).
Proof.
  destruct_store s. unfold fs_works. fields. intros Hio.
  assert (Hround : ∀ m0, Settings.writes max_str_digits m0 = true →
            ∃ s', (save ;; load) (mkStore file m0 d o p)
                  = (Returns (m0 ∪ DEFAULT_SETTINGS), s')
              ∧ s' = mkStore file (m0 ∪ DEFAULT_SETTINGS)
                       (<[file := Json (Mapping m0)]> d) (drop 5 o) p).
  { intros m0 Hw. pose proof (writes_reads m0 Hw) as Hr.
    assert (Ho : (∃ k, (k < 5)%nat ∧ o = replicate k None)
                 ∨ ∃ rest, o = (replicate 5 None ++ rest)%list).
    { clear -Hio. revert o Hio. generalize 5%nat as n.
      induction n as [|n IH]; intros o Hw.
      - right. by exists o.
      - destruct o as [|x o]; [left; exists 0%nat; split; [lia|done]|].
        cbn [take] in Hw. apply Forall_cons in Hw as [-> Hw].
        destruct (IH o Hw) as [(k & Hk & ->)|[rest ->]].
        + left. exists (S k). split; [lia|done].
        + right. by exists rest. }
    destruct Ho as [(k & Hk & ->)|[rest ->]];
      [assert (k = 0 ∨ k = 1 ∨ k = 2 ∨ k = 3 ∨ k = 4)%nat
         as [->|[->|[->|[->| ->]]]] by lia|];
      eexists; (split; [|reflexivity]);
      unfold_methods; cbn [replicate app Nat.add drop]; fields; rewrite Hw;
      repeat progress (fields; rewrite ?lookup_insert_eq;
                       rewrite ?bool_decide_eq_true_2 by done);
      fold (Settings.reads max_str_digits (Mapping m0)); rewrite Hr;
      repeat progress (fields; rewrite ?insert_insert_eq); reflexivity. }
  split.
  - intros Hw. destruct (Hround m Hw) as (s' & Hrun & ->).
    eexists. split; [exact Hrun|]. fields. split; [done|].
    split; [by rewrite lookup_insert_eq|apply union_complete].
  - intros Hmax.
    destruct (Hround DEFAULT_SETTINGS (writes_defaults Hmax))
      as (s' & Hrun & ->).
    assert (Hid : DEFAULT_SETTINGS ∪ DEFAULT_SETTINGS = DEFAULT_SETTINGS).
    { apply map_eq. intros key. rewrite lookup_union.
      by destruct (DEFAULT_SETTINGS !! key). }
    rewrite Hid in Hrun. eexists. split.
    + unfold Settings.reset_to_defaults. unfold sbind at 1. unfold sbind at 1.
      unfold smodify at 1. cbv beta iota.
      unfold sbind in Hrun. unfold set_settings. fields. exact Hrun.
    + fields. split; [done|by rewrite lookup_insert_eq].
Qed.

End Interpreter.

Lemma settings_complete_witness :
  let s := mkStore EmptyString ∅
             {["settings.json" := Json (Mapping {["speed_percent" := PInt 80]})]}
             [] [] in
  let s' := foldl (λ s c, run_settings_call 4300 (λ _, "Expecting value") c s)
              (after (init 4300 (λ a b, a +:+ "/" +:+ b) (Some "settings.json") None)
                 s)
              [CallSet "extend_offset" (PInt 30); CallLoad] in
  ∃ v, speed_percent s' = (Returns v, s').
Proof.
  refine (proj2 (settings_complete 4300 (λ _, "Expecting value")
                   (λ a b, a +:+ "/" +:+ b) (Some "settings.json")
                   None (mkStore EmptyString ∅
                           {["settings.json" :=
                               Json (Mapping {["speed_percent" := PInt 80]})]}
                           [] []) [CallSet "extend_offset" (PInt 30); CallLoad] _)
            "speed_percent" _).
  - intros H. discriminate H.
  - by eexists.
Defined.

Lemma set_then_get_witness :
  let s := mkStore "settings.json" DEFAULT_SETTINGS ∅ [] [] in
  ∃ r s',
    set 640 (λ _, "Expecting value") "speed_percent" (PInt (10 ^ 640)) s = (r, s')
    ∧ get "speed_percent" PNone s' = (Returns (PInt (10 ^ 640)), s')
    ∧ r = Raises ValueError
    ∧ settings (after (load 640) s') = DEFAULT_SETTINGS.
Proof.
  destruct (set_then_get 640 (λ _, "Expecting value")
              (mkStore "settings.json" DEFAULT_SETTINGS ∅ [] [])
              "speed_percent" (PInt (10 ^ 640)) PNone)
    as (r & s' & H1 & _ & H3 & _ & _ & _ & H7).
  exists r, s'. split; [exact H1|]. split; [exact H3|].
  destruct H7 as (Hr & _ & Hl); [constructor|by vm_compute|].
  split; [exact Hr|exact Hl].
Defined.


Lemma save_then_load_witness :
  let s := mkStore "settings.json"
             (<["speed_percent" := PInt 80]> DEFAULT_SETTINGS) ∅ [] [] in
  ∃ s', (save 4300 (λ _, "Expecting value") ;; load 4300) s
        = (Returns (settings s ∪ DEFAULT_SETTINGS), s')
    ∧ settings s' = settings s.
Proof.
  destruct (proj1 (save_then_load 4300 (λ _, "Expecting value")
                     (mkStore "settings.json"
                        (<["speed_percent" := PInt 80]> DEFAULT_SETTINGS) ∅ [] [])
                     ltac:(constructor)))
    as (s' & H1 & _ & _ & H4); [by vm_compute|].
  exists s'. split; [exact H1|]. apply H4.
  apply complete_insert, complete_defaults.
Defined.

End SettingsFacts.

Module ButtonFacts.
Import PyStr PyStrFacts Codec CodecFacts Transport Controller Manager Handlers
  Observations Notions Exec TransportFacts ControllerFacts TransferFacts CycleFacts
  ManagerFacts UploadFacts.

Lemma is_connected_down w : link_up w = false → is_connected w = (Ok false, w).
Proof. unfold link_up, is_connected, gets. by intros ->. Qed.

Lemma send_command_down command w :
  link_up w = false → send_command command w = (Ok false, w).
Proof.
  unfold link_up. intros H. unfold send_command, bind, gets, not_ready.
  cbv beta iota.
  destruct (connected (bt_manager w)); cbn [negb orb andb] in *; [|done].
  destruct (serial_port (bt_manager w)); [done|].
  by rewrite bool_decide_eq_true_2.
Qed.

Lemma port_view_app f w : port_view (set_app f w) = port_view w.
Proof. reflexivity. Qed.

Lemma port_view_logged ev w :
  (∀ data, ev ≠ Written data) → port_view (logged ev w) = port_view w.
Proof.
  intros H. unfold port_view, logged. fields. rewrite written_app.
  destruct ev; try by rewrite app_nil_r. by destruct (H data).
Qed.

Lemma port_view_update_progress w :
  port_view (completed _update_progress w) = port_view w.
Proof.
  unfold completed, _update_progress, truediv, bind, gets, ret, raise.
  cbv beta iota.
  destruct (infinite_cycles (app_state w)); [done|].
  destruct (target_cycles (app_state w)); [|done].
  destruct (0 <? n)%Z; [|done].
  destruct (current_cycle (app_state w)); [|done].
  by destruct (n =? 0)%Z.
Qed.

(** X24: while the link is down no button of the control, terminal and
    firmware tabs reaches the serial port: whatever is pressed, nothing
    is written, the library is not called and the manager stays as it
    is. *)
Theorem link_down_no_write (a : Action) (w : World) :
  link_up w = false →
  port_view (completed (perform a) w) = port_view w.
Proof.
  intros Hdown. pose proof (is_connected_down w Hdown) as Hc.
  assert (Hrun : ∃ r w', perform a w = (r, w') ∧ port_view w' = port_view w).
  { destruct a; cbn [perform].
    - unfold _go_home, showwarning. rewrite (bind_ok _ _ _ _ _ Hc). cbn [negb].
      eexists _, _. split; [reflexivity|]. by apply port_view_logged.
    - unfold _go_extend, showwarning. rewrite (bind_ok _ _ _ _ _ Hc). cbn [negb].
      eexists _, _. split; [reflexivity|]. by apply port_view_logged.
    - unfold _go_retract, showwarning. rewrite (bind_ok _ _ _ _ _ Hc). cbn [negb].
      eexists _, _. split; [reflexivity|]. by apply port_view_logged.
    - unfold _start_cycles, showwarning. rewrite (bind_ok _ _ _ _ _ Hc).
      cbn [negb]. eexists _, _. split; [reflexivity|]. by apply port_view_logged.
    - unfold _pause_cycles. rewrite (bind_ok _ _ _ _ _ Hc). cbn [negb].
      by eexists _, _.
    - unfold _stop_cycles. rewrite (bind_ok _ _ _ _ _ Hc). cbn [negb].
      by eexists _, _.
    - unfold _adjust_cycles. rewrite bind_gets. cbv zeta.
      rewrite !bind_assign_app.
      match goal with
      | |- context [bind (send_command ?c) ?k ?w0] =>
          rewrite (bind_ok _ _ _ _ _ (send_command_down c w0 Hdown))
      end.
      match goal with
      | |- ∃ r w', _update_progress ?w0 = _ ∧ _ =>
          exists (_update_progress w0).1, (_update_progress w0).2;
          split; [by destruct (_update_progress w0)|];
          exact (port_view_update_progress w0)
      end.
    - unfold _on_infinite_changed.
      exists (_update_progress w).1, (_update_progress w).2.
      split; [by destruct (_update_progress w)|].
      exact (port_view_update_progress w).
    - unfold _send_serial_command. cbv zeta.
      destruct (String.eqb (str_strip text) EmptyString); [by eexists _, _|].
      rewrite (bind_ok _ _ _ _ _ Hc). cbn [negb]. unfold _append_serial_output.
      eexists _, _. split; [reflexivity|]. by apply port_view_logged.
    - unfold _send_quick_command. rewrite (bind_ok _ _ _ _ _ Hc). cbn [negb].
      unfold _append_serial_output.
      eexists _, _. split; [reflexivity|]. by apply port_view_logged.
    - unfold _check_firmware_version, showwarning.
      rewrite (bind_ok _ _ _ _ _ Hc). cbn [negb].
      eexists _, _. split; [reflexivity|]. by apply port_view_logged.
    - unfold _browse_firmware.
      destruct (negb _); eexists _, _; (split; [reflexivity|]); reflexivity.
    - unfold _start_ota_upload, showwarning.
      rewrite (bind_ok _ _ _ _ _ Hc). cbn [negb].
      eexists _, _. split; [reflexivity|]. by apply port_view_logged.
    - unfold _abort_ota_upload. rewrite bind_gets.
      destruct (ota_in_progress (app_state w)); [|by eexists _, _].
      rewrite bind_assign_app.
      match goal with
      | |- context [bind (send_command ?c) ?k ?w0] =>
          rewrite (bind_ok _ _ _ _ _ (send_command_down c w0 Hdown))
      end.
      unfold _append_serial_output.
      eexists _, _. split; [reflexivity|].
      by apply (port_view_logged (SerialOutput ">>> OTA_ABORT" "sent")
                  (set_app (set_ota_abort_flag true (app_state w)) w)). }
  destruct Hrun as (r & w' & Hrun & Hview). unfold completed. by rewrite Hrun.
Qed.

Lemma link_down_no_write_witness :
  port_view (completed (perform PressStart) initial_world)
  = port_view initial_world
  ∧ port_view (completed (perform (EnterCommand "STATUS")) initial_world)
    = port_view initial_world.
Proof.
  split.
  - apply (link_down_no_write PressStart initial_world). reflexivity.
  - apply (link_down_no_write (EnterCommand "STATUS") initial_world). reflexivity.
Defined.

(** *** Stripping *)

Lemma rstrip_idem f s : rstrip_with f (rstrip_with f s) = rstrip_with f s.
Proof.
  induction s as [|c r IH]; [done|]. cbn [rstrip_with].
  destruct (rstrip_with f r) as [|d r'] eqn:E.
  - destruct (f c) eqn:Hc; [done|]. cbn [rstrip_with]. by rewrite Hc.
  - cbn [rstrip_with] in *. by rewrite IH.
Qed.

Lemma rstrip_head f c r :
  f c = false → ∃ r', rstrip_with f (String c r) = String c r'.
Proof.
  intros Hc. cbn [rstrip_with]. rewrite Hc.
  destruct (rstrip_with f r); by eexists.
Qed.

Lemma lstrip_head f s :
  lstrip_with f s = EmptyString
  ∨ ∃ c r, lstrip_with f s = String c r ∧ f c = false.
Proof.
  induction s as [|c r IH]; [by left|]. cbn [lstrip_with].
  destruct (f c) eqn:Hc; [done|]. right. by exists c, r.
Qed.

Lemma str_strip_idem s : str_strip (str_strip s) = str_strip s.
Proof.
  unfold str_strip.
  destruct (lstrip_head is_whitespace s) as [->|(c & r & -> & Hc)]; [done|].
  destruct (rstrip_head is_whitespace c r Hc) as [r' Hr]. rewrite Hr.
  cbn [lstrip_with]. rewrite Hc. rewrite <- Hr. apply rstrip_idem.
Qed.

(** X25: the terminal sends what the entry field holds with the white
    space around it stripped: on an open link the line is shown in the
    pane behind ">>> " and written, followed by one newline; an entry
    that is empty or all white space is ignored: nothing is shown and
    nothing is sent. *)
Theorem terminal_sends_stripped (w : World) (text : string) :
  (str_strip text = EmptyString → _send_serial_command text w = (Ok tt, w))
  ∧ (str_strip text ≠ EmptyString →
     connected (bt_manager w) = true → serial_port (bt_manager w) ≠ None →
     calls_return 2 w →
     _send_serial_command text w
     = (Ok tt,
        after_effects
          [SerialOutput (">>> " +:+ str_strip text) "sent";
           Written (encode_utf8 (str_strip text +:+ newline)); Flushed] 2 w)).
Proof.
  unfold _send_serial_command. cbv zeta. split.
  - by intros ->.
  - intros Hne Hconn Hsp Hret.
    destruct (String.eqb_spec (str_strip text) EmptyString) as [|_]; [done|].
    unfold is_connected, _append_serial_output. step.
    rewrite Hconn, bool_decide_eq_true_2 by done. cbn [andb negb]. step.
    rewrite bind_send_command_ok by (fields; assumption).
    rewrite str_strip_idem. unfold ret, after_effects, logged. fields.
    by rewrite <- !app_assoc.
Qed.

Lemma terminal_sends_stripped_witness :
  _send_serial_command "  STATUS " connected_world
  = (Ok tt,
     after_effects
       [SerialOutput ">>> STATUS" "sent";
        Written (encode_utf8 ("STATUS" +:+ newline)); Flushed] 2 connected_world).
Proof.
  apply (proj2 (terminal_sends_stripped connected_world "  STATUS ")).
  - discriminate.
  - reflexivity.
  - discriminate.
  - apply calls_return_nil. reflexivity.
Defined.

End ButtonFacts.

Module ReaderFacts.
Import PyStr PyStrFacts Codec Transport Controller Manager Observations Notions
  Exec TransportFacts ControllerFacts ManagerFacts ButtonFacts.

Lemma deliverable_stripped incoming :
  Forall (λ line, line ≠ EmptyString ∧ str_strip line = line)
    (deliverable incoming).
Proof.
  induction incoming as [|[|text|e] rest IH]; cbn [deliverable]; try done.
  - destruct (String.eqb_spec (str_strip text) EmptyString) as [|Hne]; [done|].
    constructor; [|done]. split; [done|apply str_strip_idem].
  - by destruct (is_SerialException e).
Qed.

Lemma broken_cons found rest :
  broken (found :: rest)
  = match found with
    | Fails e => is_SerialException e
    | _ => false
    end || broken rest.
Proof. reflexivity. Qed.

(** X26: the reader thread, with the link up and a listener installed,
    hands on every line that is not empty once stripped, stripped and in
    order, and nothing else; it sleeps 10 ms through every empty turn and
    100 ms after every exception that is no serial fault, which it
    reports; at the first serial fault it reports it, runs the disconnect
    handling once and ends.  It never raises. *)
Theorem reader_delivers (incoming : list Incoming) :
  ∀ (delivered : list string) (w : World),
  connected (bt_manager w) = true → serial_port (bt_manager w) ≠ None →
  _stop_reader (bt_manager w) = false →
  on_data_received (bt_manager w) = true →
  ∃ w', _read_loop incoming delivered w
        = (Ok ((delivered ++ deliverable incoming)%list, broken incoming), w')
    ∧ connected (bt_manager w') = negb (broken incoming)
    ∧ trace (env w')
      = (trace (env w)
         ++ reader_log (on_connection_changed (bt_manager w)) incoming)%list
    ∧ clock (env w') = (clock (env w) + reader_sleep incoming)%Z
    ∧ disconnect_notices (reader_log (on_connection_changed (bt_manager w))
                            incoming)
      = (if broken incoming && on_connection_changed (bt_manager w)
         then 1 else 0)%nat
    ∧ Forall (λ line, line ≠ EmptyString ∧ str_strip line = line)
        (deliverable incoming).
Proof.
  induction incoming as [|found rest IH]; intros delivered w Hconn Hsp Hstop Hodr.
  - exists w. split; [|split; [|split; [|split; [|split]]]].
    + cbn [_read_loop]. rewrite bind_gets, Hstop, bind_gets.
      unfold not_ready. rewrite Hconn, bool_decide_eq_false_2 by done.
      cbn [negb orb deliverable broken existsb]. by rewrite app_nil_r.
    + by rewrite Hconn.
    + cbn [reader_log]. by rewrite app_nil_r.
    + cbn [reader_sleep]. lia.
    + reflexivity.
    + constructor.
  - assert (Hhead : _read_loop (found :: rest) delivered w
              = match found with
                | Nothing => (settle 10 ;; _read_loop rest delivered) w
                | Line text =>
                    if negb (String.eqb (str_strip text) EmptyString)
                    then _read_loop rest (delivered ++ [str_strip text]) w
                    else _read_loop rest delivered w
                | Fails e =>
                    if is_SerialException e then
                      (print ("Read error: " +:+ str_of_exn e) ;;
                       _handle_disconnect ;; ret (delivered, true)) w
                    else
                      (print ("Unexpected read error: " +:+ str_of_exn e) ;;
                       settle 100 ;; _read_loop rest delivered) w
                end) by
      (destruct found; cbn [_read_loop];
       rewrite bind_gets, Hstop, bind_gets;
       unfold not_ready; rewrite Hconn, bool_decide_eq_false_2 by done;
       cbn [negb orb]; rewrite ?Hodr, ?andb_true_r;
       try destruct (negb (String.eqb _ _)); try destruct (is_SerialException _);
       reflexivity).
    rewrite Hhead. clear Hhead.
    destruct found as [|text|e].
    + rewrite broken_cons. cbn [deliverable orb reader_log reader_sleep].
      unfold settle, assign_env. rewrite bind_bind, bind_emit, bind_modify.
      match goal with
      | |- ∃ w', _read_loop rest delivered ?w1 = _ ∧ _ =>
          destruct (IH delivered w1) as (w' & Hrun & Hc & Ht & Hk & Hn & Hf);
            try done
      end.
      exists w'. split; [exact Hrun|]. split; [exact Hc|].
      split; [|split; [|split; [exact Hn|exact Hf]]].
      * rewrite Ht. fields. by rewrite <- app_assoc.
      * rewrite Hk. fields. lia.
    + rewrite broken_cons. cbn [deliverable orb reader_log reader_sleep].
      destruct (String.eqb (str_strip text) EmptyString) eqn:E; cbn [negb].
      * destruct (IH delivered w) as (w' & Hrun & Hc & Ht & Hk & Hn & Hf);
          try done.
        by exists w'.
      * destruct (IH (delivered ++ [str_strip text])%list w)
          as (w' & Hrun & Hc & Ht & Hk & Hn & Hf); try done.
        exists w'. split; [by rewrite Hrun, <- app_assoc|].
        do 4 (split; [done|]).
        pose proof (deliverable_stripped (Line text :: rest)) as Hall.
        cbn [deliverable] in Hall. by rewrite E in Hall.
    + rewrite broken_cons. cbn [deliverable reader_log reader_sleep].
      destruct (is_SerialException e) eqn:He; cbn [orb].
      * unfold print, _handle_disconnect, notify_connection_changed.
        destruct (on_connection_changed (bt_manager w)) eqn:Hocc.
        -- eexists. split; [|split; [|split; [|split; [|split]]]].
           ++ run. fields. rewrite Hocc. run. by rewrite app_nil_r.
           ++ reflexivity.
           ++ fields. by rewrite <- !app_assoc.
           ++ fields. lia.
           ++ reflexivity.
           ++ constructor.
        -- eexists. split; [|split; [|split; [|split; [|split]]]].
           ++ run. fields. rewrite Hocc. run. by rewrite app_nil_r.
           ++ reflexivity.
           ++ reflexivity.
           ++ fields. lia.
           ++ reflexivity.
           ++ constructor.
      * unfold print, settle, assign_env.
        rewrite bind_emit, bind_bind, bind_emit, bind_modify.
        match goal with
        | |- ∃ w', _read_loop rest delivered ?w1 = _ ∧ _ =>
            destruct (IH delivered w1) as (w' & Hrun & Hc & Ht & Hk & Hn & Hf);
              try done
        end.
        exists w'. split; [exact Hrun|]. split; [exact Hc|].
        split; [|split; [|split; [exact Hn|exact Hf]]].
        -- rewrite Ht. fields. by rewrite <- !app_assoc.
        -- rewrite Hk. fields. lia.
Qed.

Lemma reader_delivers_witness :
  ∃ w', _read_loop
          [Nothing; Line "  OK:READY "; Line "   ";
           Fails (ValueError "bad byte"); Line "PONG";
           Fails (SerialException "device gone"); Line "late"]
          [] connected_world
        = (Ok (["OK:READY"; "PONG"], true), w')
    ∧ connected (bt_manager w') = false
    ∧ trace (env w')
      = (trace (env connected_world)
         ++ [Slept 10; Printed "Unexpected read error: bad byte"; Slept 100;
             Printed "Read error: device gone"; ConnectionChanged false;
             After (update_connection_ui false)])%list
    ∧ clock (env w') = (clock (env connected_world) + 110)%Z.
Proof.
  destruct (reader_delivers
              [Nothing; Line "  OK:READY "; Line "   ";
               Fails (ValueError "bad byte"); Line "PONG";
               Fails (SerialException "device gone"); Line "late"]
              [] connected_world)
    as (w' & H1 & H2 & H3 & H4 & _);
    [reflexivity|discriminate|reflexivity|reflexivity|].
  exists w'. split; [exact H1|]. split; [exact H2|]. split; [exact H3|exact H4].
Defined.

End ReaderFacts.

Module WorkerFacts.
Import PyStr PyStrFacts Codec CodecFacts Transport Controller Manager Observations
  Notions Exec TransportFacts ControllerFacts TransferFacts.

(** *** The files stay as they are *)

Lemma keeps_stored_library_call : Keeps stored library_call.
Proof.
  intros w. unfold completed, library_call.
  by destruct (faults (env w)) as [|[e|] rest].
Qed.

Ltac keeps_stored :=
  repeat
    lazymatch goal with
    | |- Keeps _ (bind _ _) => apply keeps_bind; [|intros ?]
    | |- Keeps _ (try_except _ _ _) => apply keeps_try; [|intros ?]
    | |- Keeps _ (ret _) => apply keeps_ret
    | |- Keeps _ (raise _) => apply keeps_raise
    | |- Keeps _ (gets _) => apply keeps_gets
    | |- Keeps _ (assign_app _) => intros ?; reflexivity
    | |- Keeps _ (assign_manager _) => intros ?; reflexivity
    | |- Keeps _ (assign_env _) => intros ?; reflexivity
    | |- Keeps _ (emit _) => intros ?; reflexivity
    | |- Keeps _ (print _) => intros ?; reflexivity
    | |- Keeps _ (root_after _) => intros ?; reflexivity
    | |- Keeps _ library_call => apply keeps_stored_library_call
    | |- Keeps _ (if ?b then _ else _) => destruct b
    | |- Keeps _ (match ?x with _ => _ end) => destruct x
    | |- Keeps _ (let _ := _ in _) => cbv zeta
    | |- Keeps _ ?m =>
        first [ solve [auto with keeps]
              | let h := keeps_head m in unfold h ]
    end.

Lemma keeps_stored_handle_disconnect : Keeps stored _handle_disconnect.
Proof. keeps_stored. Qed.

#[local] Hint Resolve keeps_stored_handle_disconnect : keeps.

Lemma keeps_stored_send_command command : Keeps stored (send_command command).
Proof. keeps_stored. Qed.

Lemma keeps_stored_update_progress : Keeps stored _update_progress.
Proof. unfold _update_progress, truediv. keeps_stored. Qed.

#[local] Hint Resolve keeps_stored_send_command keeps_stored_update_progress
  : keeps.

Lemma keeps_stored_abort : Keeps stored _abort_ota_upload.
Proof. keeps_stored. Qed.

Lemma keeps_stored_run_task task : Keeps stored (run_task task).
Proof. destruct task; keeps_stored. Qed.

Lemma run_pending_stored w : stored (run_pending w) = stored w.
Proof.
  unfold run_pending.
  change (stored w) with (stored (set_env (set_pending [] (env w)) w)).
  generalize (set_env (set_pending [] (env w)) w).
  induction (pending (env w)) as [|task tasks IH]; intros w0; [done|].
  cbn [foldl]. rewrite IH. apply keeps_stored_run_task.
Qed.

Section Interpreter.
Variable max_str_digits : N.

Lemma keeps_stored_process_response data :
  Keeps stored (_process_response max_str_digits data).
Proof. unfold _process_response, truediv. keeps_stored. Qed.

Lemma env_step_stored ev w : stored (env_step max_str_digits ev w) = stored w.
Proof.
  destruct ev; cbn [env_step]; [done| | | |].
  - apply keeps_stored_process_response.
  - apply keeps_stored_abort.
  - apply keeps_stored_handle_disconnect.
  - apply run_pending_stored.
Qed.

Lemma await_ready_stored events : ∀ ms w,
  stored (await_ready max_str_digits ms events w).2 = stored w.
Proof.
  induction events as [|ev events IH]; intros ms w; cbn [await_ready].
  - by destruct (ota_ready_event (app_state w)).
  - destruct (ota_ready_event (app_state w)); [done|].
    destruct ev;
      try (rewrite IH; apply (env_step_stored _ w)).
    destruct (ms0 <=? ms)%Z; [by rewrite IH|done].
Qed.

(** *** The loop comes to an end *)

(** With the bytes that are left counted right, the loop needs one turn
    for every 512 of them. *)
Lemma transfer_loop_bounded fuel : ∀ file_size f bytes_sent last w,
  file_size = (bytes_sent + Z.of_nat (length f))%Z →
  (length f ≤ 512 * fuel)%nat →
  (transfer_loop max_str_digits fuel file_size 512 f bytes_sent last w).1
  ≠ Ok None.
Proof.
  induction fuel as [|fuel IH]; intros file_size f bytes_sent last w Hsize Hfuel.
  { cbn [transfer_loop]. rewrite (proj2 (Z.ltb_ge _ _)) by lia. done. }
  cbn [transfer_loop]. destruct (bytes_sent <? file_size)%Z; [|done].
  rewrite bind_gets. destruct (ota_abort_flag (app_state w)).
  { unfold _ota_finish. by rewrite bind_root_after. }
  unfold is_connected at 1. rewrite bind_gets.
  destruct (connected (bt_manager w) && _); cbn [negb];
    [|unfold _ota_finish; by rewrite bind_root_after].
  rewrite bind_gets. destruct (5000 <? _)%Z;
    [unfold _ota_finish; by rewrite bind_root_after|].
  change (Z.to_nat 512) with 512%nat.
  destruct (bool_decide_reflect (take 512 f = [])) as [|Hchunk]; [done|].
  unfold bind at 1. destruct (send_bytes (take 512 f) w) as [[[]|e] w1]; [| |done].
  - cbn [negb]. rewrite bind_gets. unfold truediv.
    destruct (file_size =? 0)%Z; [done|].
    rewrite bind_ret, bind_root_after. unfold time_sleep at 1.
    rewrite bind_bind, bind_emit, bind_modify.
    apply IH.
    + rewrite Hsize. rewrite <- (take_drop 512 f) at 1.
      rewrite length_app. lia.
    + rewrite length_drop. lia.
  - cbn [negb]. unfold _ota_finish. by rewrite bind_root_after.
Qed.

(** X27: the worker always comes to an end and lets no exception out,
    whatever the device sends, the user clicks and the library raises
    meanwhile: it returns after at most one turn of the loop for every
    512 bytes of the file, begun ones included. *)
Theorem worker_returns (w : World) (fuel : nat) :
  (∀ path bytes,
     ota_file_path (app_state w) = Some path →
     files (env w) !! path = Some bytes →
     (length bytes ≤ 512 * fuel)%nat) →
  ∃ w', _ota_upload_thread max_str_digits fuel w = (Ok (Some tt), w').
Proof.
  intros Hfuel. unfold _ota_upload_thread.
  match goal with
  | |- ∃ w', try_except ?b _ _ w = _ => set (body := b)
  end.
  assert (Hbody : (body w).1 ≠ Ok None).
  { subst body. cbv beta. rewrite bind_gets.
    destruct (ota_file_path (app_state w)) as [path|] eqn:Hpath; [|done].
    unfold getsize at 1. rewrite bind_bind, bind_gets.
    destruct (files (env w) !! path) as [bytes|] eqn:Hfile; [|done].
    specialize (Hfuel path bytes eq_refl Hfile).
    rewrite bind_ret. cbv zeta. rewrite !bind_assign_app.
    set (w0 := set_app (set_ota_error_message None _) _).
    pose proof (keeps_stored_send_command
                  ("OTA_START:" +:+ str_of_int (Z.of_nat (length bytes))) w0)
      as Hsend.
    unfold completed in Hsend. unfold bind at 1.
    destruct (send_command _ w0) as [[sent|e] w1]; [|done].
    cbn [snd] in Hsend. rewrite !bind_root_after.
    set (w2 := queued _ (queued _ w1)).
    assert (H2 : stored w2 = stored w).
    { transitivity (stored w1); [reflexivity|]. by rewrite Hsend. }
    clearbody w2. clear Hsend w1.
    unfold ota_ready_event_wait, bind at 1.
    pose proof (await_ready_stored (timeline (env w2)) 5000 w2) as Hwait.
    destruct (await_ready max_str_digits 5000 (timeline (env w2)) w2)
      as [ready w3].
    cbn [snd] in Hwait. rewrite H2 in Hwait. clear H2 w2.
    destruct ready; cbn [negb].
    - rewrite bind_gets. destruct (truthy _); [done|].
      rewrite bind_gets. destruct (ota_abort_flag (app_state w3)).
      { unfold _ota_finish. by rewrite bind_root_after. }
      rewrite bind_gets. unfold open_rb. rewrite bind_bind, bind_gets.
      unfold stored in Hwait. rewrite Hwait, Hfile, bind_ret.
      pose proof (transfer_loop_bounded fuel (Z.of_nat (length bytes)) bytes 0
                    (clock (env w3)) w3 eq_refl Hfuel) as Hloop.
      unfold bind at 1.
      destruct (transfer_loop _ _ _ _ _ _ _ w3) as [[[[]|]|e] w4];
        [| |done|done].
      + done.
      + unfold _ota_finish, time_sleep.
        by rewrite bind_root_after, bind_bind, bind_emit, bind_modify,
             bind_root_after.
    - rewrite bind_gets. unfold _ota_finish.
      destruct (truthy _); by rewrite bind_root_after. }
  unfold try_except. destruct (body w) as [[[[]|]|e] w1]; [by eexists|done|].
  cbn [any_exception]. unfold _ota_finish. rewrite bind_root_after. by eexists.
Qed.

(** X28: what was left in the ready latch and the error message before
    a session has no effect on it: the worker clears both before it
    announces the upload, so that, for a file that is there, it runs and
    ends as it would have without them. *)
Theorem stale_latch_cleared (w : World) (fuel : nat) (latch : bool)
    (message : option string) (path : string) (bytes : list Byte.byte) :
  ota_file_path (app_state w) = Some path →
  files (env w) !! path = Some bytes →
  _ota_upload_thread max_str_digits fuel
    (set_app (set_ota_error_message message
                (set_ota_ready_event latch (app_state w))) w)
  = _ota_upload_thread max_str_digits fuel w.
Proof.
  intros Hpath Hfile. unfold _ota_upload_thread, try_except.
  match goal with
  | |- match ?b ?w1 with _ => _ end = _ => set (body := b); set (stale := w1)
  end.
  assert (Hbody : body stale = body w); [|by rewrite Hbody].
  subst body. cbv beta. rewrite !bind_gets.
  assert (Hstale : ota_file_path (app_state stale) = Some path)
    by (subst stale; destruct_world w; exact Hpath).
  rewrite Hstale, Hpath.
  rewrite (bind_ok _ _ _ _ _ (getsize_file path bytes stale Hfile)).
  rewrite (bind_ok _ _ _ _ _ (getsize_file path bytes w Hfile)).
  cbv zeta. rewrite !bind_assign_app.
  subst stale. by destruct_world w.
Qed.

End Interpreter.

Lemma worker_returns_witness :
  ∃ w', _ota_upload_thread 4300 2
          (upload_world (repeat Byte.x41 700)
             [Tick 100; DeviceLine "OK:OTA_READY"; AbortClicked])
        = (Ok (Some tt), w').
Proof.
  apply (worker_returns 4300
           (upload_world (repeat Byte.x41 700)
              [Tick 100; DeviceLine "OK:OTA_READY"; AbortClicked]) 2).
  intros path bytes Hpath Hfile.
  vm_compute in Hpath. injection Hpath as <-.
  vm_compute in Hfile. injection Hfile as <-.
  apply Nat.leb_le. vm_compute. reflexivity.
Defined.

Lemma stale_latch_cleared_witness :
  let w := upload_world (repeat Byte.x41 700) [DeviceLine "OK:OTA_READY"] in
  _ota_upload_thread 4300 2
    (set_app (set_ota_error_message (Some "ERR:OTA old")
                (set_ota_ready_event true (app_state w))) w)
  = _ota_upload_thread 4300 2 w.
Proof.
  apply (stale_latch_cleared 4300
           (upload_world (repeat Byte.x41 700) [DeviceLine "OK:OTA_READY"])
           2 true (Some "ERR:OTA old") "firmware.bin" (repeat Byte.x41 700));
    reflexivity.
Defined.

End WorkerFacts.
